(** * The XOne REST client layer: retry loop, response classification,
      header construction and the token-manager slot.

    A shallow embedding of [client_base.py] and of the parts of [config.py]
    it reads.  Python objects become records, the mutable token-manager slot
    of an [ApiConfig] lives in a store keyed by object identity, and the
    external collaborators (the token service, the HTTP session, the clock)
    are oracles whose calls are logged in a trace.  Exceptions are values:
    every operation returns [Ok] or [Raise], and [except Exception] is the
    test [isinstance e Exception] over the class hierarchy. *)

From Stdlib Require Import ZArith QArith String Ascii List Lia Bool.
From stdpp Require Import base option list gmap strings pretty.
From Equations Require Import Equations.
Import ListNotations.

Set Warnings "-register-all".

Local Open Scope string_scope.
Local Open Scope Z_scope.

(** ** Python exceptions *)

Module Py.

(** The exception classes that occur in [client_base.py], together with
    the built-in and transport-library classes they derive from. *)
Inductive exc_class :=
| BaseException | KeyboardInterrupt | SystemExit
| Exception | RuntimeError | TypeError | ValueError | AttributeError | OSError
| JSONDecodeError        (* raised by [Response.json] *)
| RequestException       (* requests.RequestException(IOError) *)
| ConnectionError_ | Timeout
| HTTPError              (* requests.HTTPError *)
| HttpClientError        (* client_base.py:23 *)
| HttpServerError        (* client_base.py:27 *)
| Unauthorized           (* client_base.py:31 *)
| NotFound               (* client_base.py:35 *)
| ClientError.           (* client_base.py:39 *)

#[global] Instance exc_class_eq_dec : EqDecision exc_class.
Proof. solve_decision. Defined.

(** The direct base class, as written in each [class] statement. *)
Definition base (c : exc_class) : option exc_class :=
  match c with
  | BaseException => None
  | KeyboardInterrupt | SystemExit | Exception => Some BaseException
  | RuntimeError | TypeError | ValueError | AttributeError | OSError => Some Exception
  | JSONDecodeError => Some ValueError
  | RequestException => Some OSError
  | ConnectionError_ | Timeout | HTTPError => Some RequestException
  | HttpClientError | HttpServerError => Some HTTPError
  | Unauthorized | NotFound => Some HttpClientError
  | ClientError => Some RuntimeError
  end.

(** [issubclass c d]: follow [base] upwards; the hierarchy is six deep. *)
Fixpoint issubclass_upto (n : nat) (c d : exc_class) : bool :=
  if decide (c = d) then true
  else match n, base c with
       | S n', Some c' => issubclass_upto n' c' d
       | _, _ => false
       end.

Definition issubclass : exc_class -> exc_class -> bool := issubclass_upto 8.

(** An exception instance: its class and [str(e)]. *)
Record exc := mk_exc { exc_class_of : exc_class; str : string }.

#[global] Instance exc_eq_dec : EqDecision exc.
Proof. solve_decision. Defined.

Definition isinstance (e : exc) (c : exc_class) : bool :=
  issubclass (exc_class_of e) c.

(** Values that travel through [**params]. *)
Inductive value :=
| PyNone | PyBool (b : bool) | PyInt (z : Z) | PyStr (s : string).

#[global] Instance value_eq_dec : EqDecision value.
Proof. solve_decision. Defined.

(** Truth value testing, as used by [if not is_mime]. *)
Definition truthy (v : value) : bool :=
  match v with
  | PyNone => false
  | PyBool b => b
  | PyInt z => negb (z =? 0)
  | PyStr s => negb (String.eqb s "")
  end.

(** [str.upper] on the ASCII letters. *)
Definition upper_ascii (a : ascii) : ascii :=
  let n := nat_of_ascii a in
  if ((97 <=? n) && (n <=? 122))%nat then ascii_of_nat (n - 32) else a.

Fixpoint upper (s : string) : string :=
  match s with
  | EmptyString => EmptyString
  | String a s' => String (upper_ascii a) (upper s')
  end.

(** Outcome of evaluating an expression: a value or a raised exception. *)
Inductive result (A : Type) :=
| Ok (a : A)
| Raise (e : exc).
Arguments Ok {A} a.
Arguments Raise {A} e.

End Py.
Export Py.

(** ** The transport library's response object *)

Module Requests.

Inductive json :=
| JNull | JBool (b : bool) | JNum (z : Z) | JStr (s : string)
| JArr (l : list json) | JObj (l : list (string * json)).

(** What [client_base.py] reads from a [requests.Response]:
    [status_code], [text], and the methods [raise_for_status] (which
    formats [reason] and [url]) and [json] (whose outcome is recorded in
    [json_]: the decoded body, or the decoder's exception). *)
Record Response := mk_Response {
  status_code : Z;
  reason : string;
  url : string;
  text : string;
  json_ : result json
}.

(** [Response.raise_for_status]: an [HTTPError] for 4xx and 5xx, with the
    library's status-line message; nothing otherwise. *)
Definition raise_for_status (r : Response) : result unit :=
  let sc := status_code r in
  if (400 <=? sc) && (sc <? 500) then
    Raise (mk_exc HTTPError
      (pretty sc ++ " Client Error: " ++ reason r ++ " for url: " ++ url r))
  else if (500 <=? sc) && (sc <? 600) then
    Raise (mk_exc HTTPError
      (pretty sc ++ " Server Error: " ++ reason r ++ " for url: " ++ url r))
  else Ok tt.

(** [Response.ok]: whether [raise_for_status] passes.  The library
    documents it as true when the status code is less than 400, and as no
    check for 200 OK. *)
Definition ok (r : Response) : bool :=
  match raise_for_status r with
  | Ok _ => true
  | Raise _ => false
  end.

End Requests.
Export Requests.

(** ** client_base.py: response classification *)

Definition is_ok (status : Z) : bool := (status <=? 299) && (200 <=? status).

Definition check_response (resp : Response) : result Response :=
  if negb (ok resp) then
    let message := pretty (status_code resp) ++ ": " ++ text resp in
    let message :=
      if String.eqb (text resp) "" then
        match raise_for_status resp with
        | Raise e => str e
        | Ok _ => message
        end
      else message in
    if status_code resp =? 403 then Raise (mk_exc Unauthorized message)
    else if status_code resp =? 404 then Raise (mk_exc NotFound message)
    else Raise (mk_exc ClientError message)
  else Ok resp.


(** ** config.py: the configuration tree *)

Module Config.

(** A field declared [optional()] holds [MISSING] until it is given. *)
Inductive maybe (A : Type) :=
| MISSING
| Given (a : A).
Arguments MISSING {A}.
Arguments Given {A} a.

(** Identity of an [ApiConfig] object; its mutable [token_mgr] slot is
    kept in the store under this key. *)
Definition loc := Z.

Record ApiConfig := mk_ApiConfig {
  api_id : loc;
  comment : maybe string;
  origin : maybe string;
  scope : string;
  client_id : string;
  client_secret : string
}.

Record XOneEnv := mk_XOneEnv {
  trade_information : ApiConfig;
  csa_information : ApiConfig;
  pricing_model : ApiConfig;
  endpoint : string;
  xone_env : string;
  version : string;
  sgconnect_env : maybe string;
  implicit_client_id : string;
  implicit_redirect_uri : string
}.

Record XOneConfig := mk_XOneConfig {
  prod : XOneEnv;
  uat : XOneEnv;
  prebeta : XOneEnv;
  yesterday : XOneEnv
}.

Record RootConfig := mk_RootConfig {
  xone : XOneConfig;
  logger : string;
  max_retries : Z;
  timeout : Z
}.

(** Attribute lookup by name on an [XOneEnv] instance: the declared fields
    and nothing else. *)
Inductive attr :=
| AttrStr (s : string)
| AttrApi (a : ApiConfig)
| AttrMissing.

Definition no_attribute (cls name : string) : exc :=
  mk_exc AttributeError ("'" ++ cls ++ "' object has no attribute '" ++ name ++ "'").

Definition of_maybe (m : maybe string) : attr :=
  match m with
  | MISSING => AttrMissing
  | Given s => AttrStr s
  end.

Definition XOneEnv_getattr (e : XOneEnv) (name : string) : result attr :=
  if String.eqb name "trade_information" then Ok (AttrApi (trade_information e))
  else if String.eqb name "csa_information" then Ok (AttrApi (csa_information e))
  else if String.eqb name "pricing_model" then Ok (AttrApi (pricing_model e))
  else if String.eqb name "endpoint" then Ok (AttrStr (endpoint e))
  else if String.eqb name "xone_env" then Ok (AttrStr (xone_env e))
  else if String.eqb name "version" then Ok (AttrStr (version e))
  else if String.eqb name "sgconnect_env" then Ok (of_maybe (sgconnect_env e))
  else if String.eqb name "implicit_client_id" then Ok (AttrStr (implicit_client_id e))
  else if String.eqb name "implicit_redirect_uri" then Ok (AttrStr (implicit_redirect_uri e))
  else Raise (no_attribute "XOneEnv" name).

(** [getattr(config.xone, name)], used by the named clients. *)
Definition XOneConfig_getattr (x : XOneConfig) (name : string) : result XOneEnv :=
  if String.eqb name "prod" then Ok (prod x)
  else if String.eqb name "uat" then Ok (uat x)
  else if String.eqb name "prebeta" then Ok (prebeta x)
  else if String.eqb name "yesterday" then Ok (yesterday x)
  else Raise (no_attribute "XOneConfig" name).

(** [EnvType = typing.Union[str, XOneEnv]] *)
Inductive EnvType :=
| EnvName (name : string)
| EnvObj (e : XOneEnv).

End Config.
Export Config.

(** ** The URL helpers of the standard library used by [url_join] *)

Module Urllib.

(** [s.find(c)] as a split: the text before and after the first [c]. *)
Fixpoint split_first (c : ascii) (s : string) : option (string * string) :=
  match s with
  | EmptyString => None
  | String a s' =>
      if Ascii.eqb a c then Some (EmptyString, s')
      else match split_first c s' with
           | Some (l, r) => Some (String a l, r)
           | None => None
           end
  end.

Definition is_alpha (a : ascii) : bool :=
  let n := nat_of_ascii a in
  (((65 <=? n) && (n <=? 90)) || ((97 <=? n) && (n <=? 122)))%nat.

Definition is_digit (a : ascii) : bool :=
  let n := nat_of_ascii a in ((48 <=? n) && (n <=? 57))%nat.

(** [scheme_chars]: letters, digits and "+-." *)
Definition scheme_char (a : ascii) : bool :=
  is_alpha a || is_digit a
  || Ascii.eqb a "+" || Ascii.eqb a "-" || Ascii.eqb a ".".

Fixpoint all_chars (p : ascii -> bool) (s : string) : bool :=
  match s with
  | EmptyString => true
  | String a s' => p a && all_chars p s'
  end.

Definition lower_ascii (a : ascii) : ascii :=
  let n := nat_of_ascii a in
  if ((65 <=? n) && (n <=? 90))%nat then ascii_of_nat (n + 32) else a.

Fixpoint lower (s : string) : string :=
  match s with
  | EmptyString => EmptyString
  | String a s' => String (lower_ascii a) (lower s')
  end.

Definition starts_with (p s : string) : bool := String.prefix p s.

Fixpoint ends_with_slash (s : string) : bool :=
  match s with
  | EmptyString => false
  | String a EmptyString => Ascii.eqb a "/"
  | String _ s' => ends_with_slash s'
  end.

(** [_splitnetloc(url, 2)] applied to the text after the leading "//":
    the network location runs up to the first of "/", "?" and "#". *)
Fixpoint splitnetloc (s : string) : string * string :=
  match s with
  | EmptyString => (EmptyString, EmptyString)
  | String a s' =>
      if Ascii.eqb a "/" || Ascii.eqb a "?" || Ascii.eqb a "#"
      then (EmptyString, s)
      else let '(n, r) := splitnetloc s' in (String a n, r)
  end.

Record SplitResult := mk_SplitResult {
  sr_scheme : string;
  sr_netloc : string;
  sr_path : string;
  sr_query : string;
  sr_fragment : string
}.

(** [urllib.parse.urlsplit] for well-formed input: the scheme up to the
    first ":" when it consists of scheme characters and starts with a
    letter, the network location after "//", then fragment and query.
    The stripping of control characters and the [ValueError] for a
    malformed bracketed host are not part of the model. *)
Definition urlsplit (url : string) : SplitResult :=
  let '(scheme, url) :=
    match split_first ":" url with
    | Some (String a l, r) =>
        if is_alpha a && all_chars scheme_char (String a l)
        then (lower (String a l), r) else (EmptyString, url)
    | _ => (EmptyString, url)
    end in
  let '(netloc, url) :=
    match url with
    | String "/" (String "/" rest) => splitnetloc rest
    | _ => (EmptyString, url)
    end in
  let '(url, fragment) :=
    match split_first "#" url with
    | Some (l, r) => (l, r)
    | None => (url, EmptyString)
    end in
  let '(url, query) :=
    match split_first "?" url with
    | Some (l, r) => (l, r)
    | None => (url, EmptyString)
    end in
  mk_SplitResult scheme netloc url query fragment.

Definition uses_netloc : list string :=
  [""; "ftp"; "http"; "gopher"; "nntp"; "telnet"; "imap"; "wais"; "file";
   "mms"; "https"; "shttp"; "snews"; "prospero"; "rtsp"; "rtspu"; "rsync";
   "svn"; "svn+ssh"; "sftp"; "nfs"; "git"; "git+ssh"; "ws"; "wss"].

Definition nonempty (s : string) : bool := negb (String.eqb s "").

(** [urllib.parse.urlunsplit] *)
Definition urlunsplit (r : SplitResult) : string :=
  let url := sr_path r in
  let url :=
    if nonempty (sr_netloc r)
       || (nonempty (sr_scheme r)
           && bool_decide (sr_scheme r ∈ uses_netloc)
           && negb (starts_with "//" url))
    then
      let url := if nonempty url && negb (starts_with "/" url)
                 then "/" ++ url else url in
      "//" ++ sr_netloc r ++ url
    else url in
  let url := if nonempty (sr_scheme r) then sr_scheme r ++ ":" ++ url else url in
  let url := if nonempty (sr_query r) then url ++ "?" ++ sr_query r else url in
  if nonempty (sr_fragment r) then url ++ "#" ++ sr_fragment r else url.

(** [posixpath.join(a, *p)] *)
Fixpoint posixpath_join (path : string) (p : list string) : string :=
  match p with
  | [] => path
  | b :: p' =>
      posixpath_join
        (if starts_with "/" b then b
         else if negb (nonempty path) || ends_with_slash path then path ++ b
         else path ++ "/" ++ b)
        p'
  end.

End Urllib.
Export Urllib.

(** ** client_base.py: URL building *)

Definition url_join (url : string) (args : list string) : string :=
  let r := urlsplit url in
  let path := if (0 <? Z.of_nat (String.length (sr_path r))) then sr_path r else "/" in
  let path := posixpath_join path args in
  urlunsplit (mk_SplitResult (sr_scheme r) (sr_netloc r) path (sr_query r) (sr_fragment r)).


(** ** The world outside the client *)

(** Keyword arguments of the two ways [headers] builds a token manager. *)
Inductive sgconnect_kwargs :=
| ClientMode (client_id client_secret server scope : string)
| ImplicitMode (implicit_client_id implicit_redirect_uri server scope : string).

#[global] Instance sgconnect_kwargs_eq_dec : EqDecision sgconnect_kwargs.
Proof. solve_decision. Defined.

(** A token manager instance: [mgr_id] tells instances apart. *)
Record TokenMgr := mk_TokenMgr { mgr_id : nat; mgr_kwargs : sgconnect_kwargs }.

#[global] Instance TokenMgr_eq_dec : EqDecision TokenMgr.
Proof. solve_decision. Defined.

(** The arguments of one [Session.request] call (client_base.py:163-165). *)
Record HttpCall := mk_HttpCall {
  c_method : string;
  c_url : string;
  c_headers : gmap string string;
  c_json : value;
  c_verify : bool;
  c_stream : bool;
  c_timeout : Z;
  c_params : gmap string value
}.

(** What the client does to its surroundings, in program order. *)
Inductive event :=
| EvHeaders (is_mime : value)                 (* self.headers(is_mime) is entered *)
| EvSgconnect (kw : sgconnect_kwargs)         (* sgconnect(...) is called *)
| EvSetTokenMgr (api : loc) (m : TokenMgr)    (* self._api.token_mgr = ... *)
| EvGetTokenValue (m : TokenMgr)              (* token_mgr.get_token_value() *)
| EvRequest (call : HttpCall)                 (* session.request(...) *)
| EvCaught (e : exc)                          (* except Exception as exc: *)
| EvSleep (secs : Q).                         (* time.sleep(secs) *)

(** The collaborators answer as a function of everything that happened
    before: the token service may fail to build a manager or to give a token,
    and the session returns a response or raises. *)
Record Externals := mk_Externals {
  sgconnect : list event -> sgconnect_kwargs -> option exc;
  get_token_value : list event -> TokenMgr -> result string;
  session_request : list event -> HttpCall -> result Response
}.

(** The store of token-manager slots (absent key: the slot holds [MISSING])
    and the trace so far. *)
Record World := mk_World {
  token_mgr : gmap loc TokenMgr;
  trace : list event
}.

(** *** A state and exception monad over [World] *)

Definition M (A : Type) : Type := World -> result A * World.

Definition ret {A} (a : A) : M A := fun w => (Ok a, w).
Definition raise {A} (e : exc) : M A := fun w => (Raise e, w).
Definition bind {A B} (m : M A) (k : A -> M B) : M B :=
  fun w => match m w with
           | (Ok a, w') => k a w'
           | (Raise e, w') => (Raise e, w')
           end.

Declare Scope py_scope.
Delimit Scope py_scope with py.
Notation "x <- m ;; k" := (bind m (fun x => k))
  (at level 100, m at next level, right associativity) : py_scope.
Notation "m ;;; k" := (bind m (fun _ => k))
  (at level 100, right associativity) : py_scope.

Definition log (ev : event) : M unit :=
  fun w => (Ok tt, mk_World (token_mgr w) (trace w ++ [ev])).

Definition get_slot (l : loc) : M (option TokenMgr) :=
  fun w => (Ok (token_mgr w !! l), w).

Definition set_slot (l : loc) (m : TokenMgr) : M unit :=
  fun w => (Ok tt, mk_World (<[l := m]> (token_mgr w)) (trace w ++ [EvSetTokenMgr l m])).

(** A call of [sgconnect]: the new instance is numbered by the length of the
    trace, which only grows. *)
Definition call_sgconnect (ext : Externals) (kw : sgconnect_kwargs) : M TokenMgr :=
  fun w =>
    let w' := mk_World (token_mgr w) (trace w ++ [EvSgconnect kw]) in
    match sgconnect ext (trace w) kw with
    | Some e => (Raise e, w')
    | None => (Ok (mk_TokenMgr (length (trace w)) kw), w')
    end.

Definition call_get_token_value (ext : Externals) (m : TokenMgr) : M string :=
  fun w =>
    (get_token_value ext (trace w) m,
     mk_World (token_mgr w) (trace w ++ [EvGetTokenValue m])).

(** ** client_base.py: the client *)

Inductive client_class :=
| Client                    (* the base class *)
| XOneTradeInfoClient
| XOneCSAInfoClient
| XOnePricingModelClient.

Record client := mk_client {
  cls : client_class;
  _env : XOneEnv;
  _api : ApiConfig;
  _api_name : string
}.

(** [Client.__init__] and the constructors of the three named clients. *)
Definition Client_init (api_name : string) (env : XOneEnv) (api : ApiConfig) : client :=
  mk_client Client env api api_name.

Definition resolve_env (cfg : RootConfig) (env : EnvType) : result XOneEnv :=
  match env with
  | EnvName name => XOneConfig_getattr (xone cfg) name
  | EnvObj e => Ok e
  end.

Definition XOneTradeInfoClient_init (cfg : RootConfig) (env : EnvType) : result client :=
  match resolve_env cfg env with
  | Ok e => Ok (mk_client XOneTradeInfoClient e (trade_information e) "TradeInformation")
  | Raise x => Raise x
  end.

Definition XOneCSAInfoClient_init (cfg : RootConfig) (env : EnvType) : result client :=
  match resolve_env cfg env with
  | Ok e => Ok (mk_client XOneCSAInfoClient e (csa_information e) "Csa")
  | Raise x => Raise x
  end.

Definition XOnePricingModelClient_init (cfg : RootConfig) (env : EnvType) : result client :=
  match resolve_env cfg env with
  | Ok e => Ok (mk_client XOnePricingModelClient e (pricing_model e) "Pim")
  | Raise x => Raise x
  end.

Definition json_headers : gmap string string :=
  <["Accept" := "application/json"]> (<["Content-Type" := "application/json"]> ∅).

(** The token manager that [headers] builds when the slot holds [MISSING]
    (client_base.py:123-136). *)
Definition token_mgr_kwargs (c : client) (server : string) : sgconnect_kwargs :=
  if (0 <? Z.of_nat (String.length (client_id (_api c))))
     && (0 <? Z.of_nat (String.length (client_secret (_api c))))
  then ClientMode (client_id (_api c)) (client_secret (_api c)) server (scope (_api c))
  else ImplicitMode (implicit_client_id (_env c)) (implicit_redirect_uri (_env c))
         server (scope (_api c)).

(** The block under [with self._lock] (client_base.py:120-136): a manager
    is built and stored only when the slot holds [MISSING].  [_lock] is one
    lock for all clients, so no two executions of this block overlap. *)
Definition ensure_token_mgr (ext : Externals) (c : client) (server : string)
  : M unit :=
  (slot <- get_slot (api_id (_api c)) ;;
   match slot with
   | None =>
       m <- call_sgconnect ext (token_mgr_kwargs c server) ;;
       set_slot (api_id (_api c)) m
   | Some _ => ret tt
   end)%py.

(** [Client.headers] *)
Definition headers (ext : Externals) (c : client) (is_mime : value)
  : M (gmap string string) :=
  (log (EvHeaders is_mime) ;;;
   let headers : gmap string string :=
     if negb (truthy is_mime) then json_headers else ∅ in
   headers <-
     match sgconnect_env (_env c) with
     | Given server =>
         ensure_token_mgr ext c server ;;;
         slot <- get_slot (api_id (_api c)) ;;
         match slot with
         | Some m =>
             token_value <- call_get_token_value ext m ;;
             ret (<["Authorization" := "Bearer " ++ token_value]> headers)
         | None => raise (no_attribute "MISSING" "get_token_value")
         end
     | MISSING => ret headers
     end ;;
   match origin (_api c) with
   | Given o => ret (<["Origin" := o]> headers)
   | MISSING => ret headers
   end)%py.

(** ['{}'.format(x)] for the attribute values that reach [url_join]. *)
Definition format_attr (a : attr) : string :=
  match a with
  | AttrStr s => s
  | AttrApi _ => "ApiConfig(...)"
  | AttrMissing => "MISSING"
  end.

(** [url], as overridden by each class.  The base class reads the
    attributes [end_point] and [tessa_env] of its environment. *)
Definition Client_url (c : client) (last : list string) : result string :=
  match cls c with
  | Client =>
      match XOneEnv_getattr (_env c) "end_point" with
      | Raise e => Raise e
      | Ok end_point =>
          match XOneEnv_getattr (_env c) "tessa_env" with
          | Raise e => Raise e
          | Ok tessa_env =>
              Ok (url_join (format_attr end_point)
                    (format_attr tessa_env :: _api_name c :: "rest" :: last))
          end
      end
  | XOneTradeInfoClient =>
      Ok (url_join (endpoint (_env c))
            ("api" :: _api_name c :: version (_env c) :: last))
  | XOneCSAInfoClient =>
      Ok (url_join (endpoint (_env c)) ("api" :: _api_name c :: "v1" :: last))
  | XOnePricingModelClient =>
      Ok (url_join (endpoint (_env c))
            ("api" :: _api_name c :: "v1" :: "PricingInterfaceModel" :: last))
  end.

(** ** client_base.py: the request pipeline *)

(** The local variables of [request] that change from one attempt to the
    next. *)
Module Frame.
Record t := mk {
  count : Z;
  error : option exc;
  timeout : Z;
  params : gmap string value
}.
End Frame.

(** What [request] hands back: the decoded body, or the response itself. *)
Inductive retval :=
| RetJson (j : json)
| RetResponse (r : Response).

(** The keywords that [request] passes by name next to [**params]; Python
    raises [TypeError] when [params] repeats one of them. *)
Definition explicit_keywords : list string :=
  ["method"; "url"; "headers"; "json"; "verify"; "stream"; "timeout"].

Definition repeated_keyword (params : gmap string value) : option string :=
  List.find (fun k => bool_decide (is_Some (params !! k))) explicit_keywords.

Definition call_session_request (ext : Externals) (call : HttpCall) : M Response :=
  fun w =>
    match repeated_keyword (c_params call) with
    | Some k =>
        (Raise (mk_exc TypeError
                  ("request() got multiple values for keyword argument '" ++ k ++ "'")), w)
    | None =>
        (session_request ext (trace w) call,
         mk_World (token_mgr w) (trace w ++ [EvRequest call]))
    end.

(** [params.pop("is_mime") if "is_mime" in params else False] *)
Definition pop_is_mime (params : gmap string value) : value * gmap string value :=
  match params !! "is_mime" with
  | Some v => (v, delete "is_mime" params)
  | None => (PyBool false, params)
  end.

Definition lift {A} (r : result A) : M A := fun w => (r, w).

(** [resp.json() if not stream else resp] *)
Definition return_value (stream : bool) (resp : Response) : result retval :=
  if negb stream then
    match json_ resp with
    | Ok j => Ok (RetJson j)
    | Raise e => Raise e
    end
  else Ok (RetResponse resp).

(** A value together with the equation that names it, for the branches of
    the loop. *)
Definition inspect {A : Type} (x : A) : {y : A | x = y} := exist _ x eq_refl.

Definition half_seconds (count : Z) : Q := (1 # 2) * inject_Z count.

Section Request.

Variable cfg : RootConfig.    (* the module-level [config] *)
Variable ext : Externals.
Variable self : client.
Variable method : string.
Variable url : string.
Variable json : value.
Variable stream : bool.

(** Lines 163-165: the headers are built, then the session is called. *)
Definition send (timeout : Z) (is_mime : value) (params : gmap string value)
  : M Response :=
  (h <- headers ext self is_mime ;;
   call_session_request ext
     (mk_HttpCall method url h json false stream timeout params))%py.

(** The body of the [try] statement (lines 162-166).  The bag [params] is
    changed in place, so the change outlives an exception. *)
Definition try_body (st : Frame.t) (w : World)
  : result Response * gmap string value * World :=
  let '(is_mime, params) := pop_is_mime (Frame.params st) in
  let '(r, w') :=
    (resp <- send (Frame.timeout st) is_mime params ;;
     lift (check_response resp))%py w in
  (r, params, w').

(** The [except Exception as exc] clause (lines 168-171). *)
Definition except_frame (st : Frame.t) (e : exc) (params : gmap string value)
  : Frame.t :=
  let count := Frame.count st + 1 in
  Frame.mk count (Some e) (Frame.timeout st + count * 5) params.

Definition except_world (st : Frame.t) (e : exc) : M unit :=
  (log (EvCaught e) ;;; log (EvSleep (half_seconds (Frame.count st + 1))))%py.

(** The [else] clause of the [while] statement (lines 175-178). *)
Definition exhausted (error : option exc) : exc :=
  match error with
  | Some error =>
      mk_exc ClientError
        ("Client request failed for " ++ upper method ++ " " ++ url ++ ": " ++ str error)
  | None =>
      mk_exc ClientError
        ("Client request failed for " ++ upper method ++ " " ++ url
         ++ " without any exception")
  end.

(** The [while count <= config.max_retries] loop. *)
Equations? request_loop (st : Frame.t) (w : World) : result retval * World
  by wf (Z.to_nat (max_retries cfg + 1 - Frame.count st)) lt :=
  request_loop st w with inspect (Frame.count st <=? max_retries cfg) := {
    | exist _ true Hle with inspect (try_body st w) := {
        | exist _ (Raise e, params, w') Htry with isinstance e Exception := {
            | true =>
                request_loop (except_frame st e params)
                  (snd (except_world st e w'))
            | false => (Raise e, w') }
        | exist _ (Ok resp, params, w') Htry => (return_value stream resp, w') }
    | exist _ false Hgt => (Raise (exhausted (Frame.error st)), w) }.
Proof. cbn. lia. Qed.

End Request.

(** [Client.request] *)
Definition request (cfg : RootConfig) (ext : Externals) (self : client)
    (method : string) (last : list string) (json : value) (stream : bool)
    (params : gmap string value) : M retval :=
  fun w =>
    match Client_url self last with
    | Raise e => (Raise e, w)
    | Ok url =>
        request_loop cfg ext self method url json stream
          (Frame.mk 0 None (timeout cfg) params) w
    end.

(** [get] and [post].  A [json] or [stream] entry of [params] binds the
    parameter of that name of [request], and a [method] entry repeats its
    first argument, which Python refuses before [request] is entered. *)
Definition keyword (params : gmap string value) (k : string) (d : value) : value :=
  default d (params !! k).

Definition repeats_method (params : gmap string value) {A} (m : M A) : M A :=
  match params !! "method" with
  | Some _ =>
      raise (mk_exc TypeError "request() got multiple values for argument 'method'")
  | None => m
  end.

Definition get (cfg : RootConfig) (ext : Externals) (self : client)
    (last : list string) (stream : bool) (params : gmap string value) : M retval :=
  repeats_method params
    (request cfg ext self "get" last (keyword params "json" PyNone) stream
       (delete "json" params)).

Definition post (cfg : RootConfig) (ext : Externals) (self : client)
    (last : list string) (data : value) (params : gmap string value) : M retval :=
  repeats_method params
    (request cfg ext self "post" last (keyword params "json" PyNone)
       (truthy (keyword params "stream" (PyBool false)))
       (<["data" := data]> (delete "stream" (delete "json" params)))).

(** ** Reading a trace *)

Definition http_calls (t : list event) : list HttpCall :=
  omap (fun ev => match ev with EvRequest call => Some call | _ => None end) t.

Definition sleeps (t : list event) : list Q :=
  omap (fun ev => match ev with EvSleep q => Some q | _ => None end) t.

Definition caught (t : list event) : list exc :=
  omap (fun ev => match ev with EvCaught e => Some e | _ => None end) t.

Definition headers_calls (t : list event) : list value :=
  omap (fun ev => match ev with EvHeaders v => Some v | _ => None end) t.

(** Session calls (by their timeout) and sleeps, in the order they happen. *)
Definition calls_and_sleeps (t : list event) : list (Z + Q) :=
  omap (fun ev => match ev with
                  | EvRequest call => Some (inl (c_timeout call))
                  | EvSleep q => Some (inr q)
                  | _ => None
                  end) t.

(** The managers written into the slot of the credential record [l]. *)
Definition slot_writes (l : loc) (t : list event) : list TokenMgr :=
  omap (fun ev => match ev with
                  | EvSetTokenMgr l' m => if decide (l' = l) then Some m else None
                  | _ => None
                  end) t.

(** The events that happened between two worlds. *)
Definition since (w w' : World) : list event :=
  drop (length (trace w)) (trace w').

(** ** Sequences of operations on shared credential records *)

Inductive operation :=
| OpHeaders (c : client) (is_mime : value)
| OpUrl (c : client) (last : list string)
| OpRequest (c : client) (method : string) (last : list string)
    (json : value) (stream : bool) (params : gmap string value)
| OpGet (c : client) (last : list string) (stream : bool)
    (params : gmap string value)
| OpPost (c : client) (last : list string) (data : value)
    (params : gmap string value).

Definition run_operation (cfg : RootConfig) (ext : Externals)
    (o : operation) (w : World) : World :=
  match o with
  | OpHeaders c is_mime => snd (headers ext c is_mime w)
  | OpUrl c last => w
  | OpRequest c method last json stream params =>
      snd (request cfg ext c method last json stream params w)
  | OpGet c last stream params => snd (get cfg ext c last stream params w)
  | OpPost c last data params => snd (post cfg ext c last data params w)
  end.

Definition run_operations (cfg : RootConfig) (ext : Externals)
    (ops : list operation) (w : World) : World :=
  fold_left (fun w o => run_operation cfg ext o w) ops w.

(** ** Backends *)

(** An attempt fails when the session raises something the loop catches or
    returns a response that [check_response] rejects. *)
Definition attempt_fails (r : result Response) : Prop :=
  match r with
  | Raise e => isinstance e Exception = true
  | Ok resp => ok resp = false
  end.

Definition backend_always_fails (ext : Externals) : Prop :=
  forall h call, attempt_fails (session_request ext h call).

(** The token service builds managers and hands out tokens. *)
Definition token_service_up (ext : Externals) : Prop :=
  (forall h kw, sgconnect ext h kw = None)
  /\ (forall h m, exists s, get_token_value ext h m = Ok s).

(** The exception in which an attempt ends, given the answer of the
    session: the one raised by the session, or by [check_response]. *)
Definition attempt_exception (r : result Response) : option exc :=
  match r with
  | Raise e => Some e
  | Ok resp =>
      match check_response resp with
      | Raise e => Some e
      | Ok _ => None
      end
  end.

(** The exception [e] is the one in which a session call with the
    arguments [call] ended, at some point of the history. *)
Definition failure_of (ext : Externals) (call : HttpCall) (e : exc) : Prop :=
  exists hist, attempt_exception (session_request ext hist call) = Some e.

(** The timeouts of [n] consecutive failing attempts, starting from the
    given values of [count] and [timeout]. *)
Fixpoint timeouts_from (n : nat) (count timeout : Z) : list Z :=
  match n with
  | O => []
  | S n' => timeout :: timeouts_from n' (count + 1) (timeout + (count + 1) * 5)
  end.

(** Calls and sleeps of [n] consecutive failing attempts: each call is
    followed by its sleep. *)
Fixpoint failing_schedule (n : nat) (count timeout : Z) : list (Z + Q) :=
  match n with
  | O => []
  | S n' =>
      inl timeout :: inr (half_seconds (count + 1))
      :: failing_schedule n' (count + 1) (timeout + (count + 1) * 5)
  end.

(** ** Calls of [headers] running side by side *)

(** Where a call of [headers] stands with respect to the shared slot:
    before the locked block, before fetching the token, or past both. *)
Inductive pc :=
| AtLock
| Fetch
| Done.

Record thread := mk_thread { th_self : client; th_server : string; th_pc : pc }.

(** One thread moves: it runs the locked block as a whole, or it asks the
    manager it finds in the slot for the token. *)
Inductive thread_step (ext : Externals) : thread -> World -> thread -> World -> Prop :=
| step_locked c server w r w' :
    ensure_token_mgr ext c server w = (r, w') ->
    thread_step ext (mk_thread c server AtLock) w
      (mk_thread c server (match r with Ok _ => Fetch | Raise _ => Done end)) w'
| step_fetch c server w m r w' :
    token_mgr w !! api_id (_api c) = Some m ->
    call_get_token_value ext m w = (r, w') ->
    thread_step ext (mk_thread c server Fetch) w (mk_thread c server Done) w'.

(** Any thread of the pool may move next. *)
Inductive pool_step (ext : Externals)
  : list thread * World -> list thread * World -> Prop :=
| pool_step_at (i : nat) ts t t' w w' :
    ts !! i = Some t ->
    thread_step ext t w t' w' ->
    pool_step ext (ts, w) (<[i := t']> ts, w').

(** ** Sample configuration and backends *)

Module Sample.

Definition trade_api : ApiConfig :=
  mk_ApiConfig 1 MISSING (Given "https://origin.example") "api.trade" "id" "secret".
Definition csa_api : ApiConfig := mk_ApiConfig 2 MISSING MISSING "api.csa" "" "".
Definition pricing_api : ApiConfig := mk_ApiConfig 3 MISSING MISSING "api.pim" "" "".

(** An environment whose [sgconnect_env] holds [MISSING], and one with
    the declared default. *)
Definition env_no_auth : XOneEnv :=
  mk_XOneEnv trade_api csa_api pricing_api
    "https://host/base?x=1" "uat" "v2" MISSING "" "".
Definition env_auth : XOneEnv :=
  mk_XOneEnv trade_api csa_api pricing_api
    "https://host/base?x=1" "uat" "v2" (Given "dev") "" "".

Definition config (max_retries timeout : Z) : RootConfig :=
  mk_RootConfig (mk_XOneConfig env_auth env_auth env_no_auth env_no_auth)
    "fit_xone" max_retries timeout.

Definition trade_client : client :=
  mk_client XOneTradeInfoClient env_auth trade_api "TradeInformation".
Definition csa_client_no_auth : client :=
  mk_client XOneCSAInfoClient env_no_auth csa_api "Csa".
Definition base_client : client := Client_init "Any" env_auth trade_api.

Definition timed_out : exc := mk_exc Timeout "read timed out".

Definition response (status : Z) (reason text : string) (body : result json) : Response :=
  mk_Response status reason "https://host/base/api/Csa/v1/a?x=1" text body.

Definition not_json : result json :=
  Raise (mk_exc JSONDecodeError "Expecting value: line 1 column 1 (char 0)").

(** A service that is down, one that answers 403, one that answers 200
    with a JSON body, and one that answers 204 with an empty body. *)
Definition backend (answer : result Response) : Externals :=
  mk_Externals (fun _ _ => None) (fun _ _ => Ok "t0ken") (fun _ _ => answer).

Definition down : Externals := backend (Raise timed_out).
Definition forbidden : Externals :=
  backend (Ok (response 403 "Forbidden" "denied" not_json)).
Definition healthy : Externals :=
  backend (Ok (response 200 "OK" "{}" (Ok (JObj [])))).
Definition no_content : Externals :=
  backend (Ok (response 204 "No Content" "" not_json)).

Definition start : World := mk_World ∅ [].

Definition mime_params : gmap string value := {["is_mime" := PyBool true]}.

(** The URL of [csa_client_no_auth] for the trailing segment "a". *)
Definition csa_url : string := "https://host/base/api/Csa/v1/a?x=1".
Definition trade_url : string := "https://host/base/api/TradeInformation/v2/a?x=1".

End Sample.

(** ** Auxiliary notions for the proofs *)

(** The header set before and after the optional parts are added. *)
Definition base_headers (is_mime : value) : gmap string string :=
  if negb (truthy is_mime) then json_headers else ∅.

Definition add_origin (c : client) (h : gmap string string) : gmap string string :=
  match origin (_api c) with
  | Given o => <["Origin" := o]> h
  | MISSING => h
  end.

Definition add_events (w : World) (evs : list event) : World :=
  mk_World (token_mgr w) (trace w ++ evs).

(** Line 137-138, once the slot holds the manager [m]. *)
Definition fetch_token (ext : Externals) (c : client) (is_mime : value)
    (m : TokenMgr) (w : World) : result (gmap string string) * World :=
  (match get_token_value ext (trace w) m with
   | Ok t =>
       Ok (add_origin c (<["Authorization" := "Bearer " ++ t]> (base_headers is_mime)))
   | Raise e => Raise e
   end, add_events w [EvGetTokenValue m]).

(** The events of the token machinery. *)
Definition auth_event (ev : event) : Prop :=
  match ev with
  | EvSgconnect _ | EvSetTokenMgr _ _ | EvGetTokenValue _ => True
  | _ => False
  end.

(** Between [w] and [w'], with events [evs] in between, every slot that
    held a manager still holds the same one and was not written, and every
    slot that held [MISSING] was written at most once. *)
Definition slot_kept (w w' : World) (evs : list event) : Prop :=
  forall l,
    match token_mgr w !! l with
    | Some m => token_mgr w' !! l = Some m /\ slot_writes l evs = []
    | None =>
        (token_mgr w' !! l = None /\ slot_writes l evs = [])
        \/ (exists m, token_mgr w' !! l = Some m /\ slot_writes l evs = [m])
    end.

Definition steps (w w' : World) (evs : list event) : Prop :=
  trace w' = (trace w ++ evs)%list /\ slot_kept w w' evs.

(** The classification of a response by status ranges, to be compared with
    [check_response]: the message is the status code and the text, or the
    library's status line when the text is empty. *)
Definition status_line (resp : Response) : string :=
  match raise_for_status resp with
  | Raise e => str e
  | Ok _ => ""
  end.

Definition classified_message (resp : Response) : string :=
  if String.eqb (text resp) "" then status_line resp
  else pretty (status_code resp) ++ ": " ++ text resp.

Definition classified_class (status : Z) : exc_class :=
  if status =? 403 then Unauthorized
  else if status =? 404 then NotFound
  else ClientError.

Definition check_response_by_status (resp : Response) : result Response :=
  let s := status_code resp in
  if (400 <=? s) && (s <? 600)
  then Raise (mk_exc (classified_class s) (classified_message resp))
  else Ok resp.

(** ** client_base.py: [raise_error] *)

(** What a call of [raise_error] does: it returns, or it raises an
    exception of the given class built from the pair [(status, content)]. *)
Inductive raise_error_outcome :=
| Returns
| Raises (cls : exc_class) (status : Z) (content : string).

Definition raise_error (status : Z) (content : string) : raise_error_outcome :=
  if is_ok status then Returns
  else if (status <=? 499) && (400 <=? status) then Raises HttpClientError status content
  else if (status <=? 599) && (500 <=? status) then Raises HttpServerError status content
  else Raises HTTPError status content.

(** ** config.py: where the configuration is read from *)

(** What [load_config] asks of its surroundings: the environment
    variables, the home directory ([os.path.expanduser("~")]), the
    directory of the module ([os.path.dirname(__file__)]), which paths
    exist, what [open] and [read] give, and what
    [RootConfig.build(json.load(fp))] makes of a text. *)
Record Surroundings := mk_Surroundings {
  environ : gmap string string;
  home : string;
  module_dir : string;
  exists_ : string -> bool;
  read_text : string -> result string;
  build : string -> result RootConfig
}.

Definition json_file : string := "config.json".

(** Lines 69-73, with [os.path.join] on a POSIX system. *)
Definition home_settings (s : Surroundings) : string :=
  posixpath_join (home s) [".fit_xone"; json_file].

Definition bundled_settings (s : Surroundings) : string :=
  posixpath_join (module_dir s) [json_file].

Definition config_path (s : Surroundings) : string :=
  let config_path := default (home_settings s) (environ s !! "PYTHON_XONE_CONFIG") in
  if negb (exists_ s config_path) then bundled_settings s else config_path.

Definition load_config (s : Surroundings) : result RootConfig :=
  match read_text s (config_path s) with
  | Ok text => build s text
  | Raise e => Raise e
  end.

(** ** More ways to read a trace *)

Definition sgconnect_calls (t : list event) : list sgconnect_kwargs :=
  omap (fun ev => match ev with EvSgconnect kw => Some kw | _ => None end) t.

Definition token_fetches (t : list event) : list TokenMgr :=
  omap (fun ev => match ev with EvGetTokenValue m => Some m | _ => None end) t.

(** Seconds slept in all. *)
Definition total_sleep (t : list event) : Q :=
  fold_right Qplus 0%Q (sleeps t).

(** The trace of a run in which every attempt fails: what each attempt
    did, then the handler and its sleep. *)
Fixpoint failing_trace (count : Z) (attempts : list (list event * exc)) : list event :=
  match attempts with
  | [] => []
  | (seg, e) :: rest =>
      seg ++ [EvCaught e; EvSleep (half_seconds (count + 1))]
      ++ failing_trace (count + 1) rest
  end.

(** A backend that fails [k] times and then answers with [resp]: what it
    does depends on how many session calls were made before. *)
Definition fails_then_answers (ext : Externals) (k : nat) (resp : Response) : Prop :=
  forall h call,
    ((length (http_calls h) < k)%nat -> attempt_fails (session_request ext h call))
    /\ (length (http_calls h) = k -> session_request ext h call = Ok resp).

(** The token service cannot build a manager. *)
Definition token_service_down (ext : Externals) (e : exc) : Prop :=
  forall h kw, sgconnect ext h kw = Some e.

(** A character that may stand in a network location: [urlsplit] ends the
    location at the first of "/", "?" and "#". *)
Definition netloc_char (a : ascii) : bool :=
  negb (Ascii.eqb a "/" || Ascii.eqb a "?" || Ascii.eqb a "#").

(** More sample data: an endpoint without a path, and the surroundings of
    a process whose [PYTHON_XONE_CONFIG] names a file that is not there. *)
Module Fixtures.

Definition bare_env : XOneEnv :=
  mk_XOneEnv Sample.trade_api Sample.csa_api Sample.pricing_api
    "https://host:8443" "uat" "v2" (Given "dev") "" "".

Definition bare_client : client :=
  mk_client XOneTradeInfoClient bare_env Sample.trade_api "TradeInformation".

Definition stale_variable : Surroundings :=
  mk_Surroundings {["PYTHON_XONE_CONFIG" := "/etc/xone/gone.json"]}
    "/home/user" "/opt/fit_xone"
    (fun p => String.eqb p "/home/user/.fit_xone/config.json")
    (fun p => if String.eqb p "/opt/fit_xone/config.json" then Ok "{}"
              else Raise (mk_exc OSError p))
    (fun _ => Ok (Sample.config 0 60)).

End Fixtures.

(** ** logger_wrapper.py *)

Module LW.

Definition DEFAULT_TEMPLATE_MESSAGE_INFO : string := "{runKey} {step} {status}".
Definition DEFAULT_TEMPLATE_MESSAGE_ERROR : string :=
  "{runKey} {step} {status} {exceptionType} {exceptionMessage}".
Definition DEFAULT_TEMPLATE_MESSAGE_WARNING : string :=
  "{runKey} {step} {detailedOrigin} {status}".
Definition DEFAULT_TEMPLATE_MESSAGE_DEBUG : string := "{runKey} {step} {debugMessage}".

(** The numeric levels of [logging]. *)
Definition DEBUG : Z := 10.
Definition INFO : Z := 20.
Definition WARNING : Z := 30.
Definition ERROR : Z := 40.

(** A keyword argument of a logging call: a plain value, or what travels
    under the name [extra], which is [None] or a dict.  Dicts are mutable
    and may be shared, so they are held by reference. *)
Inductive kwarg :=
| Plain (v : value)
| Extra (d : option Z).

(** A [CustomAdapter] instance: the name of the logger it wraps, the
    [extra] it was built with, and its counter. *)
Record CustomAdapter := mk_CustomAdapter {
  underlying : string;
  extra : option Z;
  logOrder : Z
}.

(** A [LoggerWrapper] instance; [logger] refers to a [CustomAdapter], as
    in the wrappers that [init_logger] builds. *)
Record LoggerWrapper := mk_LoggerWrapper {
  runKey : value;
  logger : Z
}.

(** One call [self.logger.log(level, msg, *args, **kwargs, extra=extra)]
    made by the adapter [l_adapter]; [l_extra] holds the items of [extra]
    at the time of the call, or [None]. *)
Record LogCall := mk_LogCall {
  l_adapter : Z;
  l_level : Z;
  l_msg : string;
  l_args : list value;
  l_kwargs : gmap string kwarg;
  l_extra : option (gmap string value)
}.

Inductive outcome :=
| Returned
| Raised (cls msg : string).

(** The state that the module works on: the class attribute [_TEMPLATES],
    the adapter objects and the dicts by reference, the calls made to the
    wrapped loggers so far, and the logging system around it, namely which
    levels are enabled for which logger and what a wrapped logger does
    with a call. *)
Record LogWorld := mk_LogWorld {
  _TEMPLATES : gmap string string;
  adapters : Z -> CustomAdapter;
  dicts : Z -> gmap string value;
  next_adapter : Z;
  emitted : list LogCall;
  isEnabledFor : string -> Z -> bool;
  logger_log : LogCall -> outcome
}.

(** [_TEMPLATES] as the class body sets it. *)
Definition class_TEMPLATES : gmap string string :=
  <["info" := DEFAULT_TEMPLATE_MESSAGE_INFO]>
    (<["error" := DEFAULT_TEMPLATE_MESSAGE_ERROR]>
       (<["warning" := DEFAULT_TEMPLATE_MESSAGE_WARNING]>
          (<["debug" := DEFAULT_TEMPLATE_MESSAGE_DEBUG]> ∅))).

(** Objects are held by reference: a store is a function from
    references, updated at one of them. *)
Definition store_set {A} (f : Z -> A) (r : Z) (x : A) : Z -> A :=
  fun r' => if decide (r' = r) then x else f r'.

Definition with_adapter (w : LogWorld) (self : Z) (a : CustomAdapter) : LogWorld :=
  mk_LogWorld (_TEMPLATES w) (store_set (adapters w) self a) (dicts w) (next_adapter w)
    (emitted w) (isEnabledFor w) (logger_log w).

Definition with_dict (w : LogWorld) (d : Z) (items : gmap string value) : LogWorld :=
  mk_LogWorld (_TEMPLATES w) (adapters w) (store_set (dicts w) d items) (next_adapter w)
    (emitted w) (isEnabledFor w) (logger_log w).

Definition call_logger_log (w : LogWorld) (c : LogCall) : outcome * LogWorld :=
  (logger_log w c,
   mk_LogWorld (_TEMPLATES w) (adapters w) (dicts w) (next_adapter w)
     (emitted w ++ [c]) (isEnabledFor w) (logger_log w)).

(** [logging.LoggerAdapter.process]: the adapter's [extra] replaces
    whatever the caller passed under that name. *)
Definition process (a : CustomAdapter) (msg : string) (kwargs : gmap string kwarg)
  : string * gmap string kwarg :=
  (msg, <["extra" := Extra (extra a)]> kwargs).

(** [CustomAdapter.log] *)
Definition CustomAdapter_log (self : Z) (level : Z) (msg : string)
    (args : list value) (kwargs : gmap string kwarg) (w : LogWorld)
  : outcome * LogWorld :=
  let a := adapters w self in
  if isEnabledFor w (underlying a) level then
    let a := mk_CustomAdapter (underlying a) (extra a) (logOrder a + 1) in
    let w := with_adapter w self a in
    let '(msg, kwargs) := process a msg kwargs in
    match kwargs !! "extra" with
    | None => (Raised "KeyError" "'extra'", w)
    | Some popped =>
        let kwargs := delete "extra" kwargs in
        match popped with
        | Extra (Some d) =>
            let w := with_dict w d (<["logOrder" := PyInt (logOrder a)]> (dicts w d)) in
            call_logger_log w (mk_LogCall self level msg args kwargs (Some (dicts w d)))
        | Extra None | Plain PyNone =>
            call_logger_log w (mk_LogCall self level msg args kwargs None)
        | Plain _ =>
            (Raised "AttributeError" "object has no attribute 'update'", w)
        end
    end
  else (Returned, w).

(** [CustomAdapter.info], and [error], [warning] and [debug] as
    [logging.LoggerAdapter] defines them: each calls [self.log]. *)
Definition CustomAdapter_info (self : Z) := CustomAdapter_log self INFO.
Definition CustomAdapter_error (self : Z) := CustomAdapter_log self ERROR.
Definition CustomAdapter_warning (self : Z) := CustomAdapter_log self WARNING.
Definition CustomAdapter_debug (self : Z) := CustomAdapter_log self DEBUG.

(** [self._TEMPLATES[key]] *)
Definition with_template (key : string) (k : string -> LogWorld -> outcome * LogWorld)
    (w : LogWorld) : outcome * LogWorld :=
  match _TEMPLATES w !! key with
  | Some t => k t w
  | None => (Raised "KeyError" ("'" ++ key ++ "'"), w)
  end.

(** The methods of [LoggerWrapper]. *)
Definition info (self : LoggerWrapper) (args : list value) (kwargs : gmap string kwarg)
  : LogWorld -> outcome * LogWorld :=
  with_template "info"
    (fun t => CustomAdapter_info (logger self) t (runKey self :: args) kwargs).

Definition error (self : LoggerWrapper) (args : list value) (kwargs : gmap string kwarg)
  : LogWorld -> outcome * LogWorld :=
  with_template "error"
    (fun t => CustomAdapter_error (logger self) t (runKey self :: args) kwargs).

Definition warn (self : LoggerWrapper) (args : list value) (kwargs : gmap string kwarg)
  : LogWorld -> outcome * LogWorld :=
  with_template "warning"
    (fun t => CustomAdapter_warning (logger self) t (runKey self :: args) kwargs).

Definition debug (self : LoggerWrapper) (args : list value) (kwargs : gmap string kwarg)
  : LogWorld -> outcome * LogWorld :=
  with_template "debug"
    (fun t => CustomAdapter_debug (logger self) t (runKey self :: args) kwargs).

Definition register_template (level template_message : string) (w : LogWorld)
  : outcome * LogWorld :=
  (Returned,
   mk_LogWorld (<[level := template_message]> (_TEMPLATES w)) (adapters w) (dicts w)
     (next_adapter w) (emitted w) (isEnabledFor w) (logger_log w)).

(** [init_logger]: a new adapter around the logger called [name], and a
    wrapper around the adapter. *)
Definition init_logger (name : string) (run_key : value) (extra : option Z)
    (w : LogWorld) : LoggerWrapper * LogWorld :=
  let adapter := next_adapter w in
  (mk_LoggerWrapper run_key adapter,
   mk_LogWorld (_TEMPLATES w)
     (store_set (adapters w) adapter (mk_CustomAdapter name extra 0)) (dicts w)
     (adapter + 1) (emitted w) (isEnabledFor w) (logger_log w)).

(** What a program does with wrappers it holds, one call after the other;
    an exception that a call raises is handled by the caller. *)
Inductive call :=
| Info (self : LoggerWrapper) (args : list value) (kwargs : gmap string kwarg)
| Error (self : LoggerWrapper) (args : list value) (kwargs : gmap string kwarg)
| Warn (self : LoggerWrapper) (args : list value) (kwargs : gmap string kwarg)
| Debug (self : LoggerWrapper) (args : list value) (kwargs : gmap string kwarg)
| RegisterTemplate (level template_message : string).

Definition run (c : call) : LogWorld -> outcome * LogWorld :=
  match c with
  | Info self args kwargs => info self args kwargs
  | Error self args kwargs => error self args kwargs
  | Warn self args kwargs => warn self args kwargs
  | Debug self args kwargs => debug self args kwargs
  | RegisterTemplate level template_message => register_template level template_message
  end.

Definition run_all (cs : list call) (w : LogWorld) : LogWorld :=
  fold_left (fun w c => (run c w).2) cs w.

(** The calls that reached the wrapped loggers between two states, and
    those among them that the adapter [a] made. *)
Definition emitted_since (w w' : LogWorld) : list LogCall :=
  drop (length (emitted w)) (emitted w').

Definition made_by (a : Z) (cs : list LogCall) : list LogCall :=
  List.filter (fun c => bool_decide (l_adapter c = a)) cs.

(** The [logOrder] that a call carries in its [extra], if any. *)
Definition carried_logOrder (c : LogCall) : option value :=
  match l_extra c with
  | Some items => items !! "logOrder"
  | None => None
  end.

(** A state right after the module was imported, with everything at a
    level of 20 or more enabled, and a dict to pass as [extra]. *)
Definition fresh_world : LogWorld :=
  mk_LogWorld class_TEMPLATES (fun _ => mk_CustomAdapter "" None 0)
    (fun _ => {["route" := PyStr "/api/swap_pricer/VanillaSwap"]}) 0 []
    (fun _ level => 20 <=? level) (fun _ => Returned).

End LW.

(** * Properties *)

(** ** Exceptions and responses *)

Lemma issubclass_refl c : issubclass c c = true.
Proof. destruct c; reflexivity. Qed.

Lemma check_response_raises_Exception resp e :
  check_response resp = Raise e -> isinstance e Exception = true.
Proof.
  unfold check_response. destruct (negb (ok resp)); [|discriminate].
  repeat case_match; intros [= <-]; reflexivity.
Qed.

Lemma check_response_Ok resp r :
  check_response resp = Ok r -> r = resp /\ ok resp = true.
Proof.
  unfold check_response. destruct (ok resp); cbn.
  - intros [= <-]. auto.
  - repeat case_match; discriminate.
Qed.

Lemma check_response_not_ok resp :
  ok resp = false -> exists e, check_response resp = Raise e.
Proof.
  unfold check_response. intros ->. cbn. repeat case_match; eauto.
Qed.

Lemma is_ok_ok resp : is_ok (status_code resp) = true -> ok resp = true.
Proof.
  unfold is_ok, ok, raise_for_status. intros H.
  apply andb_true_iff in H as [H1 H2].
  apply Z.leb_le in H1. apply Z.leb_le in H2.
  replace (400 <=? status_code resp) with false by (symmetry; apply Z.leb_gt; lia).
  replace (500 <=? status_code resp) with false by (symmetry; apply Z.leb_gt; lia).
  reflexivity.
Qed.

(** C2 (as amended): [check_response] raises [Unauthorized] for 403,
    [NotFound] for 404 and [ClientError] for every other status from 400 to
    599, with the status code and text (or the library's status line when
    the text is empty) as message, and returns the response for every
    status outside 400..599. *)
Theorem check_response_classifies resp :
  check_response resp = check_response_by_status resp.
Proof.
  unfold check_response, check_response_by_status, classified_class,
    classified_message, status_line, ok, raise_for_status.
  destruct (400 <=? status_code resp) eqn:H4;
    destruct (status_code resp <? 500) eqn:H5;
    destruct (500 <=? status_code resp) eqn:H6;
    destruct (status_code resp <? 600) eqn:H7; cbn;
    try reflexivity;
    try (apply Z.leb_le in H4); try (apply Z.leb_gt in H4);
    try (apply Z.ltb_lt in H5); try (apply Z.ltb_ge in H5);
    try (apply Z.leb_le in H6); try (apply Z.leb_gt in H6);
    try (apply Z.ltb_lt in H7); try (apply Z.ltb_ge in H7);
    try lia;
    destruct (String.eqb (text resp) ""); cbn;
    destruct (status_code resp =? 403); try reflexivity;
    destruct (status_code resp =? 404); reflexivity.
Qed.

(** C2 (as stated) fails: a 304 response is outside 200..299, yet
    [check_response] returns it and raises nothing; likewise a 302 response
    that the session hands over when it is told not to follow redirects. *)
Lemma check_response_accepts_304 :
  let resp := Sample.response 304 "Not Modified" "" Sample.not_json in
  let moved := Sample.response 302 "Found" "moved" Sample.not_json in
  is_ok (status_code resp) = false
  /\ check_response resp = Ok resp
  /\ (forall msg, check_response resp <> Raise (mk_exc ClientError msg))
  /\ is_ok (status_code moved) = false
  /\ check_response moved = Ok moved.
Proof.
  cbn zeta. split; [reflexivity|]. split; [reflexivity|].
  split; [intros msg; discriminate|]. split; reflexivity.
Qed.

(** ** Traces *)

Lemma http_calls_app t1 t2 : http_calls (t1 ++ t2) = (http_calls t1 ++ http_calls t2)%list.
Proof. apply omap_app. Qed.

Lemma sleeps_app t1 t2 : sleeps (t1 ++ t2) = (sleeps t1 ++ sleeps t2)%list.
Proof. apply omap_app. Qed.

Lemma caught_app t1 t2 : caught (t1 ++ t2) = (caught t1 ++ caught t2)%list.
Proof. apply omap_app. Qed.

Lemma headers_calls_app t1 t2 :
  headers_calls (t1 ++ t2) = (headers_calls t1 ++ headers_calls t2)%list.
Proof. apply omap_app. Qed.

Lemma slot_writes_app l t1 t2 :
  slot_writes l (t1 ++ t2) = (slot_writes l t1 ++ slot_writes l t2)%list.
Proof. apply omap_app. Qed.

Lemma auth_events_quiet evs :
  Forall auth_event evs ->
  http_calls evs = [] /\ sleeps evs = [] /\ caught evs = [] /\ headers_calls evs = [].
Proof.
  induction 1 as [|ev evs Hev _ IH]; [auto|].
  destruct IH as (H1 & H2 & H3 & H4).
  destruct ev; try contradiction; cbn; auto.
Qed.

Lemma since_app w w' evs : trace w' = (trace w ++ evs)%list -> since w w' = evs.
Proof. unfold since. intros ->. apply drop_app_length. Qed.

Lemma steps_refl w : steps w w [].
Proof.
  split; [symmetry; apply app_nil_r|].
  intros l. destruct (token_mgr w !! l); auto.
Qed.

Lemma steps_trans w1 w2 w3 evs1 evs2 :
  steps w1 w2 evs1 -> steps w2 w3 evs2 -> steps w1 w3 (evs1 ++ evs2).
Proof.
  intros [Ht1 Hs1] [Ht2 Hs2]. split.
  - rewrite Ht2, Ht1. symmetry. apply app_assoc.
  - intros l. specialize (Hs1 l). specialize (Hs2 l).
    rewrite slot_writes_app.
    destruct (token_mgr w1 !! l) as [m|].
    + destruct Hs1 as [Hm ->]. rewrite Hm in Hs2. destruct Hs2 as [-> ->]. auto.
    + destruct Hs1 as [[Hn ->]|(m & Hm & ->)].
      * rewrite Hn in Hs2. exact Hs2.
      * rewrite Hm in Hs2. destruct Hs2 as [-> ->]. right. eauto.
Qed.

(** Events that do not write a slot leave every slot as it was. *)
Lemma steps_add_events w evs :
  (forall l, slot_writes l evs = []) -> steps w (add_events w evs) evs.
Proof.
  intros Hq. split; [reflexivity|].
  intros l. cbn. destruct (token_mgr w !! l); auto.
Qed.

(** ** [headers] *)

Lemma headers_unfold ext c im w :
  headers ext c im w =
  let w1 := add_events w [EvHeaders im] in
  match sgconnect_env (_env c) with
  | MISSING => (Ok (add_origin c (base_headers im)), w1)
  | Given server =>
      match token_mgr w !! api_id (_api c) with
      | Some m => fetch_token ext c im m w1
      | None =>
          let kw := token_mgr_kwargs c server in
          match sgconnect ext (trace w1) kw with
          | Some e => (Raise e, add_events w1 [EvSgconnect kw])
          | None =>
              let m := mk_TokenMgr (length (trace w1)) kw in
              fetch_token ext c im m
                (mk_World (<[api_id (_api c) := m]> (token_mgr w))
                   (trace w1 ++ [EvSgconnect kw; EvSetTokenMgr (api_id (_api c)) m]))
          end
      end
  end.
Proof.
  unfold headers, ensure_token_mgr, fetch_token, add_origin, base_headers, add_events.
  unfold bind at 1. unfold log at 1. cbn [token_mgr trace].
  unfold bind at 1.
  destruct (sgconnect_env (_env c)) as [|server].
  - unfold ret. destruct (origin (_api c)); reflexivity.
  - unfold bind at 1. unfold bind at 1. unfold get_slot at 1. cbn [token_mgr trace].
    destruct (token_mgr w !! api_id (_api c)) as [m|] eqn:Hslot.
    + unfold ret at 1. unfold bind at 1. unfold get_slot. cbn [token_mgr trace].
      rewrite Hslot. unfold bind, call_get_token_value, ret. cbn [token_mgr trace].
      destruct (get_token_value _ _ _); destruct (origin (_api c)); reflexivity.
    + unfold bind at 1. unfold call_sgconnect. cbn [token_mgr trace].
      destruct (sgconnect ext _ _) as [e|]; [reflexivity|].
      unfold set_slot, bind, get_slot, call_get_token_value, ret. cbn [token_mgr trace].
      rewrite lookup_insert_eq. cbn [token_mgr trace].
      rewrite <- !app_assoc. cbn [app].
      destruct (get_token_value _ _ _); destruct (origin (_api c)); reflexivity.
Qed.

(** One call of [headers]: the trace grows by the call itself and by
    events of the token machinery, and the slots are kept. *)
Lemma headers_steps ext c im w r w' :
  headers ext c im w = (r, w') ->
  exists evs, steps w w' (EvHeaders im :: evs) /\ Forall auth_event evs.
Proof.
  rewrite headers_unfold. cbn zeta. unfold fetch_token.
  destruct (sgconnect_env (_env c)) as [|server].
  - intros [= <- <-]. exists []. split; [|constructor].
    apply steps_add_events. reflexivity.
  - destruct (token_mgr w !! api_id (_api c)) as [m|] eqn:Hslot.
    + intros [= <- <-]. exists [EvGetTokenValue m]. split; [|repeat constructor].
      split; [cbn; rewrite <- app_assoc; reflexivity|].
      intros l. cbn. destruct (token_mgr w !! l); auto.
    + destruct (sgconnect ext _ _) as [e|].
      * intros [= <- <-]. exists [EvSgconnect (token_mgr_kwargs c server)].
        split; [|repeat constructor].
        split; [cbn; rewrite <- app_assoc; reflexivity|].
        intros l. cbn. destruct (token_mgr w !! l); auto.
      * intros [= <- <-]. eexists [EvSgconnect _; EvSetTokenMgr _ _; EvGetTokenValue _].
        split; [|repeat constructor].
        split; [cbn; rewrite <- !app_assoc; reflexivity|].
        intros l. cbn. destruct (decide (api_id (_api c) = l)) as [<-|Hne].
        -- rewrite Hslot, lookup_insert_eq. right. eauto.
        -- rewrite lookup_insert_ne by done. destruct (token_mgr w !! l); auto.
Qed.

Lemma add_origin_lookup c h k :
  k <> "Origin" -> add_origin c h !! k = h !! k.
Proof.
  intros Hk. unfold add_origin. destruct (origin (_api c)); [reflexivity|].
  apply lookup_insert_ne. congruence.
Qed.

Lemma base_headers_json im k :
  truthy im = false -> k = "Content-Type" \/ k = "Accept" ->
  base_headers im !! k = Some "application/json".
Proof.
  unfold base_headers. intros -> [-> | ->]; reflexivity.
Qed.

(** Without [is_mime], the header set carries the JSON content type. *)
Lemma headers_json ext c im w h w' k :
  headers ext c im w = (Ok h, w') ->
  truthy im = false -> k = "Content-Type" \/ k = "Accept" ->
  h !! k = Some "application/json".
Proof.
  rewrite headers_unfold. cbn zeta. unfold fetch_token. intros H Him Hk.
  assert (Hbase := base_headers_json im k Him Hk).
  assert (k <> "Origin") by (destruct Hk as [-> | ->]; intros [=]).
  assert ("Authorization" <> k) by (destruct Hk as [-> | ->]; intros [=]).
  repeat case_match; try discriminate; injection H as <- _;
    rewrite add_origin_lookup by assumption;
    rewrite ?lookup_insert_ne by assumption; assumption.
Qed.

(** With [sgconnect_env] holding [MISSING], [headers] returns at once. *)
Lemma headers_no_auth ext c im w :
  sgconnect_env (_env c) = MISSING ->
  headers ext c im w = (Ok (add_origin c (base_headers im)), add_events w [EvHeaders im])
  /\ add_origin c (base_headers im) !! "Authorization" = None.
Proof.
  intros Hm. rewrite headers_unfold, Hm. split; [reflexivity|].
  rewrite add_origin_lookup by (intros [=]).
  unfold base_headers. destruct (negb (truthy im)); reflexivity.
Qed.

Lemma headers_up ext c im w :
  token_service_up ext -> exists h, (headers ext c im w).1 = Ok h.
Proof.
  intros [Hsg Htok]. rewrite headers_unfold. cbn zeta. unfold fetch_token.
  destruct (sgconnect_env (_env c)); [eauto|].
  destruct (token_mgr w !! _) as [m|]; rewrite ?Hsg; cbn [fst];
    match goal with |- context [get_token_value ext ?h ?m] =>
      destruct (Htok h m) as [s ->] end; eauto.
Qed.

(** ** One attempt and the loop *)

Section Loop.

Variable cfg : RootConfig.
Variable ext : Externals.
Variable self : client.
Variable method : string.
Variable url : string.
Variable json : value.
Variable stream : bool.

Local Abbreviation loop := (request_loop cfg ext self method url json stream).
Local Abbreviation body := (try_body ext self method url json stream).
Local Abbreviation call_with timeout h p :=
  (mk_HttpCall method url h json false stream timeout p).

Lemma send_unfold timeout im p w :
  send ext self method url json stream timeout im p w =
  match headers ext self im w with
  | (Raise e, w1) => (Raise e, w1)
  | (Ok h, w1) =>
      match repeated_keyword p with
      | Some k =>
          (Raise (mk_exc TypeError
             ("request() got multiple values for keyword argument '" ++ k ++ "'")), w1)
      | None =>
          (session_request ext (trace w1) (call_with timeout h p),
           add_events w1 [EvRequest (call_with timeout h p)])
      end
  end.
Proof.
  unfold send, bind. destruct (headers ext self im w) as [[h|e] w1]; [|reflexivity].
  unfold call_session_request. cbn [c_params].
  destruct (repeated_keyword p); reflexivity.
Qed.

Lemma try_body_unfold st w :
  body st w =
  match send ext self method url json stream (Frame.timeout st)
          (pop_is_mime (Frame.params st)).1 (pop_is_mime (Frame.params st)).2 w with
  | (Ok resp, w') => (check_response resp, (pop_is_mime (Frame.params st)).2, w')
  | (Raise e, w') => (Raise e, (pop_is_mime (Frame.params st)).2, w')
  end.
Proof.
  unfold try_body. destruct (pop_is_mime (Frame.params st)) as [im p]. cbn [fst snd].
  unfold bind, lift.
  destruct (send ext self method url json stream (Frame.timeout st) im p w) as [[resp|e] w'];
    reflexivity.
Qed.

(** What one attempt does: it calls [headers], perhaps the token
    machinery, and then either fails before the session is called or
    calls the session once, with the current timeout. *)
Lemma try_body_steps st w r p w' :
  body st w = (r, p, w') ->
  p = (pop_is_mime (Frame.params st)).2
  /\ exists aevs req,
       steps w w' (EvHeaders (pop_is_mime (Frame.params st)).1 :: aevs ++ req)
       /\ Forall auth_event aevs
       /\ ((req = [] /\ exists e, r = Raise e
              /\ ((headers ext self (pop_is_mime (Frame.params st)).1 w).1 = Raise e
                  \/ is_Some (repeated_keyword p)))
           \/ (exists h w1,
                 headers ext self (pop_is_mime (Frame.params st)).1 w = (Ok h, w1)
                 /\ repeated_keyword p = None
                 /\ req = [EvRequest (call_with (Frame.timeout st) h p)]
                 /\ r = match session_request ext (trace w1)
                                (call_with (Frame.timeout st) h p) with
                        | Ok resp => check_response resp
                        | Raise e => Raise e
                        end)).
Proof.
  rewrite try_body_unfold, send_unfold.
  set (im := (pop_is_mime (Frame.params st)).1).
  set (p0 := (pop_is_mime (Frame.params st)).2).
  destruct (headers ext self im w) as [[h|e] w1] eqn:Hh;
    destruct (headers_steps _ _ _ _ _ _ Hh) as (aevs & Hst & Hauth).
  - destruct (repeated_keyword p0) as [k|] eqn:Hk.
    + intros [= <- <- <-]. split; [reflexivity|].
      exists aevs, []. rewrite app_nil_r. split; [exact Hst|]. split; [exact Hauth|].
      left. split; [reflexivity|]. eexists. split; [reflexivity|]. right. eauto.
    + destruct (session_request ext (trace w1) _) as [resp|e] eqn:Hreq;
        intros [= <- <- <-]; (split; [reflexivity|]);
        exists aevs, [EvRequest (call_with (Frame.timeout st) h p0)];
        (split; [|split; [exact Hauth|]]).
      * change (EvHeaders im :: aevs ++ [EvRequest (call_with (Frame.timeout st) h p0)])
          with ((EvHeaders im :: aevs) ++ [EvRequest (call_with (Frame.timeout st) h p0)])%list.
        eapply steps_trans; [exact Hst|]. apply steps_add_events. reflexivity.
      * right. exists h, w1. rewrite Hreq. auto.
      * change (EvHeaders im :: aevs ++ [EvRequest (call_with (Frame.timeout st) h p0)])
          with ((EvHeaders im :: aevs) ++ [EvRequest (call_with (Frame.timeout st) h p0)])%list.
        eapply steps_trans; [exact Hst|]. apply steps_add_events. reflexivity.
      * right. exists h, w1. rewrite Hreq. auto.
  - intros [= <- <- <-]. split; [reflexivity|].
    exists aevs, []. rewrite app_nil_r. split; [exact Hst|]. split; [exact Hauth|].
    left. split; [reflexivity|]. eexists. split; [reflexivity|]. left. reflexivity.
Qed.

Lemma except_world_steps st e w :
  steps w (except_world st e w).2
    [EvCaught e; EvSleep (half_seconds (Frame.count st + 1))].
Proof.
  unfold except_world, bind, log. cbn.
  split; [cbn; rewrite <- app_assoc; reflexivity|].
  intros l. cbn. destruct (token_mgr w !! l); auto.
Qed.

(** The loop, unrolled once. *)
Lemma request_loop_unroll st w :
  loop st w =
  if Frame.count st <=? max_retries cfg then
    match body st w with
    | (Raise e, params, w') =>
        if isinstance e Exception then
          loop (except_frame st e params) (except_world st e w').2
        else (Raise e, w')
    | (Ok resp, params, w') => (return_value stream resp, w')
    end
  else (Raise (exhausted method url (Frame.error st)), w).
Proof.
  rewrite request_loop_equation_1.
  unfold request_loop_unfold_clause_1.
  destruct (inspect (Frame.count st <=? max_retries cfg)) as [[] Hb];
    (etransitivity; [| rewrite Hb; reflexivity]); [| reflexivity].
  unfold request_loop_unfold_clause_1_clause_1.
  destruct (inspect (body st w)) as [[[[resp|e] params] w'] Htry];
    (etransitivity; [| rewrite Htry; reflexivity]); [reflexivity|].
  unfold request_loop_unfold_clause_1_clause_1_clause_1.
  destruct (isinstance e Exception); reflexivity.
Qed.

(** Induction along the iterations of the loop. *)
Lemma request_loop_ind (P : Frame.t -> World -> result retval * World -> Prop) :
  (forall st w, max_retries cfg < Frame.count st ->
     P st w (Raise (exhausted method url (Frame.error st)), w)) ->
  (forall st w resp p w', Frame.count st <= max_retries cfg ->
     body st w = (Ok resp, p, w') -> P st w (return_value stream resp, w')) ->
  (forall st w e p w', Frame.count st <= max_retries cfg ->
     body st w = (Raise e, p, w') -> isinstance e Exception = false ->
     P st w (Raise e, w')) ->
  (forall st w e p w' out, Frame.count st <= max_retries cfg ->
     body st w = (Raise e, p, w') -> isinstance e Exception = true ->
     P (except_frame st e p) (except_world st e w').2 out ->
     P st w out) ->
  forall st w, P st w (loop st w).
Proof.
  intros Hstop Hret Hesc Hnext st.
  remember (Z.to_nat (max_retries cfg + 1 - Frame.count st)) as n eqn:Hn.
  revert st Hn. induction n as [|n IH]; intros st Hn w; rewrite request_loop_unroll.
  - replace (Frame.count st <=? max_retries cfg) with false
      by (symmetry; apply Z.leb_gt; lia).
    apply Hstop. lia.
  - assert (Hle : Frame.count st <= max_retries cfg) by lia.
    replace (Frame.count st <=? max_retries cfg) with true
      by (symmetry; apply Z.leb_le; lia).
    destruct (body st w) as [[[resp|e] p] w'] eqn:Hb.
    + eapply Hret; eauto.
    + destruct (isinstance e Exception) eqn:He.
      * eapply Hnext; eauto. apply IH. cbn. lia.
      * eapply Hesc; eauto.
Qed.

(** The loop only adds events, and keeps the slots. *)
Lemma request_loop_steps st w : exists evs, steps w (loop st w).2 evs.
Proof.
  apply (request_loop_ind (fun st w out => exists evs, steps w out.2 evs)); clear st w.
  - intros st w _. exists []. apply steps_refl.
  - intros st w resp p w' _ Hb.
    destruct (try_body_steps _ _ _ _ _ Hb) as (_ & aevs & req & Hst & _). eauto.
  - intros st w e p w' _ Hb _.
    destruct (try_body_steps _ _ _ _ _ Hb) as (_ & aevs & req & Hst & _). eauto.
  - intros st w e p w' out _ Hb _ [evs Hevs].
    destruct (try_body_steps _ _ _ _ _ Hb) as (_ & aevs & req & Hst & _).
    eexists. eapply steps_trans; [exact Hst|].
    eapply steps_trans; [apply except_world_steps|exact Hevs].
Qed.

(** A property of events that every attempt started from a frame
    satisfying [I] establishes holds of the whole run. *)
Lemma request_loop_Forall (I : Frame.t -> Prop) (E : event -> Prop) :
  (forall st e, I st -> I (except_frame st e (pop_is_mime (Frame.params st)).2)) ->
  (forall e, E (EvCaught e)) -> (forall q, E (EvSleep q)) ->
  (forall ev, auth_event ev -> E ev) ->
  (forall st, I st -> E (EvHeaders (pop_is_mime (Frame.params st)).1)) ->
  (forall st w h w1, I st ->
     headers ext self (pop_is_mime (Frame.params st)).1 w = (Ok h, w1) ->
     E (EvRequest (call_with (Frame.timeout st) h (pop_is_mime (Frame.params st)).2))) ->
  forall st w, I st ->
    exists evs, trace (loop st w).2 = (trace w ++ evs)%list /\ Forall E evs.
Proof.
  intros Hinv Hcaught Hsleep Hauth Hhead Hreq st w.
  assert (Hatt : forall st w r p w', I st -> body st w = (r, p, w') ->
            p = (pop_is_mime (Frame.params st)).2
            /\ exists evs, trace w' = (trace w ++ evs)%list /\ Forall E evs).
  { clear st w. intros st w r p w' Hi Hb.
    destruct (try_body_steps _ _ _ _ _ Hb) as (Hp & aevs & req & [Ht _] & Ha & Hr).
    split; [exact Hp|]. eexists. split; [exact Ht|].
    constructor; [auto|]. apply Forall_app. split.
    - eapply Forall_impl; [exact Ha|]. auto.
    - destruct Hr as [[-> _]|(h & w1 & Hh & _ & -> & _)]; [constructor|].
      subst p. repeat constructor. eauto. }
  apply (request_loop_ind (fun st w out =>
           I st -> exists evs, trace out.2 = (trace w ++ evs)%list /\ Forall E evs));
    clear st w.
  - intros st w _ _. exists []. split; [symmetry; apply app_nil_r|constructor].
  - intros st w resp p w' _ Hb Hi. destruct (Hatt _ _ _ _ _ Hi Hb) as [_ H]. exact H.
  - intros st w e p w' _ Hb _ Hi. destruct (Hatt _ _ _ _ _ Hi Hb) as [_ H]. exact H.
  - intros st w e p w' out _ Hb _ IH Hi.
    destruct (Hatt _ _ _ _ _ Hi Hb) as (-> & evs1 & Ht1 & Hf1).
    destruct (IH (Hinv _ _ Hi)) as (evs2 & Ht2 & Hf2).
    destruct (except_world_steps st e w') as [Ht3 _].
    exists (evs1 ++ [EvCaught e; EvSleep (half_seconds (Frame.count st + 1))] ++ evs2)%list.
    split.
    + rewrite Ht2, Ht3, Ht1. rewrite <- !app_assoc. reflexivity.
    + apply Forall_app. split; [exact Hf1|].
      apply Forall_app. split; [|exact Hf2]. repeat constructor; auto.
Qed.

End Loop.

(** ** The base class *)

(** C8: an instance of the base class [Client] cannot build its URL: the
    lookup of [end_point] on its [XOneEnv] raises [AttributeError] (the
    declared fields are [endpoint] and [xone_env]), so [request] raises it
    before the loop is entered and leaves the world, and hence the trace
    of HTTP calls, as it was. *)
Theorem base_client_request_raises_AttributeError
    cfg ext api_name env api method last json stream params w :
  let c := Client_init api_name env api in
  XOneEnv_getattr env "endpoint" = Ok (AttrStr (endpoint env))
  /\ XOneEnv_getattr env "xone_env" = Ok (AttrStr (xone_env env))
  /\ XOneEnv_getattr env "end_point" = Raise (no_attribute "XOneEnv" "end_point")
  /\ XOneEnv_getattr env "tessa_env" = Raise (no_attribute "XOneEnv" "tessa_env")
  /\ Client_url c last = Raise (no_attribute "XOneEnv" "end_point")
  /\ request cfg ext c method last json stream params w
     = (Raise (no_attribute "XOneEnv" "end_point"), w)
  /\ exc_class_of (no_attribute "XOneEnv" "end_point") = AttributeError
  /\ http_calls (since w (request cfg ext c method last json stream params w).2) = [].
Proof.
  cbn zeta. repeat split; try reflexivity.
  unfold request. cbn. unfold since. rewrite drop_all. reflexivity.
Qed.

(** ** Authorization *)

Lemma Forall_http_calls (P : HttpCall -> Prop) evs :
  Forall (fun ev => match ev with EvRequest call => P call | _ => True end) evs ->
  Forall P (http_calls evs).
Proof.
  induction 1 as [|ev evs Hev _ IH]; [constructor|].
  destruct ev; cbn; auto.
Qed.

Lemma Forall_headers_calls (P : value -> Prop) evs :
  Forall (fun ev => match ev with EvHeaders v => P v | _ => True end) evs ->
  Forall P (headers_calls evs).
Proof.
  induction 1 as [|ev evs Hev _ IH]; [constructor|].
  destruct ev; cbn; auto.
Qed.



(** ** The token-manager slot *)

Lemma request_steps cfg ext c method last json stream params w :
  exists evs, steps w (request cfg ext c method last json stream params w).2 evs.
Proof.
  unfold request. destruct (Client_url c last) as [u|e].
  - apply request_loop_steps.
  - exists []. apply steps_refl.
Qed.

Lemma run_operation_steps cfg ext o w :
  exists evs, steps w (run_operation cfg ext o w) evs.
Proof.
  destruct o; cbn [run_operation].
  - destruct (headers ext c is_mime w) as [r w'] eqn:Hh.
    destruct (headers_steps _ _ _ _ _ _ Hh) as (evs & Hst & _). eauto.
  - exists []. apply steps_refl.
  - apply request_steps.
  - unfold get, repeats_method. destruct (params !! "method").
    + exists []. apply steps_refl.
    + apply request_steps.
  - unfold post, repeats_method. destruct (params !! "method").
    + exists []. apply steps_refl.
    + apply request_steps.
Qed.

Lemma run_operations_steps cfg ext ops w :
  exists evs, steps w (run_operations cfg ext ops w) evs.
Proof.
  unfold run_operations. revert w. induction ops as [|o ops IH]; intros w; cbn [fold_left].
  - exists []. apply steps_refl.
  - destruct (run_operation_steps cfg ext o w) as (evs1 & H1).
    destruct (IH (run_operation cfg ext o w)) as (evs2 & H2).
    eexists. eapply steps_trans; eauto.
Qed.

(** C7: over any sequence of [headers], [url], [request], [get] and [post]
    calls by any clients, the token-manager slot of a credential record is
    written at most once; a slot that holds a manager keeps that very
    manager and is never written again, and a manager written into an empty
    slot is the one the slot holds from then on. *)
Theorem token_mgr_slot_written_at_most_once cfg ext ops w l :
  let w' := run_operations cfg ext ops w in
  (length (slot_writes l (since w w')) <= 1)%nat
  /\ (forall m, token_mgr w !! l = Some m ->
        token_mgr w' !! l = Some m /\ slot_writes l (since w w') = [])
  /\ (forall m, In m (slot_writes l (since w w')) ->
        token_mgr w !! l = None /\ token_mgr w' !! l = Some m).
Proof.
  cbn zeta. destruct (run_operations_steps cfg ext ops w) as (evs & Ht & Hs).
  rewrite (since_app _ _ _ Ht). specialize (Hs l).
  destruct (token_mgr w !! l) as [m0|].
  - destruct Hs as [Hm Hw]. rewrite Hw. split; [cbn; lia|]. split.
    + intros m Heq. injection Heq as <-. auto.
    + intros m [].
  - destruct Hs as [[Hn Hw]|(m0 & Hm & Hw)]; rewrite Hw.
    + split; [cbn; lia|]. split; [intros m; discriminate|intros m []].
    + split; [cbn; lia|]. split; [intros m; discriminate|].
      intros m [<-|[]]. auto.
Qed.

(** Two requests through the same credential record: the first creates the
    manager, the second finds it. *)
Example token_mgr_created_once :
  let w' := run_operations (Sample.config 0 60) Sample.healthy
              [OpGet Sample.trade_client ["a"] false ∅;
               OpGet Sample.trade_client ["b"] false ∅] Sample.start in
  length (slot_writes 1 (trace w')) = 1%nat
  /\ length (http_calls (trace w')) = 2%nat
  /\ is_Some (token_mgr w' !! 1).
Proof. vm_compute. repeat split. eauto. Qed.

(** *** Concurrent first use *)

Lemma ensure_token_mgr_steps ext c server w r w' :
  ensure_token_mgr ext c server w = (r, w') -> exists evs, steps w w' evs.
Proof.
  unfold ensure_token_mgr, bind, get_slot. cbn [token_mgr trace].
  destruct (token_mgr w !! api_id (_api c)) as [m|] eqn:Hslot.
  - unfold ret. intros [= <- <-]. exists []. apply steps_refl.
  - unfold call_sgconnect. destruct (sgconnect ext _ _) as [e|].
    + intros [= <- <-]. eexists. apply (steps_add_events w [EvSgconnect _]). reflexivity.
    + unfold set_slot. cbn [token_mgr trace]. intros [= <- <-].
      eexists [EvSgconnect _; EvSetTokenMgr _ _].
      split; [cbn; rewrite <- app_assoc; reflexivity|].
      intros l. cbn. destruct (decide (api_id (_api c) = l)) as [<-|Hne].
      * rewrite Hslot, lookup_insert_eq. right. eauto.
      * rewrite lookup_insert_ne by done. destruct (token_mgr w !! l); auto.
Qed.

Lemma thread_step_steps ext t w t' w' :
  thread_step ext t w t' w' -> exists evs, steps w w' evs.
Proof.
  intros [c server w0 r w0' He | c server w0 m r w0' _ Hg].
  - eapply ensure_token_mgr_steps; eauto.
  - unfold call_get_token_value in Hg. injection Hg as _ <-.
    eexists. apply (steps_add_events w0 [EvGetTokenValue m]). reflexivity.
Qed.

Lemma pool_steps ext s s' :
  rtc (pool_step ext) s s' -> exists evs, steps s.2 s'.2 evs.
Proof.
  induction 1 as [s|s1 s2 s3 Hstep _ IH].
  - exists []. apply steps_refl.
  - destruct Hstep as [i ts t t' w w' _ Ht]. cbn [snd] in *.
    destruct (thread_step_steps _ _ _ _ _ Ht) as [evs1 H1].
    destruct IH as [evs2 H2].
    eexists. eapply steps_trans; eauto.
Qed.

(** However the calls of [headers] that are in flight take turns, a slot
    is written at most once, and a manager found in a slot stays there: a
    second caller finds the instance of the first. *)
Lemma concurrent_first_use ext ts w ts' w' l :
  rtc (pool_step ext) (ts, w) (ts', w') ->
  (length (slot_writes l (since w w')) <= 1)%nat
  /\ (forall m, token_mgr w !! l = Some m -> token_mgr w' !! l = Some m).
Proof.
  intros Hr. destruct (pool_steps _ _ _ Hr) as (evs & Ht & Hs). cbn [snd] in *.
  rewrite (since_app _ _ _ Ht). specialize (Hs l).
  destruct (token_mgr w !! l) as [m0|].
  - destruct Hs as [Hm ->]. split; [cbn; lia|]. intros m Heq. injection Heq as <-. exact Hm.
  - split; [|intros m; discriminate].
    destruct Hs as [[_ ->]|(m & _ & ->)]; cbn; lia.
Qed.

(** Two first calls through the same credential record, the second
    entering the locked block after the first has left it: one manager is
    built, and both fetch their token from it. *)
Example concurrent_first_use_sample :
  let w1 := (ensure_token_mgr Sample.healthy Sample.trade_client "dev" Sample.start).2 in
  let w2 := (ensure_token_mgr Sample.healthy Sample.trade_client "dev" w1).2 in
  slot_writes 1 (trace w2) = [mk_TokenMgr 0 (ClientMode "id" "secret" "dev" "api.trade")]
  /\ token_mgr w1 !! 1 = token_mgr w2 !! 1
  /\ token_mgr w2 !! 1 = Some (mk_TokenMgr 0 (ClientMode "id" "secret" "dev" "api.trade")).
Proof. vm_compute. repeat split. Qed.

(** ** The [is_mime] flag *)

Lemma pop_is_mime_absent (p : gmap string value) :
  p !! "is_mime" = None -> pop_is_mime p = (PyBool false, p).
Proof. unfold pop_is_mime. intros ->. reflexivity. Qed.

Lemma pop_is_mime_rest (p : gmap string value) :
  (pop_is_mime p).2 = delete "is_mime" p.
Proof.
  unfold pop_is_mime. destruct (p !! "is_mime") eqn:H; [reflexivity|].
  cbn. symmetry. apply delete_id. exact H.
Qed.

(** C9: when [request] is called with [is_mime=True] among [params] and
    the first attempt fails, every later attempt calls [headers] with
    [False], finds no [is_mime] entry to pass on, and sends the JSON
    [Content-Type] and [Accept] headers. *)
Theorem is_mime_dropped_on_retry
    cfg ext c method last json stream params w u e :
  let first :=
    try_body ext c method u json stream (Frame.mk 0 None (timeout cfg) params) w in
  let retries := since first.2 (request cfg ext c method last json stream params w).2 in
  Client_url c last = Ok u ->
  0 <= max_retries cfg ->
  params !! "is_mime" = Some (PyBool true) ->
  first.1.1 = Raise e -> isinstance e Exception = true ->
  headers_calls (since w first.2) = [PyBool true]
  /\ Forall (fun v => v = PyBool false) (headers_calls retries)
  /\ Forall (fun call =>
               c_headers call !! "Content-Type" = Some "application/json"
               /\ c_headers call !! "Accept" = Some "application/json"
               /\ c_params call !! "is_mime" = None)
       (http_calls retries).
Proof.
  cbn zeta. intros Hu HN Hp Hr He. unfold request. rewrite Hu.
  set (st0 := Frame.mk 0 None (timeout cfg) params) in *.
  destruct (try_body ext c method u json stream st0 w) as [[r p1] w1] eqn:Hb.
  cbn [fst snd] in *. subst r.
  destruct (try_body_steps _ _ _ _ _ _ _ _ _ _ _ Hb)
    as (Hp1 & aevs & req & [Ht1 _] & Hauth & Hreq).
  assert (Hpop : pop_is_mime (Frame.params st0) = (PyBool true, delete "is_mime" params)).
  { unfold pop_is_mime. cbn. rewrite Hp. reflexivity. }
  rewrite Hpop in Ht1, Hp1. cbn [fst snd] in Ht1, Hp1.
  split.
  - rewrite (since_app _ _ _ Ht1). cbn.
    rewrite headers_calls_app.
    destruct (auth_events_quiet _ Hauth) as (_ & _ & _ & ->).
    destruct Hreq as [[-> _]|(h & w2 & _ & _ & -> & _)]; reflexivity.
  - rewrite request_loop_unroll.
    replace (Frame.count st0 <=? max_retries cfg) with true
      by (symmetry; apply Z.leb_le; cbn; lia).
    rewrite Hb, He.
    set (I := fun st : Frame.t => Frame.params st !! "is_mime" = None).
    set (E := fun ev =>
                match ev with
                | EvHeaders v => v = PyBool false
                | EvRequest call =>
                    c_headers call !! "Content-Type" = Some "application/json"
                    /\ c_headers call !! "Accept" = Some "application/json"
                    /\ c_params call !! "is_mime" = None
                | _ => True
                end).
    assert (Hinv : forall st x, I st -> I (except_frame st x (pop_is_mime (Frame.params st)).2)).
    { intros st x Hi. unfold I in *. cbn. rewrite pop_is_mime_absent by exact Hi. exact Hi. }
    assert (HEauth : forall ev, auth_event ev -> E ev) by (intros []; cbn; tauto).
    assert (Hhead : forall st, I st -> E (EvHeaders (pop_is_mime (Frame.params st)).1)).
    { intros st Hi. cbn. rewrite pop_is_mime_absent by exact Hi. reflexivity. }
    assert (HEreq : forall (st : Frame.t) w0 h w3, I st ->
              headers ext c (pop_is_mime (Frame.params st)).1 w0 = (Ok h, w3) ->
              E (EvRequest (mk_HttpCall method u h json false stream (Frame.timeout st)
                              (pop_is_mime (Frame.params st)).2))).
    { intros st w0 h w3 Hi. rewrite pop_is_mime_absent by exact Hi. cbn [fst snd].
      intros Hh. cbn.
      split; [eapply headers_json; eauto|].
      split; [eapply headers_json; eauto|]. exact Hi. }
    destruct (request_loop_Forall cfg ext c method u json stream I E
                Hinv (fun _ => Logic.I) (fun _ => Logic.I) HEauth Hhead HEreq
                (except_frame st0 e p1) (except_world st0 e w1).2)
      as (evs & Ht & Hf).
    { unfold I. cbn. subst p1. apply lookup_delete_eq. }
    destruct (except_world_steps st0 e w1) as [Ht3 _].
    rewrite Ht3 in Ht. rewrite <- app_assoc in Ht.
    rewrite (since_app _ _ _ Ht).
    assert (HfE : Forall E ([EvCaught e; EvSleep (half_seconds (Frame.count st0 + 1))] ++ evs)).
    { apply Forall_app. split; [repeat constructor|exact Hf]. }
    split.
    + apply Forall_headers_calls. eapply Forall_impl; [exact HfE|].
      intros []; cbn; tauto.
    + apply Forall_http_calls. eapply Forall_impl; [exact HfE|].
      intros []; cbn; tauto.
Qed.

Lemma is_mime_dropped_on_retry_witness :
  let first :=
    try_body Sample.down Sample.csa_client_no_auth "post" Sample.csa_url PyNone false
      (Frame.mk 0 None 60 Sample.mime_params) Sample.start in
  let retries :=
    since first.2
      (request (Sample.config 2 60) Sample.down Sample.csa_client_no_auth
         "post" ["a"] PyNone false Sample.mime_params Sample.start).2 in
  headers_calls (since Sample.start first.2) = [PyBool true]
  /\ Forall (fun v => v = PyBool false) (headers_calls retries)
  /\ Forall (fun call =>
               c_headers call !! "Content-Type" = Some "application/json"
               /\ c_headers call !! "Accept" = Some "application/json"
               /\ c_params call !! "is_mime" = None)
       (http_calls retries).
Proof.
  apply (is_mime_dropped_on_retry (Sample.config 2 60) Sample.down
           Sample.csa_client_no_auth "post" ["a"] PyNone false Sample.mime_params
           Sample.start Sample.csa_url Sample.timed_out).
  - vm_compute. reflexivity.
  - cbn. lia.
  - vm_compute. reflexivity.
  - vm_compute. reflexivity.
  - vm_compute. reflexivity.
Defined.

(** The retries of the sample run do happen: two more calls of [headers]
    and of the session, while the first call went out without a content
    type. *)
Example is_mime_sample_run :
  let t := trace (request (Sample.config 2 60) Sample.down Sample.csa_client_no_auth
                    "post" ["a"] PyNone false Sample.mime_params Sample.start).2 in
  headers_calls t = [PyBool true; PyBool false; PyBool false]
  /\ (fun call => c_headers call !! "Content-Type") <$> http_calls t
     = [None; Some "application/json"; Some "application/json"].
Proof. vm_compute. split; reflexivity. Qed.

(** ** Successful responses *)

Lemma send_steps ext c method u json stream timeout im p w resp w1 :
  send ext c method u json stream timeout im p w = (Ok resp, w1) ->
  exists evs, trace w1 = (trace w ++ evs)%list
    /\ length (http_calls evs) = 1%nat /\ sleeps evs = [] /\ caught evs = [].
Proof.
  rewrite send_unfold.
  destruct (headers ext c im w) as [[h|e] w0] eqn:Hh; [|discriminate].
  destruct (headers_steps _ _ _ _ _ _ Hh) as (aevs & [Ht _] & Hauth).
  destruct (auth_events_quiet _ Hauth) as (H1 & H2 & H3 & _).
  destruct (repeated_keyword p); [discriminate|].
  intros [= Hreq <-]. eexists. split.
  - cbn. rewrite Ht, <- app_assoc. reflexivity.
  - cbn. rewrite http_calls_app, sleeps_app, caught_app, H1, H2, H3. auto.
Qed.

(** C5 (as amended): when the first HTTP call returns a response with a
    status from 200 to 299, [request] makes that one call and no other, does
    not sleep, and hands back the response itself when [stream] is set and
    otherwise the outcome of [resp.json()]: the decoded body, or the
    decoder's exception, which is not caught. *)
Theorem success_is_a_single_attempt
    cfg ext c method last json stream params w u resp :
  let first :=
    send ext c method u json stream (timeout cfg)
      (pop_is_mime params).1 (pop_is_mime params).2 w in
  let out := request cfg ext c method last json stream params w in
  Client_url c last = Ok u ->
  0 <= max_retries cfg ->
  first.1 = Ok resp ->
  is_ok (status_code resp) = true ->
  out.2 = first.2
  /\ length (http_calls (since w out.2)) = 1%nat
  /\ sleeps (since w out.2) = []
  /\ caught (since w out.2) = []
  /\ out.1 = if stream then Ok (RetResponse resp)
             else match json_ resp with
                  | Ok j => Ok (RetJson j)
                  | Raise e => Raise e
                  end.
Proof.
  cbn zeta. intros Hu HN Hfirst Hok. unfold request. rewrite Hu.
  rewrite request_loop_unroll. cbn [Frame.count].
  replace (0 <=? max_retries cfg) with true by (symmetry; apply Z.leb_le; lia).
  rewrite try_body_unfold. cbn [Frame.params Frame.timeout].
  destruct (send ext c method u json stream (timeout cfg)
              (pop_is_mime params).1 (pop_is_mime params).2 w) as [r w1] eqn:Hs.
  cbn [fst snd] in *. subst r.
  destruct (send_steps _ _ _ _ _ _ _ _ _ _ _ _ Hs) as (evs & Ht & H1 & H2 & H3).
  assert (Hc : check_response resp = Ok resp).
  { unfold check_response. rewrite (is_ok_ok _ Hok). reflexivity. }
  rewrite Hc. cbn [fst snd]. rewrite (since_app _ _ _ Ht).
  repeat split; auto.
  unfold return_value. destruct stream; cbn; [reflexivity|].
  destruct (json_ resp); reflexivity.
Qed.

Lemma success_is_a_single_attempt_witness :
  let out := request (Sample.config 3 60) Sample.healthy Sample.csa_client_no_auth
               "get" ["a"] PyNone false ∅ Sample.start in
  length (http_calls (since Sample.start out.2)) = 1%nat
  /\ sleeps (since Sample.start out.2) = []
  /\ out.1 = Ok (RetJson (JObj [])).
Proof.
  pose proof (success_is_a_single_attempt (Sample.config 3 60) Sample.healthy
                Sample.csa_client_no_auth "get" ["a"] PyNone false ∅ Sample.start
                Sample.csa_url (Sample.response 200 "OK" "{}" (Ok (JObj []))))
    as H.
  cbn zeta in H.
  destruct H as (_ & H1 & H2 & _ & H4).
  - vm_compute. reflexivity.
  - cbn. lia.
  - vm_compute. reflexivity.
  - reflexivity.
  - cbn zeta. repeat split; assumption.
Defined.

(** C5 (as stated) fails: a 204 response with an empty body is in the
    range 200..299, and [request] makes one attempt, yet it returns no
    value: the decoder's exception comes out of it. *)
Lemma no_content_response_raises :
  let out := request (Sample.config 3 60) Sample.no_content Sample.csa_client_no_auth
               "get" ["a"] PyNone false ∅ Sample.start in
  is_ok 204 = true
  /\ length (http_calls (trace out.2)) = 1%nat
  /\ out.1 = Raise (mk_exc JSONDecodeError "Expecting value: line 1 column 1 (char 0)")
  /\ (forall v, out.1 <> Ok v).
Proof.
  cbn zeta. split; [reflexivity|]. split; [vm_compute; reflexivity|].
  split; [vm_compute; reflexivity|]. intros v. vm_compute. discriminate.
Qed.

(** ** Which exceptions leave [request] *)

Lemma exhausted_is_ClientError method u err :
  exc_class_of (exhausted method u err) = ClientError
  /\ isinstance (exhausted method u err) HTTPError = false.
Proof. destruct err; split; reflexivity. Qed.




(** ** A backend that always fails *)

Lemma repeated_keyword_delete (p : gmap string value) k :
  repeated_keyword p = None -> repeated_keyword (delete k p) = None.
Proof.
  unfold repeated_keyword. generalize explicit_keywords.
  intros ks. induction ks as [|k0 ks IH]; [reflexivity|]. cbn [find].
  destruct (bool_decide (is_Some (p !! k0))) eqn:H0; [discriminate|].
  intros Hrest. apply bool_decide_eq_false in H0.
  replace (bool_decide (is_Some (delete k p !! k0))) with false; [auto|].
  symmetry. apply bool_decide_eq_false. intros [v Hv].
  apply lookup_delete_Some in Hv as [_ Hv]. apply H0. eauto.
Qed.

Lemma timeouts_from_length n c t : length (timeouts_from n c t) = n.
Proof. revert c t. induction n as [|n IH]; intros c t; cbn; [reflexivity|]. rewrite IH. reflexivity. Qed.

Lemma triangle_succ i : 0 <= i -> (i + 1) * (i + 2) / 2 = i * (i + 1) / 2 + (i + 1).
Proof.
  intros Hi. replace ((i + 1) * (i + 2)) with (i * (i + 1) + (i + 1) * 2) by lia.
  apply Z.div_add. lia.
Qed.

(** After [i] failures starting from [count] and [timeout], the timeout has
    grown by 5 times [(count+1) + ... + (count+i)]. *)
Lemma timeouts_from_lookup n c t (i : nat) :
  (i < n)%nat ->
  timeouts_from n c t !! i
  = Some (t + 5 * (Z.of_nat i * c + Z.of_nat i * (Z.of_nat i + 1) / 2)).
Proof.
  revert c t i. induction n as [|n IH]; intros c t i Hi; [lia|].
  destruct i as [|i]; cbn [timeouts_from].
  - change (Z.of_nat 0) with 0. rewrite !Z.mul_0_l. change (0 / 2) with 0.
    replace (t + 5 * (0 + 0)) with t by lia. reflexivity.
  - change ((t :: timeouts_from n (c + 1) (t + (c + 1) * 5)) !! S i)
      with (timeouts_from n (c + 1) (t + (c + 1) * 5) !! i).
    rewrite IH by lia. f_equal.
    replace (Z.of_nat (S i)) with (Z.of_nat i + 1) by lia.
    replace ((Z.of_nat i + 1) * (Z.of_nat i + 1 + 1))
      with ((Z.of_nat i + 1) * (Z.of_nat i + 2)) by lia.
    rewrite (triangle_succ (Z.of_nat i)) by lia. lia.
Qed.

Lemma last_or_cons {A} (e : A) l d :
  match last (e :: l) with Some x => Some x | None => d end
  = match last l with Some x => Some x | None => Some e end.
Proof.
  destruct l as [|x xs]; [reflexivity|]. rewrite last_cons_cons.
  destruct (last (x :: xs)) eqn:H; [reflexivity|].
  apply last_None in H. discriminate.
Qed.

Lemma last_app_cons2 {A} (l1 : list A) a b l2 :
  last (l1 ++ a :: b :: l2)
  = match last l2 with Some y => Some y | None => Some b end.
Proof.
  rewrite last_app, last_cons_cons, last_cons.
  destruct (last l2); reflexivity.
Qed.

Section AlwaysFails.

Variable cfg : RootConfig.
Variable ext : Externals.
Variable self : client.
Variable method : string.
Variable url : string.
Variable json : value.
Variable stream : bool.

Hypothesis Hfails : backend_always_fails ext.
Hypothesis Hup : token_service_up ext.

Local Abbreviation loop := (request_loop cfg ext self method url json stream).
Local Abbreviation body := (try_body ext self method url json stream).

(** One attempt against such a backend: the session is called once, with
    the current timeout, and the attempt ends in an exception that the
    loop catches. *)
Lemma failing_attempt st w :
  repeated_keyword (delete "is_mime" (Frame.params st)) = None ->
  exists e w' evs call,
    body st w = (Raise e, delete "is_mime" (Frame.params st), w')
    /\ isinstance e Exception = true
    /\ trace w' = (trace w ++ evs)%list
    /\ http_calls evs = [call]
    /\ c_timeout call = Frame.timeout st
    /\ failure_of ext call e
    /\ calls_and_sleeps evs = [inl (Frame.timeout st)]
    /\ sleeps evs = [] /\ caught evs = [].
Proof.
  intros Hkw.
  destruct (body st w) as [[r p] w'] eqn:Hb.
  destruct (try_body_steps _ _ _ _ _ _ _ _ _ _ _ Hb)
    as (Hp & aevs & req & [Ht _] & Hauth & Hr).
  rewrite pop_is_mime_rest in Hp. subst p.
  destruct (auth_events_quiet _ Hauth) as (H1 & H2 & H3 & _).
  assert (H4 : calls_and_sleeps aevs = []).
  { clear -Hauth. induction Hauth as [|ev evs Hev _ IH]; [reflexivity|].
    destruct ev; try contradiction; exact IH. }
  destruct Hr as [(_ & e & _ & [Hh|Hk])|(h & w1 & _ & _ & -> & Hr)].
  - destruct (headers_up ext self (pop_is_mime (Frame.params st)).1 w Hup) as [h Hok].
    congruence.
  - rewrite Hkw in Hk. destruct Hk as [k Hk]. discriminate.
  - set (call := mk_HttpCall method url h json false stream (Frame.timeout st)
                   (delete "is_mime" (Frame.params st))) in *.
    assert (Hcaught : exists e, r = Raise e /\ isinstance e Exception = true
                                /\ failure_of ext call e).
    { specialize (Hfails (trace w1) call). unfold failure_of.
      destruct (session_request ext (trace w1) call) as [resp|e] eqn:Hreq; cbn in Hfails.
      - destruct (check_response_not_ok resp Hfails) as [e He].
        rewrite He in Hr. exists e. split; [exact Hr|]. split.
        + eapply check_response_raises_Exception; eauto.
        + exists (trace w1). rewrite Hreq. cbn. rewrite He. reflexivity.
      - exists e. split; [exact Hr|]. split; [exact Hfails|].
        exists (trace w1). rewrite Hreq. reflexivity. }
    destruct Hcaught as (e & -> & He & Hfe).
    exists e, w'. eexists. exists call. split; [reflexivity|]. split; [exact He|].
    split; [exact Ht|]. cbn.
    unfold calls_and_sleeps in *. cbn [omap list_omap].
    fold (http_calls (aevs ++ [EvRequest call])).
    fold (sleeps (aevs ++ [EvRequest call])).
    fold (caught (aevs ++ [EvRequest call])).
    rewrite http_calls_app, sleeps_app, caught_app, omap_app, H1, H2, H3, H4.
    repeat split; auto.
Qed.

(** The whole run from a frame with [n] attempts left. *)
Lemma failing_run (n : nat) st w :
  repeated_keyword (delete "is_mime" (Frame.params st)) = None ->
  Z.of_nat n = max_retries cfg + 1 - Frame.count st ->
  exists evs,
    trace (loop st w).2 = (trace w ++ evs)%list
    /\ c_timeout <$> http_calls evs
       = timeouts_from n (Frame.count st) (Frame.timeout st)
    /\ sleeps evs = half_seconds <$> seqZ (Frame.count st + 1) (Z.of_nat n)
    /\ calls_and_sleeps evs = failing_schedule n (Frame.count st) (Frame.timeout st)
    /\ Forall2 (failure_of ext) (http_calls evs) (caught evs)
    /\ length (caught evs) = n
    /\ (loop st w).1
       = Raise (exhausted method url
                  (match last (caught evs) with
                   | Some e => Some e
                   | None => Frame.error st
                   end)).
Proof.
  revert st w. induction n as [|n IH]; intros st w Hkw Hn; rewrite request_loop_unroll.
  - replace (Frame.count st <=? max_retries cfg) with false
      by (symmetry; apply Z.leb_gt; lia).
    exists []. cbn. rewrite app_nil_r. repeat split; auto.
  - replace (Frame.count st <=? max_retries cfg) with true
      by (symmetry; apply Z.leb_le; lia).
    destruct (failing_attempt st w Hkw)
      as (e & w' & evs1 & call & Hb & He & Ht1 & Hc1 & Hto & Hfe & Hcs1 & Hs1 & Hx1).
    rewrite Hb, He.
    set (st' := except_frame st e (delete "is_mime" (Frame.params st))).
    destruct (IH st' (except_world st e w').2)
      as (evs2 & Ht2 & Hc2 & Hs2 & Hcs2 & Hf2 & Hl2 & Hr2).
    { cbn. apply repeated_keyword_delete. exact Hkw. }
    { cbn. lia. }
    destruct (except_world_steps st e w') as [Ht3 _].
    exists (evs1 ++ [EvCaught e; EvSleep (half_seconds (Frame.count st + 1))] ++ evs2)%list.
    split; [rewrite Ht2, Ht3, Ht1, <- !app_assoc; reflexivity|].
    unfold calls_and_sleeps in *.
    rewrite !http_calls_app, !sleeps_app, !caught_app, !omap_app, Hc1, Hs1, Hx1, Hcs1.
    cbn [app omap list_omap http_calls sleeps caught].
    fold (http_calls evs2). fold (sleeps evs2). fold (caught evs2).
    split; [cbn [fmap list_fmap]; rewrite Hc2, Hto; reflexivity|].
    split.
    { rewrite Hs2. rewrite (seqZ_cons (Frame.count st + 1) (Z.of_nat (S n))) by lia.
      cbn [fmap list_fmap]. f_equal. f_equal. f_equal; cbn; lia. }
    split; [rewrite Hcs2; reflexivity|].
    split; [constructor; assumption|].
    split; [cbn; lia|].
    rewrite Hr2, last_or_cons. reflexivity.
Qed.

(** Each call of a failing run is followed by its sleep, so a failing run
    that makes at least one attempt ends with a sleep. *)
Lemma failing_schedule_last n count timeout :
  n <> 0%nat ->
  last (failing_schedule n count timeout)
  = Some (inr (half_seconds (count + Z.of_nat n))).
Proof.
  revert count timeout. induction n as [|n IH]; intros count timeout Hn; [congruence|].
  destruct n as [|n].
  - reflexivity.
  - cbn [failing_schedule]. rewrite !last_cons_cons.
    change (last (failing_schedule (S n) (count + 1) (timeout + (count + 1) * 5)) =
            Some (inr (half_seconds (count + Z.of_nat (S (S n)))))).
    rewrite IH by discriminate. do 3 f_equal. lia.
Qed.

End AlwaysFails.

(** C1: with [max_retries = N >= 0] and every attempt failing (the session
    raises, or returns a response that [check_response] rejects), [request]
    calls the session exactly [N+1] times, catches [N+1] exceptions, and
    then raises one [ClientError] whose message holds the upper-cased
    method, the URL and the text of the last exception caught, which is the
    one in which the last session call ended. *)
Theorem retries_exhausted_raise_ClientError
    cfg ext c method path json stream params w u :
  let out := request cfg ext c method path json stream params w in
  let evs := since w out.2 in
  Client_url c path = Ok u ->
  0 <= max_retries cfg ->
  backend_always_fails ext ->
  token_service_up ext ->
  repeated_keyword params = None ->
  length (http_calls evs) = Z.to_nat (max_retries cfg + 1)
  /\ length (caught evs) = Z.to_nat (max_retries cfg + 1)
  /\ exists e call,
       last (caught evs) = Some e
       /\ last (http_calls evs) = Some call
       /\ failure_of ext call e
       /\ out.1 = Raise (mk_exc ClientError
                    ("Client request failed for " ++ upper method ++ " " ++ u
                     ++ ": " ++ str e)).
Proof.
  cbn zeta. intros Hu HN Hfails Hup Hkw. unfold request. rewrite Hu.
  destruct (failing_run cfg ext c method u json stream Hfails Hup
              (Z.to_nat (max_retries cfg + 1))
              (Frame.mk 0 None (timeout cfg) params) w)
    as (evs & Ht & Hc & _ & _ & Hf & Hl & Hr).
  { cbn. apply repeated_keyword_delete. exact Hkw. }
  { cbn. lia. }
  rewrite (since_app _ _ _ Ht). split.
  - apply (f_equal length) in Hc.
    rewrite length_fmap, timeouts_from_length in Hc. exact Hc.
  - split; [exact Hl|].
    apply Forall2_last in Hf.
    inversion Hf as [call e Hfe Hlc Hle|Hn1 Hn2].
    + exists e, call. rewrite Hr, <- Hle. auto.
    + symmetry in Hn2. apply last_None in Hn2. rewrite Hn2 in Hl. cbn in Hl. lia.
Qed.

Lemma retries_exhausted_raise_ClientError_witness :
  let out := request (Sample.config 2 60) Sample.forbidden Sample.trade_client
               "get" ["a"] PyNone false ∅ Sample.start in
  let evs := since Sample.start out.2 in
  length (http_calls evs) = Z.to_nat (max_retries (Sample.config 2 60) + 1)
  /\ length (caught evs) = Z.to_nat (max_retries (Sample.config 2 60) + 1)
  /\ exists e call,
       last (caught evs) = Some e
       /\ last (http_calls evs) = Some call
       /\ failure_of Sample.forbidden call e
       /\ out.1 = Raise (mk_exc ClientError
                    ("Client request failed for " ++ upper "get" ++ " " ++ Sample.trade_url
                     ++ ": " ++ str e)).
Proof.
  apply (retries_exhausted_raise_ClientError (Sample.config 2 60) Sample.forbidden
           Sample.trade_client "get" ["a"] PyNone false ∅ Sample.start Sample.trade_url).
  - vm_compute. reflexivity.
  - cbn. lia.
  - intros h call. reflexivity.
  - split; [reflexivity|]. intros h m. eexists. reflexivity.
  - reflexivity.
Defined.

(** The same run, evaluated: three calls, and the message of the last
    [Unauthorized] inside the final [ClientError]. *)
Example forbidden_sample_run :
  let out := request (Sample.config 2 60) Sample.forbidden Sample.trade_client
               "get" ["a"] PyNone false ∅ Sample.start in
  length (http_calls (trace out.2)) = 3%nat
  /\ caught (trace out.2)
     = [mk_exc Unauthorized "403: denied"; mk_exc Unauthorized "403: denied";
        mk_exc Unauthorized "403: denied"]
  /\ out.1 = Raise (mk_exc ClientError
       "Client request failed for GET https://host/base/api/TradeInformation/v2/a?x=1: 403: denied").
Proof. vm_compute. repeat split. Qed.

(** C3 (as amended): against a backend that always fails, the timeout
    passed to the session on attempt [k] is the configured timeout plus 5
    times [1 + 2 + ... + (k-1)], that is [(k-1)*k/2]: the configured value
    on the first attempt, 5 more on the second, 15 more on the third. *)
Theorem timeout_of_attempt
    cfg ext c method path json stream params w u k :
  let out := request cfg ext c method path json stream params w in
  let timeouts := c_timeout <$> http_calls (since w out.2) in
  Client_url c path = Ok u ->
  backend_always_fails ext ->
  token_service_up ext ->
  repeated_keyword params = None ->
  1 <= k <= max_retries cfg + 1 ->
  timeouts !! Z.to_nat (k - 1) = Some (timeout cfg + 5 * ((k - 1) * k / 2)).
Proof.
  cbn zeta. intros Hu Hfails Hup Hkw Hk. unfold request. rewrite Hu.
  destruct (failing_run cfg ext c method u json stream Hfails Hup
              (Z.to_nat (max_retries cfg + 1))
              (Frame.mk 0 None (timeout cfg) params) w)
    as (evs & Ht & Hc & _).
  { cbn. apply repeated_keyword_delete. exact Hkw. }
  { cbn. lia. }
  rewrite (since_app _ _ _ Ht), Hc. cbn [Frame.count Frame.timeout].
  rewrite timeouts_from_lookup by lia.
  rewrite Z2Nat.id by lia. do 3 f_equal.
  rewrite Z.mul_0_r, Z.add_0_l. f_equal. lia.
Qed.

Lemma timeout_of_attempt_witness :
  let out := request (Sample.config 3 60) Sample.down Sample.trade_client
               "get" ["a"] PyNone false ∅ Sample.start in
  let timeouts := c_timeout <$> http_calls (since Sample.start out.2) in
  timeouts !! Z.to_nat (4 - 1)
  = Some (timeout (Sample.config 3 60) + 5 * ((4 - 1) * 4 / 2)).
Proof.
  apply (timeout_of_attempt (Sample.config 3 60) Sample.down Sample.trade_client
           "get" ["a"] PyNone false ∅ Sample.start Sample.trade_url 4).
  - vm_compute. reflexivity.
  - intros h call. reflexivity.
  - split; [reflexivity|]. intros h m. eexists. reflexivity.
  - reflexivity.
  - cbn. lia.
Defined.

(** C3 (as stated) fails: with two retries and a timeout of 60, the third
    attempt is sent with 75, not with 60 + 5 * (3 - 1) = 70. *)
Lemma third_timeout_is_75 :
  let out := request (Sample.config 2 60) Sample.down Sample.csa_client_no_auth
               "get" ["a"] PyNone false ∅ Sample.start in
  let timeouts := c_timeout <$> http_calls (trace out.2) in
  backend_always_fails Sample.down
  /\ timeouts = [60; 65; 75]
  /\ timeouts !! 2%nat <> Some (60 + 5 * (3 - 1)).
Proof.
  cbn zeta. split; [intros h call; reflexivity|].
  split; [vm_compute; reflexivity|]. vm_compute. discriminate.
Qed.

(** C4 (as amended): with [max_retries = N >= 0] and a backend that always
    fails, [request] sleeps [N+1] times, once after every failed attempt,
    the last one included: each session call is followed by its sleep, the
    sleep after failed attempt [k] lasts [0.5*k] seconds, and the run ends
    with the sleep of [0.5*(N+1)] seconds. *)
Theorem sleeps_after_every_failure
    cfg ext c method path json stream params w u :
  let out := request cfg ext c method path json stream params w in
  let evs := since w out.2 in
  Client_url c path = Ok u ->
  0 <= max_retries cfg ->
  backend_always_fails ext ->
  token_service_up ext ->
  repeated_keyword params = None ->
  sleeps evs = half_seconds <$> seqZ 1 (max_retries cfg + 1)
  /\ length (sleeps evs) = Z.to_nat (max_retries cfg + 1)
  /\ length (http_calls evs) = Z.to_nat (max_retries cfg + 1)
  /\ calls_and_sleeps evs
     = failing_schedule (Z.to_nat (max_retries cfg + 1)) 0 (timeout cfg)
  /\ last (calls_and_sleeps evs) = Some (inr (half_seconds (max_retries cfg + 1))).
Proof.
  cbn zeta. intros Hu HN Hfails Hup Hkw. unfold request. rewrite Hu.
  destruct (failing_run cfg ext c method u json stream Hfails Hup
              (Z.to_nat (max_retries cfg + 1))
              (Frame.mk 0 None (timeout cfg) params) w)
    as (evs & Ht & Hc & Hs & Hcs & _).
  { cbn. apply repeated_keyword_delete. exact Hkw. }
  { cbn. lia. }
  rewrite (since_app _ _ _ Ht). cbn [Frame.count Frame.timeout] in Hs, Hcs.
  rewrite Z2Nat.id in Hs by lia. rewrite Hs, Hcs.
  split; [reflexivity|].
  split; [rewrite length_fmap, length_seqZ; reflexivity|].
  split.
  - apply (f_equal length) in Hc.
    rewrite length_fmap, timeouts_from_length in Hc. exact Hc.
  - split; [reflexivity|].
    rewrite failing_schedule_last by lia. do 3 f_equal. lia.
Qed.

Lemma sleeps_after_every_failure_witness :
  let out := request (Sample.config 2 60) Sample.forbidden Sample.trade_client
               "get" ["a"] PyNone false ∅ Sample.start in
  let evs := since Sample.start out.2 in
  sleeps evs = half_seconds <$> seqZ 1 (max_retries (Sample.config 2 60) + 1)
  /\ length (sleeps evs) = Z.to_nat (max_retries (Sample.config 2 60) + 1)
  /\ length (http_calls evs) = Z.to_nat (max_retries (Sample.config 2 60) + 1)
  /\ calls_and_sleeps evs
     = failing_schedule (Z.to_nat (max_retries (Sample.config 2 60) + 1)) 0
         (timeout (Sample.config 2 60))
  /\ last (calls_and_sleeps evs)
     = Some (inr (half_seconds (max_retries (Sample.config 2 60) + 1))).
Proof.
  apply (sleeps_after_every_failure (Sample.config 2 60) Sample.forbidden
           Sample.trade_client "get" ["a"] PyNone false ∅ Sample.start Sample.trade_url).
  - vm_compute. reflexivity.
  - cbn. lia.
  - intros h call. reflexivity.
  - split; [reflexivity|]. intros h m. eexists. reflexivity.
  - reflexivity.
Defined.

(** C4 (as stated) fails: with [max_retries = 0] there is one attempt and
    no pair of consecutive attempts, yet [request] sleeps once, for half a
    second, before it raises; with [max_retries = 2] it sleeps three
    times. *)
Lemma one_sleep_without_retry :
  let single := request (Sample.config 0 60) Sample.down Sample.csa_client_no_auth
                  "get" ["a"] PyNone false ∅ Sample.start in
  let triple := request (Sample.config 2 60) Sample.down Sample.csa_client_no_auth
                  "get" ["a"] PyNone false ∅ Sample.start in
  length (http_calls (trace single.2)) = 1%nat
  /\ sleeps (trace single.2) = [(1 # 2)%Q]
  /\ length (sleeps (trace single.2)) <> Z.to_nat (max_retries (Sample.config 0 60))
  /\ length (http_calls (trace triple.2)) = 3%nat
  /\ length (sleeps (trace triple.2)) = 3%nat.
Proof.
  cbn zeta. repeat split; try (vm_compute; reflexivity). vm_compute. discriminate.
Qed.

(** ** Worked examples *)

Example is_ok_examples :
  is_ok 200 = true /\ is_ok 299 = true /\ is_ok 199 = false /\ is_ok 300 = false.
Proof. repeat split. Qed.

Example check_response_403 :
  check_response (Sample.response 403 "Forbidden" "denied" Sample.not_json)
  = Raise (mk_exc Unauthorized "403: denied").
Proof. vm_compute. reflexivity. Qed.

Example check_response_404_empty_text :
  check_response (Sample.response 404 "Not Found" "" Sample.not_json)
  = Raise (mk_exc NotFound
      "404 Client Error: Not Found for url: https://host/base/api/Csa/v1/a?x=1").
Proof. vm_compute. reflexivity. Qed.

Example check_response_502 :
  check_response (Sample.response 502 "Bad Gateway" "upstream" Sample.not_json)
  = Raise (mk_exc ClientError "502: upstream").
Proof. vm_compute. reflexivity. Qed.

Example url_join_keeps_query :
  url_join "https://host/base?x=1" ["prod"; "Foo"; "a"; "b"]
  = "https://host/base/prod/Foo/a/b?x=1".
Proof. vm_compute. reflexivity. Qed.

Example url_join_without_path :
  url_join "https://host" ["api"; "Csa"; "v1"] = "https://host/api/Csa/v1".
Proof. vm_compute. reflexivity. Qed.

Example named_client_urls :
  Client_url Sample.trade_client ["a"] = Ok Sample.trade_url
  /\ Client_url Sample.csa_client_no_auth ["a"] = Ok Sample.csa_url
  /\ XOnePricingModelClient_init (Sample.config 0 60) (EnvName "uat")
     = Ok (mk_client XOnePricingModelClient Sample.env_auth Sample.pricing_api "Pim")
  /\ XOneCSAInfoClient_init (Sample.config 0 60) (EnvName "staging")
     = Raise (no_attribute "XOneConfig" "staging").
Proof. vm_compute. repeat split. Qed.

(** With the declared default ["dev"] in [sgconnect_env], an
    [Authorization] header is sent. *)
Example default_sgconnect_env_sends_Authorization :
  (fun call => c_headers call !! "Authorization")
    <$> http_calls (trace (get (Sample.config 0 60) Sample.healthy Sample.trade_client
                             ["a"] false ∅ Sample.start).2)
  = [Some "Bearer t0ken"].
Proof. vm_compute. reflexivity. Qed.

(** A negative [max_retries]: no attempt is made. *)
Example negative_max_retries :
  request (Sample.config (-1) 60) Sample.healthy Sample.csa_client_no_auth
    "get" ["a"] PyNone false ∅ Sample.start
  = (Raise (mk_exc ClientError
       "Client request failed for GET https://host/base/api/Csa/v1/a?x=1 without any exception"),
     Sample.start).
Proof. vm_compute. reflexivity. Qed.

(** * Further properties *)

(** ** [raise_error] *)

Lemma raise_error_Returns status content :
  raise_error status content = Returns <-> is_ok status = true.
Proof.
  unfold raise_error. destruct (is_ok status); [tauto|].
  repeat case_match; split; discriminate.
Qed.

Lemma ok_range resp :
  ok resp = negb ((400 <=? status_code resp) && (status_code resp <? 600)).
Proof.
  unfold ok, raise_for_status.
  destruct (400 <=? status_code resp) eqn:H4;
    destruct (status_code resp <? 500) eqn:H5;
    destruct (500 <=? status_code resp) eqn:H6;
    destruct (status_code resp <? 600) eqn:H7; cbn; try reflexivity;
    try (apply Z.leb_le in H4); try (apply Z.leb_gt in H4);
    try (apply Z.ltb_lt in H5); try (apply Z.ltb_ge in H5);
    try (apply Z.leb_le in H6); try (apply Z.leb_gt in H6);
    try (apply Z.ltb_lt in H7); try (apply Z.ltb_ge in H7); lia.
Qed.

Lemma check_response_accepts resp :
  check_response resp = Ok resp <-> ok resp = true.
Proof.
  split.
  - intros H. apply check_response_Ok in H. tauto.
  - intros H. unfold check_response. rewrite H. reflexivity.
Qed.


(** X2: [raise_error] is the stricter of the two checks: every status
    that [check_response] rejects it rejects too, and the statuses that
    [check_response] lets through although [raise_error] raises are exactly
    those outside 200..299 and outside 400..599 (1xx, 3xx, 600 and up). *)
Theorem raise_error_stricter_than_check_response resp :
  let s := status_code resp in
  ((exists e, check_response resp = Raise e) -> raise_error s (text resp) <> Returns)
  /\ ((check_response resp = Ok resp /\ raise_error s (text resp) <> Returns)
      <-> (is_ok s = false /\ ((400 <=? s) && (s <? 600)) = false)).
Proof.
  cbn zeta. rewrite raise_error_Returns, check_response_accepts, ok_range. split.
  - intros [e He] Hok. apply is_ok_ok in Hok.
    unfold check_response in He. rewrite Hok in He. discriminate.
  - destruct (is_ok (status_code resp));
      destruct ((400 <=? status_code resp) && (status_code resp <? 600)); cbn;
      split; intros [Ha Hb]; try discriminate; try (split; congruence);
      try (exfalso; apply Hb; reflexivity).
Qed.

(** X3: the exception that [check_response] raises is caught by
    [except Exception] in every case, but by [except requests.HTTPError]
    only for the statuses 403 and 404: for every other rejected status it is
    a [ClientError], which derives from [RuntimeError]. *)
Theorem check_response_HTTPError_only_for_403_404 resp e :
  check_response resp = Raise e ->
  isinstance e Exception = true
  /\ (isinstance e HTTPError = true
      <-> (status_code resp = 403 \/ status_code resp = 404))
  /\ (isinstance e RuntimeError = true
      <-> (status_code resp <> 403 /\ status_code resp <> 404)).
Proof.
  intros H. split; [eapply check_response_raises_Exception; eauto|].
  revert H. unfold check_response. destruct (negb (ok resp)); [|discriminate].
  destruct (status_code resp =? 403) eqn:H3.
  - apply Z.eqb_eq in H3. intros [= <-].
    change (isinstance (mk_exc Unauthorized ?m) HTTPError) with true.
    change (isinstance (mk_exc Unauthorized ?m) RuntimeError) with false.
    intuition (try discriminate; try congruence).
  - apply Z.eqb_neq in H3. destruct (status_code resp =? 404) eqn:H4.
    + apply Z.eqb_eq in H4. intros [= <-].
      change (isinstance (mk_exc NotFound ?m) HTTPError) with true.
      change (isinstance (mk_exc NotFound ?m) RuntimeError) with false.
      intuition (try discriminate; try congruence).
    + apply Z.eqb_neq in H4. intros [= <-].
      change (isinstance (mk_exc ClientError ?m) HTTPError) with false.
      change (isinstance (mk_exc ClientError ?m) RuntimeError) with true.
      intuition (try discriminate; try congruence).
Qed.

Lemma check_response_HTTPError_only_for_403_404_witness :
  let resp := Sample.response 500 "Internal Server Error" "boom" Sample.not_json in
  let e := mk_exc ClientError "500: boom" in
  isinstance e Exception = true
  /\ (isinstance e HTTPError = true
      <-> (status_code resp = 403 \/ status_code resp = 404))
  /\ (isinstance e RuntimeError = true
      <-> (status_code resp <> 403 /\ status_code resp <> 404)).
Proof.
  apply (check_response_HTTPError_only_for_403_404
           (Sample.response 500 "Internal Server Error" "boom" Sample.not_json)).
  vm_compute. reflexivity.
Defined.

Lemma prefix_append (s t : string) : String.prefix s (s ++ t) = true.
Proof.
  induction s as [|a s IH].
  - destruct t; reflexivity.
  - change (String a s ++ t) with (String a (s ++ t)). cbn [String.prefix].
    destruct (ascii_dec a a) as [_|Hn]; [exact IH|contradiction].
Qed.

(** X4: the message of every exception raised by [check_response] starts
    with the status code in decimal, whether it is built from the response
    text or, when the text is empty, taken from the library. *)
Theorem check_response_message_starts_with_status resp e :
  check_response resp = Raise e ->
  String.prefix (pretty (status_code resp)) (str e) = true.
Proof.
  unfold check_response. destruct (ok resp) eqn:Hok; cbn [negb]; [discriminate|].
  assert (Hm : String.prefix (pretty (status_code resp))
                 (if String.eqb (text resp) ""
                  then match raise_for_status resp with
                       | Raise e0 => str e0
                       | Ok _ => pretty (status_code resp) ++ ": " ++ text resp
                       end
                  else pretty (status_code resp) ++ ": " ++ text resp) = true).
  { destruct (String.eqb (text resp) ""); [|apply prefix_append].
    destruct (raise_for_status resp) as [u|e0] eqn:Hr; [apply prefix_append|].
    unfold raise_for_status in Hr.
    repeat case_match; try discriminate; injection Hr as <-; apply prefix_append. }
  repeat case_match; intros [= <-]; exact Hm.
Qed.

Lemma check_response_message_starts_with_status_witness :
  String.prefix (pretty (status_code (Sample.response 404 "Not Found" "" Sample.not_json)))
    (str (mk_exc NotFound
            "404 Client Error: Not Found for url: https://host/base/api/Csa/v1/a?x=1"))
  = true.
Proof.
  apply (check_response_message_starts_with_status
           (Sample.response 404 "Not Found" "" Sample.not_json)).
  vm_compute. reflexivity.
Defined.

(** ** [request]: what every run does *)

(** X5: with a negative [max_retries] the loop body never runs: [request]
    calls neither [headers] nor the session, leaves the world as it was,
    and raises the [ClientError] that ends in "without any exception". *)
Theorem negative_max_retries_no_attempt
    cfg ext c method path json stream params w u :
  Client_url c path = Ok u ->
  max_retries cfg < 0 ->
  request cfg ext c method path json stream params w
  = (Raise (mk_exc ClientError
              ("Client request failed for " ++ upper method ++ " " ++ u
               ++ " without any exception")), w).
Proof.
  intros Hu HN. unfold request. rewrite Hu, request_loop_unroll. cbn [Frame.count].
  replace (0 <=? max_retries cfg) with false by (symmetry; apply Z.leb_gt; lia).
  reflexivity.
Qed.

Lemma negative_max_retries_no_attempt_witness :
  request (Sample.config (-3) 60) Sample.healthy Sample.trade_client
    "get" ["a"] PyNone false ∅ Sample.start
  = (Raise (mk_exc ClientError
              ("Client request failed for " ++ upper "get" ++ " " ++ Sample.trade_url
               ++ " without any exception")), Sample.start).
Proof.
  apply (negative_max_retries_no_attempt (Sample.config (-3) 60) Sample.healthy
           Sample.trade_client "get" ["a"] PyNone false ∅ Sample.start Sample.trade_url).
  - vm_compute. reflexivity.
  - cbn. lia.
Defined.

Lemma request_call_arguments
    cfg ext c method path json stream params w :
  Forall (fun call =>
            c_method call = method
            /\ Client_url c path = Ok (c_url call)
            /\ c_json call = json
            /\ c_stream call = stream
            /\ c_verify call = false
            /\ c_params call = delete "is_mime" params
            /\ c_params call !! "is_mime" = None)
    (http_calls (since w (request cfg ext c method path json stream params w).2)).
Proof.
  unfold request. destruct (Client_url c path) as [u|e] eqn:Hu.
  - set (I := fun st : Frame.t =>
                delete "is_mime" (Frame.params st) = delete "is_mime" params).
    set (E := fun ev =>
                match ev with
                | EvRequest call =>
                    c_method call = method /\ Ok u = Ok (c_url call)
                    /\ c_json call = json /\ c_stream call = stream
                    /\ c_verify call = false
                    /\ c_params call = delete "is_mime" params
                    /\ c_params call !! "is_mime" = None
                | _ => True
                end).
    assert (Hinv : forall st x, I st -> I (except_frame st x (pop_is_mime (Frame.params st)).2)).
    { intros st x Hi. unfold I in *. cbn.
      rewrite pop_is_mime_rest, delete_delete_eq. exact Hi. }
    assert (HEauth : forall ev, auth_event ev -> E ev) by (intros []; cbn; tauto).
    assert (HEreq : forall (st : Frame.t) w0 h w3, I st ->
              headers ext c (pop_is_mime (Frame.params st)).1 w0 = (Ok h, w3) ->
              E (EvRequest (mk_HttpCall method u h json false stream (Frame.timeout st)
                              (pop_is_mime (Frame.params st)).2))).
    { intros st w0 h w3 Hi _. cbn. rewrite pop_is_mime_rest.
      repeat split; auto. rewrite Hi. apply lookup_delete_eq. }
    destruct (request_loop_Forall cfg ext c method u json stream I E
                Hinv (fun _ => Logic.I) (fun _ => Logic.I) HEauth (fun _ _ => Logic.I) HEreq
                (Frame.mk 0 None (timeout cfg) params) w)
      as (evs & Ht & Hf).
    { reflexivity. }
    rewrite (since_app _ _ _ Ht). apply Forall_http_calls. exact Hf.
  - cbn. unfold since. rewrite drop_all. constructor.
Qed.

(** X6: every session call of a run of [request] has the same arguments
    but for the headers and the timeout: the method and body as given, the
    URL that [url] built once before the loop, certificate verification
    switched off, and the caller's [params] without [is_mime], which is
    never passed on. *)
Theorem every_call_repeats_the_arguments
    cfg ext c method path json stream params w :
  Forall (fun call =>
            c_method call = method
            /\ Client_url c path = Ok (c_url call)
            /\ c_json call = json
            /\ c_stream call = stream
            /\ c_verify call = false
            /\ c_params call = delete "is_mime" params
            /\ c_params call !! "is_mime" = None)
    (http_calls (since w (request cfg ext c method path json stream params w).2)).
Proof. apply request_call_arguments. Qed.

Lemma repeated_keyword_found (p : gmap string value) k :
  In k explicit_keywords -> is_Some (p !! k) -> is_Some (repeated_keyword p).
Proof.
  intros Hin Hk. unfold repeated_keyword.
  destruct (find _ explicit_keywords) eqn:Hf; [eauto|].
  eapply find_none in Hf; [|exact Hin]. cbn in Hf.
  apply bool_decide_eq_false in Hf. contradiction.
Qed.

(** A property of events holds of a whole run when every attempt
    establishes it; the session is only called when [params] repeats no
    keyword. *)
Lemma request_loop_Forall_reached cfg ext self method url json stream
    (I : Frame.t -> Prop) (E : event -> Prop) :
  (forall st e, I st -> I (except_frame st e (pop_is_mime (Frame.params st)).2)) ->
  (forall e, E (EvCaught e)) -> (forall q, E (EvSleep q)) ->
  (forall ev, auth_event ev -> E ev) ->
  (forall st, I st -> E (EvHeaders (pop_is_mime (Frame.params st)).1)) ->
  (forall st w h w1, I st ->
     headers ext self (pop_is_mime (Frame.params st)).1 w = (Ok h, w1) ->
     repeated_keyword (pop_is_mime (Frame.params st)).2 = None ->
     E (EvRequest (mk_HttpCall method url h json false stream (Frame.timeout st)
                     (pop_is_mime (Frame.params st)).2))) ->
  forall st w, I st ->
    exists evs,
      trace (request_loop cfg ext self method url json stream st w).2
      = (trace w ++ evs)%list /\ Forall E evs.
Proof.
  intros Hinv Hcaught Hsleep Hauth Hhead Hreq st w.
  assert (Hatt : forall st w r p w', I st ->
            try_body ext self method url json stream st w = (r, p, w') ->
            p = (pop_is_mime (Frame.params st)).2
            /\ exists evs, trace w' = (trace w ++ evs)%list /\ Forall E evs).
  { clear st w. intros st w r p w' Hi Hb.
    destruct (try_body_steps _ _ _ _ _ _ _ _ _ _ _ Hb)
      as (Hp & aevs & req & [Ht _] & Ha & Hr).
    split; [exact Hp|]. eexists. split; [exact Ht|].
    constructor; [auto|]. apply Forall_app. split.
    - eapply Forall_impl; [exact Ha|]. auto.
    - destruct Hr as [[-> _]|(h & w1 & Hh & Hkw & -> & _)]; [constructor|].
      subst p. repeat constructor. eauto. }
  apply (request_loop_ind cfg ext self method url json stream (fun st w out =>
           I st -> exists evs, trace out.2 = (trace w ++ evs)%list /\ Forall E evs));
    clear st w.
  - intros st w _ _. exists []. split; [symmetry; apply app_nil_r|constructor].
  - intros st w resp p w' _ Hb Hi. destruct (Hatt _ _ _ _ _ Hi Hb) as [_ H]. exact H.
  - intros st w e p w' _ Hb _ Hi. destruct (Hatt _ _ _ _ _ Hi Hb) as [_ H]. exact H.
  - intros st w e p w' out _ Hb _ IH Hi.
    destruct (Hatt _ _ _ _ _ Hi Hb) as (-> & evs1 & Ht1 & Hf1).
    destruct (IH (Hinv _ _ Hi)) as (evs2 & Ht2 & Hf2).
    destruct (except_world_steps st e w') as [Ht3 _].
    exists (evs1 ++ [EvCaught e; EvSleep (half_seconds (Frame.count st + 1))] ++ evs2)%list.
    split.
    + rewrite Ht2, Ht3, Ht1. rewrite <- !app_assoc. reflexivity.
    + apply Forall_app. split; [exact Hf1|].
      apply Forall_app. split; [|exact Hf2]. repeat constructor; auto.
Qed.

(** X7: a caller cannot override what [request] passes by name.  When
    [params] holds an entry named [url], [headers], [verify] or [timeout]
    (or any other keyword that [request] spells out), no attempt reaches the
    session, and [request] ends in an exception. *)
Theorem repeated_keyword_never_reaches_the_session
    cfg ext c method path json stream params w k :
  let out := request cfg ext c method path json stream params w in
  In k ["url"; "headers"; "verify"; "timeout"] ->
  is_Some (params !! k) ->
  http_calls (since w out.2) = [] /\ exists e, out.1 = Raise e.
Proof.
  cbn zeta. intros Hin0 Hk. unfold request.
  assert (Hin : In k explicit_keywords) by (cbn in *; tauto).
  destruct (Client_url c path) as [u|e0] eqn:Hu.
  2:{ cbn. unfold since. rewrite drop_all. eauto. }
  assert (Hne : k <> "is_mime").
  { intros ->. cbn in Hin. intuition discriminate. }
  set (I := fun st : Frame.t => is_Some (Frame.params st !! k)).
  assert (Hclash : forall st, I st ->
            repeated_keyword (pop_is_mime (Frame.params st)).2 <> None).
  { intros st Hi Hn. rewrite pop_is_mime_rest in Hn.
    destruct (repeated_keyword_found (delete "is_mime" (Frame.params st)) k Hin) as [k' Hk'].
    - unfold I in Hi. rewrite lookup_delete_ne by congruence. exact Hi.
    - congruence. }
  assert (Hinv : forall st x, I st -> I (except_frame st x (pop_is_mime (Frame.params st)).2)).
  { intros st x Hi. unfold I in *. cbn. rewrite pop_is_mime_rest.
    rewrite lookup_delete_ne by congruence. exact Hi. }
  split.
  - set (E := fun ev => match ev with EvRequest _ => False | _ => True end).
    assert (HEauth : forall ev, auth_event ev -> E ev) by (intros []; cbn; tauto).
    destruct (request_loop_Forall_reached cfg ext c method u json stream I E
                Hinv (fun _ => Logic.I) (fun _ => Logic.I) HEauth (fun _ _ => Logic.I))
      with (st := Frame.mk 0 None (timeout cfg) params) (w := w) as (evs & Ht & Hf).
    { intros st w0 h w1 Hi _ Hkw. exfalso. exact (Hclash st Hi Hkw). }
    { exact Hk. }
    rewrite (since_app _ _ _ Ht).
    clear -Hf. induction Hf as [|ev evs Hev _ IH]; [reflexivity|].
    destruct ev; cbn in *; try exact IH. contradiction.
  - assert (HI : I (Frame.mk 0 None (timeout cfg) params)) by exact Hk.
    revert HI. generalize (Frame.mk 0 None (timeout cfg) params). intros st.
    apply (request_loop_ind cfg ext c method u json stream
             (fun st w out => I st -> exists e, out.1 = Raise e)).
    + intros st0 w0 _ _. cbn. eauto.
    + intros st0 w0 resp p w' _ Hb Hi. exfalso.
      destruct (try_body_steps _ _ _ _ _ _ _ _ _ _ _ Hb)
        as (Hp & aevs & req & _ & _ & [(_ & x & Hx & _)|(h & w1 & _ & Hkw & _)]);
        [discriminate|].
      subst p. exact (Hclash st0 Hi Hkw).
    + intros st0 w0 e p w' _ Hb _ Hi. cbn. eauto.
    + intros st0 w0 e p w' out _ Hb _ IH Hi. apply IH.
      destruct (try_body_steps _ _ _ _ _ _ _ _ _ _ _ Hb) as (-> & _).
      apply Hinv. exact Hi.
Qed.

Lemma repeated_keyword_never_reaches_the_session_witness :
  let out := request (Sample.config 2 60) Sample.healthy Sample.trade_client
               "get" ["a"] PyNone false {["verify" := PyBool true]} Sample.start in
  http_calls (since Sample.start out.2) = [] /\ exists e, out.1 = Raise e.
Proof.
  apply (repeated_keyword_never_reaches_the_session (Sample.config 2 60) Sample.healthy
           Sample.trade_client "get" ["a"] PyNone false {["verify" := PyBool true]}
           Sample.start "verify").
  - cbn. tauto.
  - vm_compute. eauto.
Defined.

(** ** Runs in which every attempt fails *)

Section UniformFailure.

Variable cfg : RootConfig.
Variable ext : Externals.
Variable self : client.
Variable method : string.
Variable url : string.
Variable json : value.
Variable stream : bool.

(** What holds before each attempt, and what each attempt does. *)
Variable Inv : Frame.t -> World -> Prop.
Variable A : list event -> exc -> Prop.

Hypothesis attempt_fails_under_Inv :
  forall st w, Inv st w ->
    exists e p w' seg,
      try_body ext self method url json stream st w = (Raise e, p, w')
      /\ isinstance e Exception = true
      /\ trace w' = (trace w ++ seg)%list
      /\ A seg e
      /\ Inv (except_frame st e p) (except_world st e w').2.

(** The run is the sequence of its attempts, each followed by the handler
    and its sleep, and it ends in the [ClientError] made from the last
    exception. *)
Lemma uniform_failure (n : nat) st w :
  Inv st w ->
  Z.of_nat n = max_retries cfg + 1 - Frame.count st ->
  exists attempts,
    length attempts = n
    /\ Forall (fun a => A a.1 a.2) attempts
    /\ trace (request_loop cfg ext self method url json stream st w).2
       = (trace w ++ failing_trace (Frame.count st) attempts)%list
    /\ (request_loop cfg ext self method url json stream st w).1
       = Raise (exhausted method url
                  (match last attempts with
                   | Some a => Some a.2
                   | None => Frame.error st
                   end)).
Proof.
  revert st w. induction n as [|n IH]; intros st w Hi Hn; rewrite request_loop_unroll.
  - replace (Frame.count st <=? max_retries cfg) with false
      by (symmetry; apply Z.leb_gt; lia).
    exists []. cbn. rewrite app_nil_r. auto.
  - replace (Frame.count st <=? max_retries cfg) with true
      by (symmetry; apply Z.leb_le; lia).
    destruct (attempt_fails_under_Inv st w Hi) as (e & p & w' & seg & Hb & He & Ht & Ha & Hi').
    rewrite Hb, He.
    destruct (IH _ _ Hi') as (atts & Hl & Hf & Ht2 & Hr2); [cbn; lia|].
    exists ((seg, e) :: atts). split; [cbn; lia|].
    split; [constructor; assumption|].
    destruct (except_world_steps st e w') as [Ht3 _].
    split.
    + rewrite Ht2, Ht3, Ht. cbn [failing_trace except_frame Frame.count].
      rewrite <- !app_assoc. reflexivity.
    + rewrite Hr2. cbn [except_frame Frame.error]. f_equal. f_equal.
      destruct atts as [|a atts]; [reflexivity|].
      rewrite last_cons_cons. destruct (last (a :: atts)) eqn:Hla; [reflexivity|].
      apply last_None in Hla. discriminate.
Qed.

End UniformFailure.

Lemma failing_trace_sleeps count attempts :
  Forall (fun a : list event * exc => sleeps a.1 = []) attempts ->
  sleeps (failing_trace count attempts)
  = half_seconds <$> seqZ (count + 1) (Z.of_nat (length attempts)).
Proof.
  intros H. revert count. induction H as [|[seg e] atts Hs _ IH]; intros count; [reflexivity|].
  cbn [failing_trace length]. rewrite !sleeps_app. cbn [fst] in Hs. rewrite Hs.
  rewrite (seqZ_cons (count + 1)) by lia. rewrite IH.
  replace (Z.succ (count + 1)) with (count + 1 + 1) by lia.
  replace (Z.pred (Z.of_nat (S (length atts)))) with (Z.of_nat (length atts)) by lia.
  reflexivity.
Qed.

Lemma failing_trace_http_calls count attempts :
  Forall (fun a : list event * exc => http_calls a.1 = []) attempts ->
  http_calls (failing_trace count attempts) = [].
Proof.
  intros H. revert count. induction H as [|[seg e] atts Hs _ IH]; intros count; [reflexivity|].
  cbn [failing_trace]. rewrite !http_calls_app. cbn [fst] in Hs. rewrite Hs, IH. reflexivity.
Qed.

(** ** The token service *)

Lemma try_body_headers_raise ext c method u json stream st w e w1 :
  headers ext c (pop_is_mime (Frame.params st)).1 w = (Raise e, w1) ->
  try_body ext c method u json stream st w
  = (Raise e, (pop_is_mime (Frame.params st)).2, w1).
Proof. intros Hh. rewrite try_body_unfold, send_unfold, Hh. reflexivity. Qed.

(** X8: when the environment names an auth server, the slot is empty and
    the token service cannot build a manager, every attempt of [request]
    stops at [sgconnect]: the session is never called, the slot stays
    empty, the construction is tried again on each of the [N+1] attempts
    (with the usual sleeps), and the final [ClientError] carries the text of
    the token service's exception. *)
Theorem token_service_down_no_session_call
    cfg ext c method path json stream params w u server e0 :
  let out := request cfg ext c method path json stream params w in
  let evs := since w out.2 in
  Client_url c path = Ok u ->
  0 <= max_retries cfg ->
  sgconnect_env (_env c) = Given server ->
  token_mgr w !! api_id (_api c) = None ->
  token_service_down ext e0 ->
  isinstance e0 Exception = true ->
  http_calls evs = []
  /\ sgconnect_calls evs
     = replicate (Z.to_nat (max_retries cfg + 1)) (token_mgr_kwargs c server)
  /\ sleeps evs = half_seconds <$> seqZ 1 (max_retries cfg + 1)
  /\ token_mgr out.2 !! api_id (_api c) = None
  /\ out.1 = Raise (mk_exc ClientError
                ("Client request failed for " ++ upper method ++ " " ++ u
                 ++ ": " ++ str e0)).
Proof.
  cbn zeta. intros Hu HN Hserver Hslot Hdown He0. unfold request. rewrite Hu.
  set (kw := token_mgr_kwargs c server).
  set (Inv := fun (st : Frame.t) (w : World) => token_mgr w !! api_id (_api c) = None).
  set (A := fun (seg : list event) (e : exc) =>
              e = e0 /\ exists im, seg = [EvHeaders im; EvSgconnect kw]).
  destruct (uniform_failure cfg ext c method u json stream Inv A) with
    (n := Z.to_nat (max_retries cfg + 1))
    (st := Frame.mk 0 None (timeout cfg) params) (w := w)
    as (atts & Hl & Hf & Ht & Hr).
  { intros st w0 Hi. unfold Inv in Hi.
    assert (Hh : headers ext c (pop_is_mime (Frame.params st)).1 w0
                 = (Raise e0, add_events (add_events w0 [EvHeaders (pop_is_mime (Frame.params st)).1])
                                [EvSgconnect kw])).
    { rewrite headers_unfold, Hserver, Hi. cbn zeta. rewrite Hdown. reflexivity. }
    eexists e0, _, _, _. split; [apply try_body_headers_raise; exact Hh|].
    split; [exact He0|]. split.
    - cbn. rewrite <- app_assoc. reflexivity.
    - split; [split; eauto|]. unfold Inv. cbn. exact Hi. }
  { exact Hslot. }
  { cbn. lia. }
  rewrite (since_app _ _ _ Ht). cbn [Frame.count] in *.
  assert (Hq : Forall (fun a : list event * exc =>
                         sleeps a.1 = [] /\ http_calls a.1 = []
                         /\ sgconnect_calls a.1 = [kw]
                         /\ (forall l, slot_writes l a.1 = []) /\ a.2 = e0) atts).
  { eapply Forall_impl; [exact Hf|]. intros [seg e] [-> [im ->]]. cbn. auto. }
  split.
  { apply failing_trace_http_calls. eapply Forall_impl; [exact Hq|]. cbn. tauto. }
  split.
  { rewrite <- Hl. clear -Hq. generalize 0. induction Hq as [|[seg e] atts Ha _ IH];
      intros count; [reflexivity|].
    cbn [failing_trace length replicate]. unfold sgconnect_calls in *.
    cbn [fst snd] in Ha. destruct Ha as (_ & _ & Ha & _).
    unfold sgconnect_calls in Ha. rewrite !omap_app, Ha. cbn [omap list_omap app].
    rewrite IH. reflexivity. }
  split.
  { rewrite failing_trace_sleeps.
    - rewrite Hl, Z2Nat.id by lia. reflexivity.
    - eapply Forall_impl; [exact Hq|]. cbn. tauto. }
  split.
  { destruct (request_loop_steps cfg ext c method u json stream
                (Frame.mk 0 None (timeout cfg) params) w) as (evs & Ht' & Hs).
    rewrite Ht in Ht'. apply app_inv_head in Ht'. subst evs.
    specialize (Hs (api_id (_api c))). rewrite Hslot in Hs.
    destruct Hs as [[Hn _]|(m & _ & Hw)]; [exact Hn|]. exfalso.
    revert Hw. clear -Hq. generalize 0. induction Hq as [|[seg e] atts Ha _ IH];
      intros count; [discriminate|].
    cbn [failing_trace]. rewrite !slot_writes_app.
    destruct Ha as (_ & _ & _ & Hw & _). cbn [fst] in Hw. rewrite Hw. cbn.
    apply IH. }
  rewrite Hr. do 2 f_equal.
  destruct (last atts) as [[seg e]|] eqn:Hla.
  - apply last_Some_elem_of in Hla. rewrite Forall_forall in Hq.
    destruct (Hq _ Hla) as (_ & _ & _ & _ & He). cbn in He. subst e. reflexivity.
  - apply last_None in Hla. subst atts. cbn in Hl. lia.
Qed.

Lemma token_service_down_no_session_call_witness :
  let ext := mk_Externals (fun _ _ => Some (mk_exc ConnectionError_ "sso unreachable"))
               (fun _ _ => Ok "t") (fun _ _ => Raise Sample.timed_out) in
  let out := request (Sample.config 2 60) ext Sample.trade_client
               "get" ["a"] PyNone false ∅ Sample.start in
  let evs := since Sample.start out.2 in
  http_calls evs = []
  /\ sgconnect_calls evs
     = replicate (Z.to_nat (max_retries (Sample.config 2 60) + 1))
         (token_mgr_kwargs Sample.trade_client "dev")
  /\ sleeps evs = half_seconds <$> seqZ 1 (max_retries (Sample.config 2 60) + 1)
  /\ token_mgr out.2 !! api_id (_api Sample.trade_client) = None
  /\ out.1 = Raise (mk_exc ClientError
                ("Client request failed for " ++ upper "get" ++ " " ++ Sample.trade_url
                 ++ ": " ++ str (mk_exc ConnectionError_ "sso unreachable"))).
Proof.
  apply (token_service_down_no_session_call (Sample.config 2 60)
           (mk_Externals (fun _ _ => Some (mk_exc ConnectionError_ "sso unreachable"))
              (fun _ _ => Ok "t") (fun _ _ => Raise Sample.timed_out))
           Sample.trade_client "get" ["a"] PyNone false ∅ Sample.start Sample.trade_url
           "dev" (mk_exc ConnectionError_ "sso unreachable")).
  - vm_compute. reflexivity.
  - cbn. lia.
  - reflexivity.
  - reflexivity.
  - intros h kw. reflexivity.
  - reflexivity.
Defined.

Section WithManager.

Variable cfg : RootConfig.
Variable ext : Externals.
Variable self : client.
Variable method : string.
Variable url : string.
Variable json : value.
Variable stream : bool.
Variable server : string.

Hypothesis Hfails : backend_always_fails ext.
Hypothesis Hup : token_service_up ext.
Hypothesis Hserver : sgconnect_env (_env self) = Given server.

Local Abbreviation api := (api_id (_api self)).
Local Abbreviation body := (try_body ext self method url json stream).

Lemma failing_send st w h w1 :
  headers ext self (pop_is_mime (Frame.params st)).1 w = (Ok h, w1) ->
  repeated_keyword (delete "is_mime" (Frame.params st)) = None ->
  exists e call,
    body st w = (Raise e, delete "is_mime" (Frame.params st), add_events w1 [EvRequest call])
    /\ isinstance e Exception = true.
Proof.
  intros Hh Hkw. rewrite try_body_unfold, send_unfold, Hh, pop_is_mime_rest, Hkw.
  match goal with |- context [session_request ext ?h ?c] =>
    specialize (Hfails h c); destruct (session_request ext h c) as [resp|e] end;
    cbn in Hfails.
  - destruct (check_response_not_ok resp Hfails) as [e He]. rewrite He.
    eexists e, _. split; [reflexivity|].
    eapply check_response_raises_Exception; eauto.
  - eexists e, _. split; [reflexivity|exact Hfails].
Qed.

(** An attempt that finds the manager [m] in the slot: it fetches a token
    from [m] and calls the session. *)
Lemma attempt_with_manager st w m :
  token_mgr w !! api = Some m ->
  repeated_keyword (delete "is_mime" (Frame.params st)) = None ->
  exists e w' call,
    body st w = (Raise e, delete "is_mime" (Frame.params st), w')
    /\ isinstance e Exception = true
    /\ trace w' = (trace w ++ [EvHeaders (pop_is_mime (Frame.params st)).1;
                               EvGetTokenValue m; EvRequest call])%list
    /\ token_mgr w' = token_mgr w.
Proof.
  intros Hslot Hkw. destruct Hup as [_ Htok].
  set (im := (pop_is_mime (Frame.params st)).1).
  destruct (Htok (trace (add_events w [EvHeaders im])) m) as [t Ht].
  assert (Hh : headers ext self im w
               = (Ok (add_origin self (<["Authorization" := "Bearer " ++ t]> (base_headers im))),
                  add_events (add_events w [EvHeaders im]) [EvGetTokenValue m])).
  { rewrite headers_unfold, Hserver, Hslot. cbn zeta. unfold fetch_token. rewrite Ht.
    reflexivity. }
  destruct (failing_send st w _ _ Hh Hkw) as (e & call & Hb & He).
  exists e. eexists. exists call. split; [exact Hb|]. split; [exact He|].
  split; [cbn; rewrite <- !app_assoc; reflexivity|reflexivity].
Qed.

(** An attempt that finds the slot empty: it builds a manager, stores it,
    fetches a token from it and calls the session. *)
Lemma attempt_builds_manager st w :
  token_mgr w !! api = None ->
  repeated_keyword (delete "is_mime" (Frame.params st)) = None ->
  exists e w' call m,
    body st w = (Raise e, delete "is_mime" (Frame.params st), w')
    /\ isinstance e Exception = true
    /\ trace w' = (trace w ++ [EvHeaders (pop_is_mime (Frame.params st)).1;
                               EvSgconnect (token_mgr_kwargs self server);
                               EvSetTokenMgr api m;
                               EvGetTokenValue m; EvRequest call])%list
    /\ token_mgr w' !! api = Some m.
Proof.
  intros Hslot Hkw. destruct Hup as [Hsg Htok].
  set (im := (pop_is_mime (Frame.params st)).1).
  set (kw := token_mgr_kwargs self server).
  set (m := mk_TokenMgr (length (trace (add_events w [EvHeaders im]))) kw).
  destruct (Htok (trace (add_events w [EvHeaders im])
                  ++ [EvSgconnect kw; EvSetTokenMgr api m])%list m) as [t Ht].
  assert (Hh : headers ext self im w
               = (Ok (add_origin self (<["Authorization" := "Bearer " ++ t]> (base_headers im))),
                  add_events
                    (mk_World (<[api := m]> (token_mgr w))
                       (trace (add_events w [EvHeaders im])
                        ++ [EvSgconnect kw; EvSetTokenMgr api m]))
                    [EvGetTokenValue m])).
  { rewrite headers_unfold, Hserver, Hslot. cbn zeta. rewrite Hsg. unfold fetch_token.
    cbn [trace]. fold kw. fold m. rewrite Ht. reflexivity. }
  destruct (failing_send st w _ _ Hh Hkw) as (e & call & Hb & He).
  exists e. eexists. exists call, m. split; [exact Hb|]. split; [exact He|].
  split; [cbn; rewrite <- !app_assoc; reflexivity|].
  cbn. apply lookup_insert_eq.
Qed.

Lemma run_with_manager (n : nat) st w m :
  token_mgr w !! api = Some m ->
  repeated_keyword (delete "is_mime" (Frame.params st)) = None ->
  Z.of_nat n = max_retries cfg + 1 - Frame.count st ->
  exists evs,
    trace (request_loop cfg ext self method url json stream st w).2
    = (trace w ++ evs)%list
    /\ token_fetches evs = replicate n m
    /\ sgconnect_calls evs = []
    /\ token_mgr (request_loop cfg ext self method url json stream st w).2 !! api = Some m.
Proof.
  intros Hslot Hkw Hn.
  set (Inv := fun (st : Frame.t) (w : World) =>
                token_mgr w !! api = Some m
                /\ repeated_keyword (delete "is_mime" (Frame.params st)) = None).
  set (A := fun (seg : list event) (e : exc) =>
              token_fetches seg = [m] /\ sgconnect_calls seg = []).
  destruct (uniform_failure cfg ext self method url json stream Inv A) with
    (n := n) (st := st) (w := w) as (atts & Hl & Hf & Ht & _).
  { intros st0 w0 [Hs0 Hk0].
    destruct (attempt_with_manager st0 w0 m Hs0 Hk0) as (e & w' & call & Hb & He & Ht & Hm).
    eexists e, _, w', _. split; [exact Hb|]. split; [exact He|]. split; [exact Ht|].
    split; [split; reflexivity|]. split.
    - cbn. rewrite Hm. exact Hs0.
    - cbn. apply repeated_keyword_delete. exact Hk0. }
  { split; assumption. }
  { exact Hn. }
  eexists. split; [exact Ht|].
  assert (Hproj : forall count,
            token_fetches (failing_trace count atts) = replicate (length atts) m
            /\ sgconnect_calls (failing_trace count atts) = []).
  { clear -Hf. induction Hf as [|[seg e] atts [Ha1 Ha2] _ IH]; intros count; [auto|].
    cbn [failing_trace length replicate]. cbn [fst] in Ha1, Ha2.
    unfold token_fetches, sgconnect_calls in *.
    rewrite !omap_app, Ha1, Ha2. cbn [omap list_omap app].
    destruct (IH (count + 1)) as [-> ->]. auto. }
  destruct (Hproj (Frame.count st)) as [H1 H2]. rewrite H1, H2, Hl.
  split; [reflexivity|]. split; [reflexivity|].
  destruct (request_loop_steps cfg ext self method url json stream st w) as (evs & _ & Hs).
  specialize (Hs api). rewrite Hslot in Hs. tauto.
Qed.

End WithManager.

(** X9: against a backend that always fails, with an auth server named,
    one run of [request] builds the token manager at most once (once when
    the slot was empty, never when it held one), asks that same manager for
    a token on each of its [N+1] attempts, and leaves it in the slot. *)
Theorem one_manager_many_tokens
    cfg ext c method path json stream params w u server :
  let out := request cfg ext c method path json stream params w in
  let evs := since w out.2 in
  Client_url c path = Ok u ->
  0 <= max_retries cfg ->
  backend_always_fails ext ->
  token_service_up ext ->
  repeated_keyword params = None ->
  sgconnect_env (_env c) = Given server ->
  exists m,
    token_mgr out.2 !! api_id (_api c) = Some m
    /\ token_fetches evs = replicate (Z.to_nat (max_retries cfg + 1)) m
    /\ sgconnect_calls evs
       = match token_mgr w !! api_id (_api c) with
         | Some _ => []
         | None => [token_mgr_kwargs c server]
         end
    /\ (forall m0, token_mgr w !! api_id (_api c) = Some m0 -> m0 = m).
Proof.
  cbn zeta. intros Hu HN Hfails Hup Hkw Hserver. unfold request. rewrite Hu.
  apply (repeated_keyword_delete _ "is_mime") in Hkw.
  set (st0 := Frame.mk 0 None (timeout cfg) params).
  destruct (token_mgr w !! api_id (_api c)) as [m0|] eqn:Hslot.
  - destruct (run_with_manager cfg ext c method u json stream server Hfails Hup Hserver
                (Z.to_nat (max_retries cfg + 1)) st0 w m0 Hslot Hkw)
      as (evs & Ht & Hf & Hs & Hm); [cbn; lia|].
    exists m0. rewrite (since_app _ _ _ Ht).
    repeat split; auto. intros m1 [= ->]. reflexivity.
  - destruct (attempt_builds_manager ext c method u json stream server Hfails Hup Hserver
                st0 w Hslot Hkw) as (e & w' & call & m & Hb & He & Ht1 & Hm).
    rewrite request_loop_unroll. cbn [Frame.count st0].
    replace (0 <=? max_retries cfg) with true by (symmetry; apply Z.leb_le; lia).
    rewrite Hb, He.
    destruct (except_world_steps st0 e w') as [Ht3 Hk3].
    assert (Hm' : token_mgr (except_world st0 e w').2 !! api_id (_api c) = Some m).
    { specialize (Hk3 (api_id (_api c))). rewrite Hm in Hk3. tauto. }
    destruct (run_with_manager cfg ext c method u json stream server Hfails Hup Hserver
                (Z.to_nat (max_retries cfg))
                (except_frame st0 e (delete "is_mime" (Frame.params st0)))
                (except_world st0 e w').2 m Hm')
      as (evs & Ht & Hf & Hs & Hmf).
    { cbn. apply repeated_keyword_delete. exact Hkw. }
    { cbn. lia. }
    exists m. split; [exact Hmf|].
    rewrite Ht3, Ht1, <- !app_assoc in Ht.
    rewrite (since_app _ _ _ Ht).
    unfold token_fetches, sgconnect_calls in *.
    rewrite !omap_app, Hf, Hs. cbn [omap list_omap app].
    replace (Z.to_nat (max_retries cfg + 1)) with (S (Z.to_nat (max_retries cfg))) by lia.
    repeat split; auto. intros m1; discriminate.
Qed.

Lemma one_manager_many_tokens_witness :
  let out := request (Sample.config 2 60) Sample.forbidden Sample.trade_client
               "get" ["a"] PyNone false ∅ Sample.start in
  let evs := since Sample.start out.2 in
  exists m,
    token_mgr out.2 !! api_id (_api Sample.trade_client) = Some m
    /\ token_fetches evs = replicate (Z.to_nat (max_retries (Sample.config 2 60) + 1)) m
    /\ sgconnect_calls evs
       = match token_mgr Sample.start !! api_id (_api Sample.trade_client) with
         | Some _ => []
         | None => [token_mgr_kwargs Sample.trade_client "dev"]
         end
    /\ (forall m0, token_mgr Sample.start !! api_id (_api Sample.trade_client) = Some m0 ->
          m0 = m).
Proof.
  apply (one_manager_many_tokens (Sample.config 2 60) Sample.forbidden Sample.trade_client
           "get" ["a"] PyNone false ∅ Sample.start Sample.trade_url "dev").
  - vm_compute. reflexivity.
  - cbn. lia.
  - intros h call. reflexivity.
  - split; [reflexivity|]. intros h m. eexists. reflexivity.
  - reflexivity.
  - reflexivity.
Defined.

(** ** Transient failures *)

Section Transient.

Variable cfg : RootConfig.
Variable ext : Externals.
Variable self : client.
Variable method : string.
Variable url : string.
Variable json : value.
Variable stream : bool.
Variable k : nat.
Variable resp : Response.

Hypothesis Hup : token_service_up ext.
Hypothesis Hback : fails_then_answers ext k resp.
Hypothesis Hresp : is_ok (status_code resp) = true.

Local Abbreviation loop := (request_loop cfg ext self method url json stream).
Local Abbreviation body := (try_body ext self method url json stream).

(** With the token service up and no repeated keyword, an attempt reaches
    the session, which is asked after events that add no session call. *)
Lemma reaching_attempt st w :
  repeated_keyword (delete "is_mime" (Frame.params st)) = None ->
  exists h w1 aevs call,
    trace w1 = (trace w ++ EvHeaders (pop_is_mime (Frame.params st)).1 :: aevs)%list
    /\ Forall auth_event aevs
    /\ body st w
       = (match session_request ext (trace w1) call with
          | Ok r => check_response r
          | Raise e => Raise e
          end, delete "is_mime" (Frame.params st), add_events w1 [EvRequest call])
    /\ call = mk_HttpCall method url h json false stream (Frame.timeout st)
                (delete "is_mime" (Frame.params st)).
Proof.
  intros Hkw.
  destruct (headers_up ext self (pop_is_mime (Frame.params st)).1 w Hup) as [h Hh].
  destruct (headers ext self (pop_is_mime (Frame.params st)).1 w) as [r w1] eqn:Hh'.
  cbn [fst] in Hh. subst r.
  destruct (headers_steps _ _ _ _ _ _ Hh') as (aevs & [Ht _] & Hauth).
  exists h, w1, aevs. eexists. split; [exact Ht|]. split; [exact Hauth|].
  split; [|reflexivity].
  rewrite try_body_unfold, send_unfold, Hh', pop_is_mime_rest, Hkw.
  destruct (session_request ext (trace w1) _); reflexivity.
Qed.

Lemma transient_run (j : nat) st w :
  repeated_keyword (delete "is_mime" (Frame.params st)) = None ->
  (length (http_calls (trace w)) + j = k)%nat ->
  Frame.count st + Z.of_nat j <= max_retries cfg ->
  exists evs,
    trace (loop st w).2 = (trace w ++ evs)%list
    /\ length (http_calls evs) = S j
    /\ sleeps evs = half_seconds <$> seqZ (Frame.count st + 1) (Z.of_nat j)
    /\ length (caught evs) = j
    /\ (loop st w).1 = return_value stream resp.
Proof.
  revert st w. induction j as [|j IH]; intros st w Hkw Hlen Hcount;
    rewrite request_loop_unroll;
    (replace (Frame.count st <=? max_retries cfg) with true
       by (symmetry; apply Z.leb_le; lia));
    destruct (reaching_attempt st w Hkw) as (h & w1 & aevs & call & Ht1 & Hauth & Hb & _);
    destruct (auth_events_quiet _ Hauth) as (Hq1 & Hq2 & Hq3 & _);
    assert (Hcalls : http_calls (trace w1) = http_calls (trace w))
      by (rewrite Ht1, http_calls_app;
          change (http_calls (EvHeaders (pop_is_mime (Frame.params st)).1 :: aevs))
            with (http_calls aevs);
          rewrite Hq1; apply app_nil_r);
    destruct (Hback (trace w1) call) as [Hlt Heq]; rewrite Hcalls in Hlt, Heq;
    rewrite Hb.
  - rewrite Heq by lia.
    replace (check_response resp) with (Ok resp : result Response)
      by (symmetry; apply check_response_accepts, is_ok_ok, Hresp).
    eexists. split; [cbn; rewrite Ht1, <- app_assoc; reflexivity|].
    cbn. rewrite http_calls_app, sleeps_app, caught_app, Hq1, Hq2, Hq3. cbn. auto.
  - assert (Hfail : attempt_fails (session_request ext (trace w1) call)) by (apply Hlt; lia).
    assert (Hc : exists e, match session_request ext (trace w1) call with
                           | Ok r => check_response r
                           | Raise e => Raise e
                           end = Raise e /\ isinstance e Exception = true).
    { destruct (session_request ext (trace w1) call) as [r|e]; cbn in Hfail.
      - destruct (check_response_not_ok r Hfail) as [e He]. exists e. split; [exact He|].
        eapply check_response_raises_Exception; eauto.
      - eauto. }
    destruct Hc as (e & -> & He). rewrite He.
    set (w2 := add_events w1 [EvRequest call]).
    destruct (except_world_steps st e w2) as [Ht3 _].
    destruct (IH (except_frame st e (delete "is_mime" (Frame.params st)))
                (except_world st e w2).2) as (evs & Ht & Hh & Hs & Hx & Hr).
    { cbn. apply repeated_keyword_delete. exact Hkw. }
    { rewrite Ht3. subst w2. cbn [trace add_events].
      rewrite !http_calls_app, Hcalls, !length_app.
      change (length (http_calls [EvRequest call])) with 1%nat.
      change (length (http_calls [EvCaught e; EvSleep (half_seconds (Frame.count st + 1))]))
        with 0%nat.
      lia. }
    { cbn. lia. }
    rewrite Ht3 in Ht. subst w2. cbn [trace add_events] in Ht.
    rewrite Ht1, <- !app_assoc in Ht. cbn [app] in Ht.
    eexists. split; [exact Ht|].
    change (EvHeaders (pop_is_mime (Frame.params st)).1
            :: (aevs ++ EvRequest call :: EvCaught e
                :: EvSleep (half_seconds (Frame.count st + 1)) :: evs))%list
      with ([EvHeaders (pop_is_mime (Frame.params st)).1]
            ++ aevs ++ [EvRequest call; EvCaught e;
                        EvSleep (half_seconds (Frame.count st + 1))] ++ evs)%list.
    rewrite !http_calls_app, !sleeps_app, !caught_app, Hq1, Hq2, Hq3, Hs.
    cbn [app http_calls sleeps caught omap list_omap length].
    fold (http_calls evs). fold (caught evs).
    rewrite Hh, Hx, Hr. repeat split; auto.
    rewrite (seqZ_cons (Frame.count st + 1) (Z.of_nat (S j))) by lia.
    replace (Z.succ (Frame.count st + 1)) with (Frame.count st + 1 + 1) by lia.
    replace (Z.pred (Z.of_nat (S j))) with (Z.of_nat j) by lia.
    reflexivity.
Qed.

End Transient.



(** ** Time spent sleeping *)

Lemma sum_snoc (l : list Q) (x : Q) :
  (fold_right Qplus 0 (l ++ [x]) == fold_right Qplus 0 l + x)%Q.
Proof.
  induction l as [|y l IH]; cbn [app fold_right].
  - ring.
  - rewrite IH. ring.
Qed.

Lemma sum_half_seconds (n : nat) :
  (fold_right Qplus 0 (half_seconds <$> seqZ 1 (Z.of_nat n))
   == (Z.of_nat n * (Z.of_nat n + 1)) # 4)%Q.
Proof.
  induction n as [|n IH].
  - reflexivity.
  - rewrite seqZ_S, fmap_app. cbn [fmap list_fmap]. rewrite sum_snoc, IH.
    unfold half_seconds, Qeq, Qplus, Qmult, inject_Z. cbn [Qnum Qden].
    rewrite Nat2Z.inj_succ. unfold Z.succ.
    change (Z.pos (4 * (2 * 1))) with 8. change (Z.pos (2 * 1)) with 2.
    change (Z.pos 4) with 4. ring.
Qed.

(** X11: a run of [request] in which every attempt fails spends
    [0.5 * (1 + 2 + ... + (N+1)) = (N+1)*(N+2)/4] seconds asleep before it
    raises: 0.5 s without retries, 1.5 s with one, 3 s with two. *)
Theorem total_sleep_of_failing_run
    cfg ext c method path json stream params w u :
  let out := request cfg ext c method path json stream params w in
  Client_url c path = Ok u ->
  0 <= max_retries cfg ->
  backend_always_fails ext ->
  token_service_up ext ->
  repeated_keyword params = None ->
  (total_sleep (since w out.2)
   == ((max_retries cfg + 1) * (max_retries cfg + 2)) # 4)%Q.
Proof.
  cbn zeta. intros Hu HN Hfails Hup Hkw. unfold request. rewrite Hu.
  destruct (failing_run cfg ext c method u json stream Hfails Hup
              (Z.to_nat (max_retries cfg + 1))
              (Frame.mk 0 None (timeout cfg) params) w)
    as (evs & Ht & _ & Hs & _).
  { cbn. apply repeated_keyword_delete. exact Hkw. }
  { cbn. lia. }
  rewrite (since_app _ _ _ Ht). unfold total_sleep. rewrite Hs. cbn [Frame.count].
  change (0 + 1) with 1. rewrite sum_half_seconds.
  rewrite Z2Nat.id by lia.
  replace (max_retries cfg + 1 + 1) with (max_retries cfg + 2) by lia. reflexivity.
Qed.

Lemma total_sleep_of_failing_run_witness :
  let out := request (Sample.config 2 60) Sample.down Sample.trade_client
               "get" ["a"] PyNone false ∅ Sample.start in
  (total_sleep (since Sample.start out.2)
   == ((max_retries (Sample.config 2 60) + 1) * (max_retries (Sample.config 2 60) + 2)) # 4)%Q.
Proof.
  apply (total_sleep_of_failing_run (Sample.config 2 60) Sample.down Sample.trade_client
           "get" ["a"] PyNone false ∅ Sample.start Sample.trade_url).
  - vm_compute. reflexivity.
  - cbn. lia.
  - intros h call. reflexivity.
  - split; [reflexivity|]. intros h m. eexists. reflexivity.
  - reflexivity.
Defined.

(** ** The header set *)

Lemma base_headers_lookup is_mime k :
  base_headers is_mime !! k
  = if truthy is_mime then None
    else if decide (k = "Accept") then Some "application/json"
    else if decide (k = "Content-Type") then Some "application/json"
    else None.
Proof.
  unfold base_headers, json_headers. destruct (truthy is_mime); cbn [negb].
  - apply lookup_empty.
  - rewrite lookup_insert. destruct (decide ("Accept" = k)) as [<-|Hne].
    + rewrite decide_True by reflexivity. reflexivity.
    + rewrite (decide_False (P := k = "Accept")) by congruence.
      rewrite lookup_insert. destruct (decide ("Content-Type" = k)) as [<-|Hne2].
      * rewrite decide_True by reflexivity. reflexivity.
      * rewrite (decide_False (P := k = "Content-Type")) by congruence.
        apply lookup_empty.
Qed.

(** The header set with an optional [Authorization] value. *)
Lemma header_set_lookup c is_mime (auth : option string) :
  let h := add_origin c
             (match auth with
              | Some a => <["Authorization" := a]> (base_headers is_mime)
              | None => base_headers is_mime
              end) in
  h !! "Content-Type" = (if truthy is_mime then None else Some "application/json")
  /\ h !! "Accept" = (if truthy is_mime then None else Some "application/json")
  /\ h !! "Origin" = match origin (_api c) with Given o => Some o | MISSING => None end
  /\ h !! "Authorization" = auth
  /\ (forall k, k <> "Content-Type" -> k <> "Accept" -> k <> "Origin" ->
        k <> "Authorization" -> h !! k = None).
Proof.
  cbn zeta.
  assert (Hin : forall k, k <> "Authorization" ->
            match auth with
            | Some a => <["Authorization" := a]> (base_headers is_mime)
            | None => base_headers is_mime
            end !! k = base_headers is_mime !! k).
  { intros k Hk. destruct auth; [|reflexivity]. apply lookup_insert_ne. congruence. }
  split; [rewrite add_origin_lookup by (intros [=]); rewrite Hin by (intros [=]);
          rewrite base_headers_lookup; destruct (truthy is_mime); reflexivity|].
  split; [rewrite add_origin_lookup by (intros [=]); rewrite Hin by (intros [=]);
          rewrite base_headers_lookup; destruct (truthy is_mime); reflexivity|].
  split.
  { unfold add_origin. destruct (origin (_api c)).
    - rewrite Hin by (intros [=]). rewrite base_headers_lookup.
      destruct (truthy is_mime); reflexivity.
    - apply lookup_insert_eq. }
  split.
  { rewrite add_origin_lookup by (intros [=]). destruct auth.
    - apply lookup_insert_eq.
    - rewrite base_headers_lookup. destruct (truthy is_mime); reflexivity. }
  intros k H1 H2 H3 H4. rewrite add_origin_lookup by exact H3.
  rewrite Hin by exact H4. rewrite base_headers_lookup.
  destruct (truthy is_mime); [reflexivity|].
  rewrite !decide_False by assumption. reflexivity.
Qed.

(** What [headers] returns, as such a header set. *)
Lemma headers_result ext c is_mime w h w' :
  headers ext c is_mime w = (Ok h, w') ->
  (sgconnect_env (_env c) = MISSING /\ h = add_origin c (base_headers is_mime))
  \/ (exists server m hist t,
        sgconnect_env (_env c) = Given server
        /\ token_mgr w' !! api_id (_api c) = Some m
        /\ get_token_value ext hist m = Ok t
        /\ h = add_origin c (<["Authorization" := "Bearer " ++ t]> (base_headers is_mime))).
Proof.
  rewrite headers_unfold. cbn zeta. unfold fetch_token.
  destruct (sgconnect_env (_env c)) as [|server].
  - intros [= <- <-]. left. auto.
  - intros H. right. exists server. revert H.
    destruct (token_mgr w !! api_id (_api c)) as [m|] eqn:Hslot.
    + destruct (get_token_value ext _ m) as [t|e] eqn:Ht; [|discriminate].
      intros [= <- <-]. exists m. eexists. exists t. cbn. eauto.
    + destruct (sgconnect ext _ _) as [e|]; [discriminate|].
      match goal with |- context [get_token_value ext ?hist ?m] =>
        destruct (get_token_value ext hist m) as [t|e] eqn:Ht end; [|discriminate].
      intros [= <- <-]. eexists. eexists. exists t.
      split; [reflexivity|]. split; [cbn; apply lookup_insert_eq|]. eauto.
Qed.

(** X12: what a successful call of [headers] returns, key by key:
    [Content-Type] and [Accept] are [application/json] unless [is_mime] is
    true; [Authorization] is present exactly when the environment names an
    auth server, and is then "Bearer " followed by a token that the manager
    in the slot gave; [Origin] is the configured origin, if any; and there
    is no other key. *)
Theorem headers_key_by_key ext c is_mime w h w' :
  headers ext c is_mime w = (Ok h, w') ->
  h !! "Content-Type" = (if truthy is_mime then None else Some "application/json")
  /\ h !! "Accept" = (if truthy is_mime then None else Some "application/json")
  /\ h !! "Origin" = match origin (_api c) with Given o => Some o | MISSING => None end
  /\ (h !! "Authorization" = None <-> sgconnect_env (_env c) = MISSING)
  /\ (forall a, h !! "Authorization" = Some a ->
        exists m hist t,
          token_mgr w' !! api_id (_api c) = Some m
          /\ get_token_value ext hist m = Ok t
          /\ a = "Bearer " ++ t)
  /\ (forall k, k <> "Content-Type" -> k <> "Accept" -> k <> "Origin" ->
        k <> "Authorization" -> h !! k = None).
Proof.
  intros H. destruct (headers_result _ _ _ _ _ _ H)
    as [[Hm ->]|(server & m & hist & t & Hs & Hslot & Ht & ->)].
  - destruct (header_set_lookup c is_mime None) as (H1 & H2 & H3 & H4 & H5).
    cbn zeta in *. rewrite H4, Hm.
    split; [exact H1|]. split; [exact H2|]. split; [exact H3|].
    split; [tauto|]. split; [intros a; discriminate|exact H5].
  - destruct (header_set_lookup c is_mime (Some ("Bearer " ++ t))) as (H1 & H2 & H3 & H4 & H5).
    cbn zeta in *. rewrite H4, Hs.
    split; [exact H1|]. split; [exact H2|]. split; [exact H3|].
    split; [split; discriminate|]. split; [|exact H5].
    intros a [= <-]. exists m, hist, t. auto.
Qed.

Lemma headers_key_by_key_witness :
  let out := headers Sample.healthy Sample.trade_client (PyBool false) Sample.start in
  exists h, out.1 = Ok h
    /\ h !! "Content-Type" = Some "application/json"
    /\ h !! "Origin" = Some "https://origin.example"
    /\ (h !! "Authorization" = None <-> sgconnect_env Sample.env_auth = MISSING).
Proof.
  destruct (headers Sample.healthy Sample.trade_client (PyBool false) Sample.start)
    as [r w'] eqn:Hh.
  assert (Hr : exists h, r = Ok h) by (vm_compute in Hh; injection Hh as <- _; eauto).
  destruct Hr as [h ->]. exists h. split; [reflexivity|].
  destruct (headers_key_by_key Sample.healthy Sample.trade_client (PyBool false)
              Sample.start h w' Hh) as (H1 & _ & H3 & H4 & _).
  auto.
Defined.

(** ** [headers]: the first use of an API record *)

Lemma nonempty_length (s : string) :
  (0 <? Z.of_nat (String.length s)) = true <-> s <> "".
Proof.
  destruct s; cbn.
  - split; [discriminate|congruence].
  - split; [discriminate|]. intros _. apply Z.ltb_lt. lia.
Qed.

Lemma headers_first_use ext c is_mime w server :
  sgconnect_env (_env c) = Given server ->
  token_mgr w !! api_id (_api c) = None ->
  sgconnect_calls (since w (headers ext c is_mime w).2) = [token_mgr_kwargs c server].
Proof.
  intros Hs Hslot. rewrite headers_unfold, Hs, Hslot. cbn zeta. unfold fetch_token.
  destruct (sgconnect ext _ _) as [e|]; cbn [snd].
  - erewrite since_app; [|cbn; rewrite <- app_assoc; reflexivity]. reflexivity.
  - erewrite since_app; [|cbn; rewrite <- !app_assoc; reflexivity]. reflexivity.
Qed.

(** X13: the first use of an API record (the slot holds [MISSING], the
    environment names an auth server) calls [sgconnect] exactly once.  The
    call is made in client mode, with the record's id and secret, when both
    are non-empty; when either is empty it is made in implicit mode, with
    the environment's implicit id and redirect URI, and the record's id and
    secret are not passed at all.  Server and scope are the same in both. *)
Theorem first_use_selects_the_mode ext c is_mime w server :
  sgconnect_env (_env c) = Given server ->
  token_mgr w !! api_id (_api c) = None ->
  (client_id (_api c) <> "" -> client_secret (_api c) <> "" ->
   sgconnect_calls (since w (headers ext c is_mime w).2)
   = [ClientMode (client_id (_api c)) (client_secret (_api c)) server (scope (_api c))])
  /\ (client_id (_api c) = "" \/ client_secret (_api c) = "" ->
      sgconnect_calls (since w (headers ext c is_mime w).2)
      = [ImplicitMode (implicit_client_id (_env c)) (implicit_redirect_uri (_env c))
           server (scope (_api c))]).
Proof.
  intros Hs Hslot. rewrite (headers_first_use _ _ _ _ _ Hs Hslot).
  unfold token_mgr_kwargs. split.
  - intros H1 H2. apply nonempty_length in H1, H2. rewrite H1, H2. reflexivity.
  - intros [H | H]; rewrite H; cbn; [reflexivity|].
    rewrite andb_false_r. reflexivity.
Qed.

Lemma first_use_selects_the_mode_witness :
  sgconnect_calls (since Sample.start
                     (headers Sample.healthy Sample.trade_client (PyBool false)
                        Sample.start).2)
  = [ClientMode "id" "secret" "dev" "api.trade"].
Proof.
  apply (first_use_selects_the_mode Sample.healthy Sample.trade_client (PyBool false)
           Sample.start "dev"); [reflexivity|reflexivity|discriminate|discriminate].
Defined.

(** ** [get] and [post] *)

Lemma since_same w : since w w = [].
Proof. unfold since. apply drop_all. Qed.

(** X14: every session call made by [get] has the method "get" and the
    caller's [stream] flag; every session call made by [post] has the
    method "post" and carries the [data] argument among its extra keyword
    arguments, also when the caller left it out and it is [None].  Neither
    passes [json], [stream] or [is_mime] on among the extra keyword
    arguments. *)
Theorem get_and_post_calls cfg ext c path stream data params w :
  Forall (fun call =>
            c_method call = "get" /\ c_stream call = stream
            /\ c_json call = keyword params "json" PyNone
            /\ c_params call !! "json" = None
            /\ c_params call !! "is_mime" = None)
    (http_calls (since w (get cfg ext c path stream params w).2))
  /\ Forall (fun call =>
               c_method call = "post"
               /\ c_params call !! "data" = Some data
               /\ c_json call = keyword params "json" PyNone
               /\ c_stream call = truthy (keyword params "stream" (PyBool false))
               /\ c_params call !! "json" = None
               /\ c_params call !! "stream" = None
               /\ c_params call !! "is_mime" = None)
      (http_calls (since w (post cfg ext c path data params w).2)).
Proof.
  split.
  - unfold get, repeats_method. destruct (params !! "method").
    + cbn. rewrite since_same. constructor.
    + eapply Forall_impl; [apply request_call_arguments|].
      intros call (Hm & _ & Hj & Hs & _ & Hp & Hi). cbn beta.
      repeat split; auto.
      rewrite Hp. rewrite lookup_delete_ne by (intros [=]). apply lookup_delete_eq.
  - unfold post, repeats_method. destruct (params !! "method").
    + cbn. rewrite since_same. constructor.
    + eapply Forall_impl; [apply request_call_arguments|].
      intros call (Hm & _ & Hj & Hs & _ & Hp & Hi). cbn beta.
      repeat split; auto; rewrite Hp.
      * rewrite lookup_delete_ne by (intros [=]). apply lookup_insert_eq.
      * rewrite lookup_delete_ne by (intros [=]).
        rewrite lookup_insert_ne by (intros [=]).
        rewrite lookup_delete_ne by (intros [=]). apply lookup_delete_eq.
      * rewrite lookup_delete_ne by (intros [=]).
        rewrite lookup_insert_ne by (intros [=]). apply lookup_delete_eq.
Qed.

(** ** [url_join] and [url] *)

Lemma posixpath_join_app path p q :
  posixpath_join path (p ++ q)%list = posixpath_join (posixpath_join path p) q.
Proof. revert path. induction p as [|b p IH]; intros path; cbn; auto. Qed.

Lemma posixpath_join_absolute path p b q :
  starts_with "/" b = true ->
  posixpath_join path (p ++ b :: q)%list = posixpath_join b q.
Proof. intros Hb. rewrite posixpath_join_app. cbn. rewrite Hb. reflexivity. Qed.

Lemma url_join_absolute u p b q :
  starts_with "/" b = true ->
  url_join u (p ++ b :: q)%list = url_join u (b :: q).
Proof.
  intros Hb. unfold url_join. cbn zeta.
  rewrite (posixpath_join_absolute _ p b q Hb).
  rewrite (posixpath_join_absolute _ [] b q Hb). reflexivity.
Qed.

(** X15: a segment that starts with "/" discards everything joined before
    it.  For the three named clients, [url] with such a segment among its
    arguments drops the "api" prefix, the API name, the version and the
    segments given before it: the result is the endpoint joined with that
    segment and the ones after it. *)
Theorem absolute_segment_discards_the_api_prefix c before b after :
  cls c <> Client ->
  starts_with "/" b = true ->
  Client_url c (before ++ b :: after)%list
  = Ok (url_join (endpoint (_env c)) (b :: after)).
Proof.
  intros Hc Hb. unfold Client_url. destruct (cls c); [congruence| | |]; f_equal.
  - apply (url_join_absolute _ ("api" :: _api_name c :: version (_env c) :: before)).
    exact Hb.
  - apply (url_join_absolute _ ("api" :: _api_name c :: "v1" :: before)). exact Hb.
  - apply (url_join_absolute _
             ("api" :: _api_name c :: "v1" :: "PricingInterfaceModel" :: before)).
    exact Hb.
Qed.

Lemma absolute_segment_discards_the_api_prefix_witness :
  Client_url Sample.trade_client (["trades"] ++ ["/health"; "live"])%list
  = Ok (url_join (endpoint (_env Sample.trade_client)) ["/health"; "live"]).
Proof.
  apply (absolute_segment_discards_the_api_prefix Sample.trade_client
           ["trades"] "/health" ["live"]); [discriminate|reflexivity].
Defined.

Lemma splitnetloc_plain host :
  all_chars netloc_char host = true -> splitnetloc host = (host, "").
Proof.
  induction host as [|a host IH]; cbn; [reflexivity|].
  intros H. apply andb_prop in H as [Ha Hh]. unfold netloc_char in Ha.
  apply negb_true_iff in Ha. rewrite Ha, (IH Hh). reflexivity.
Qed.

Lemma starts_with_slash_app s t :
  starts_with "/" s = true -> starts_with "/" (s ++ t) = true.
Proof.
  unfold starts_with. destruct s as [|a s]; [cbn; discriminate|].
  change (String a s ++ t) with (String a (s ++ t)). cbn [String.prefix].
  destruct (ascii_dec "/" a); [|discriminate]. intros _.
  destruct s; destruct t; reflexivity.
Qed.

Lemma posixpath_join_rooted path p :
  starts_with "/" path = true -> starts_with "/" (posixpath_join path p) = true.
Proof.
  revert path. induction p as [|b p IH]; intros path Hp; cbn; [exact Hp|].
  apply IH. destruct (starts_with "/" b) eqn:Hb; [exact Hb|].
  destruct (negb (nonempty path) || ends_with_slash path);
    apply starts_with_slash_app; exact Hp.
Qed.

Lemma nonempty_rooted s : starts_with "/" s = true -> nonempty s = true.
Proof. destruct s; [discriminate|reflexivity]. Qed.

Lemma url_join_bare_host scheme host args :
  scheme = "http" \/ scheme = "https" ->
  host <> "" ->
  all_chars netloc_char host = true ->
  url_join (scheme ++ "://" ++ host) args
  = scheme ++ "://" ++ host ++ posixpath_join "/" args.
Proof.
  intros Hscheme Hne Hhost.
  assert (Hsplit : urlsplit (scheme ++ "://" ++ host)
                   = mk_SplitResult scheme host "" "" "").
  { unfold urlsplit.
    destruct Hscheme as [-> | ->]; cbv beta iota delta [String.append]; cbn;
      match goal with
      | |- context [if ?b then _ else _] => replace b with true by reflexivity
      end;
      repeat match goal with
             | |- context [lower_ascii ?a] =>
                 let v := eval vm_compute in (lower_ascii a) in
                 change (lower_ascii a) with v
             end;
      rewrite (splitnetloc_plain _ Hhost); reflexivity. }
  unfold url_join. rewrite Hsplit. cbn [sr_scheme sr_netloc sr_path sr_query sr_fragment].
  change (if 0 <? Z.of_nat (String.length "") then "" else "/") with "/".
  assert (Hroot := posixpath_join_rooted "/" args eq_refl).
  unfold urlunsplit. cbn [sr_scheme sr_netloc sr_path sr_query sr_fragment].
  assert (Hn : nonempty host = true).
  { unfold nonempty. destruct host; [congruence|reflexivity]. }
  rewrite Hn, Hroot, (nonempty_rooted _ Hroot).
  change (nonempty "") with false. cbn [orb andb negb].
  destruct Hscheme as [-> | ->]; reflexivity.
Qed.



(** ** [load_config] *)

(** X17: when [PYTHON_XONE_CONFIG] is set, the settings file in the home
    directory is not considered.  If the file that the variable names does
    not exist, [load_config] reads the [config.json] next to the module,
    whether or not the home directory has a settings file, and raises what
    opening that bundled file raises; its existence is not tested. *)
Theorem variable_set_home_settings_skipped s p :
  environ s !! "PYTHON_XONE_CONFIG" = Some p ->
  exists_ s p = false ->
  module_dir s <> "" ->
  ends_with_slash (module_dir s) = false ->
  load_config s
  = match read_text s (module_dir s ++ "/config.json") with
    | Ok text => build s text
    | Raise e => Raise e
    end.
Proof.
  intros Hvar Hmissing Hd Hslash. unfold load_config, config_path. cbn zeta.
  rewrite Hvar. cbn [from_option id]. rewrite Hmissing. cbn [negb].
  unfold bundled_settings, json_file. cbn [posixpath_join].
  change (starts_with "/" "config.json") with false. cbv iota.
  rewrite Hslash, orb_false_r.
  assert (Hn : nonempty (module_dir s) = true).
  { unfold nonempty. destruct (module_dir s); [congruence|reflexivity]. }
  rewrite Hn. reflexivity.
Qed.

Lemma variable_set_home_settings_skipped_witness :
  exists_ Fixtures.stale_variable (home_settings Fixtures.stale_variable) = true
  /\ load_config Fixtures.stale_variable
     = match read_text Fixtures.stale_variable
               (module_dir Fixtures.stale_variable ++ "/config.json") with
       | Ok text => build Fixtures.stale_variable text
       | Raise e => Raise e
       end.
Proof.
  split; [vm_compute; reflexivity|].
  apply (variable_set_home_settings_skipped Fixtures.stale_variable "/etc/xone/gone.json").
  - reflexivity.
  - reflexivity.
  - discriminate.
  - reflexivity.
Defined.

(** ** The token manager across requests *)

(** An event of a run that found the manager [m] in the slot: no
    [sgconnect] call, no write of a slot, and tokens from [m] only. *)
Lemma headers_with_manager ext c im w m r w' :
  token_mgr w !! api_id (_api c) = Some m ->
  headers ext c im w = (r, w') ->
  token_mgr w' = token_mgr w
  /\ exists evs, trace w' = (trace w ++ evs)%list
     /\ sgconnect_calls evs = [] /\ Forall (eq m) (token_fetches evs).
Proof.
  intros Hslot. rewrite headers_unfold. cbn zeta. unfold fetch_token.
  destruct (sgconnect_env (_env c)) as [|server].
  - intros [= <- <-]. split; [reflexivity|].
    exists [EvHeaders im]. repeat split; constructor.
  - rewrite Hslot. intros [= <- <-]. split; [reflexivity|].
    exists [EvHeaders im; EvGetTokenValue m]. split.
    + cbn. rewrite <- app_assoc. reflexivity.
    + split; [reflexivity|]. repeat constructor.
Qed.

Lemma try_body_with_manager ext c method u json stream st w m r p w' :
  token_mgr w !! api_id (_api c) = Some m ->
  try_body ext c method u json stream st w = (r, p, w') ->
  token_mgr w' = token_mgr w
  /\ exists evs, trace w' = (trace w ++ evs)%list
     /\ sgconnect_calls evs = [] /\ Forall (eq m) (token_fetches evs).
Proof.
  intros Hslot. rewrite try_body_unfold, send_unfold.
  destruct (headers ext c (pop_is_mime (Frame.params st)).1 w) as [[h|e] w1] eqn:Hh;
    destruct (headers_with_manager _ _ _ _ _ _ _ Hslot Hh) as (Hm & evs & Ht & Hs & Hf).
  - destruct (repeated_keyword _).
    + intros [= <- <- <-]. eauto.
    + match goal with |- context [session_request ext ?h ?call] =>
        destruct (session_request ext h call) as [resp|e]; set (cl := call) end;
        intros [= <- <- <-]; (split; [exact Hm|]);
        exists (evs ++ [EvRequest cl])%list;
        (split; [cbn; rewrite Ht, <- app_assoc; reflexivity|]);
        unfold sgconnect_calls, token_fetches in *; rewrite !omap_app, Hs;
        cbn [omap list_omap app]; rewrite app_nil_r; auto.
  - intros [= <- <- <-]. eauto.
Qed.

Lemma request_loop_with_manager cfg ext c method u json stream m st w :
  token_mgr w !! api_id (_api c) = Some m ->
  token_mgr (request_loop cfg ext c method u json stream st w).2 !! api_id (_api c)
  = Some m
  /\ exists evs,
       trace (request_loop cfg ext c method u json stream st w).2 = (trace w ++ evs)%list
       /\ sgconnect_calls evs = [] /\ Forall (eq m) (token_fetches evs).
Proof.
  apply (request_loop_ind cfg ext c method u json stream
           (fun st w out =>
              token_mgr w !! api_id (_api c) = Some m ->
              token_mgr out.2 !! api_id (_api c) = Some m
              /\ exists evs, trace out.2 = (trace w ++ evs)%list
                 /\ sgconnect_calls evs = [] /\ Forall (eq m) (token_fetches evs)));
    clear st w.
  - intros st w _ Hslot. split; [exact Hslot|].
    exists []. split; [symmetry; apply app_nil_r|]. split; constructor.
  - intros st w resp p w' _ Hb Hslot.
    destruct (try_body_with_manager _ _ _ _ _ _ _ _ _ _ _ _ Hslot Hb) as (Hm & H).
    cbn [snd]. rewrite Hm. auto.
  - intros st w e p w' _ Hb _ Hslot.
    destruct (try_body_with_manager _ _ _ _ _ _ _ _ _ _ _ _ Hslot Hb) as (Hm & H).
    cbn [snd]. rewrite Hm. auto.
  - intros st w e p w' out _ Hb _ IH Hslot.
    destruct (try_body_with_manager _ _ _ _ _ _ _ _ _ _ _ _ Hslot Hb)
      as (Hm & evs1 & Ht1 & Hs1 & Hf1).
    destruct (except_world_steps st e w') as [Ht3 _].
    destruct IH as (Hslot' & evs2 & Ht2 & Hs2 & Hf2).
    { unfold except_world, bind, log. cbn. rewrite Hm. exact Hslot. }
    split; [exact Hslot'|].
    exists (evs1 ++ [EvCaught e; EvSleep (half_seconds (Frame.count st + 1))] ++ evs2)%list.
    split; [rewrite Ht2, Ht3, Ht1, <- !app_assoc; reflexivity|].
    unfold sgconnect_calls, token_fetches in *. rewrite !omap_app, Hs1, Hs2.
    cbn [omap list_omap app]. split; [reflexivity|].
    apply Forall_app. split; assumption.
Qed.

Lemma request_with_manager cfg ext c method path json stream params w m :
  token_mgr w !! api_id (_api c) = Some m ->
  token_mgr (request cfg ext c method path json stream params w).2 !! api_id (_api c)
  = Some m
  /\ sgconnect_calls (since w (request cfg ext c method path json stream params w).2) = []
  /\ Forall (eq m)
       (token_fetches (since w (request cfg ext c method path json stream params w).2)).
Proof.
  intros Hslot. unfold request. destruct (Client_url c path) as [u|e].
  - destruct (request_loop_with_manager cfg ext c method u json stream m
                (Frame.mk 0 None (timeout cfg) params) w Hslot)
      as (Hm & evs & Ht & Hs & Hf).
    rewrite (since_app _ _ _ Ht). auto.
  - cbn [snd]. rewrite since_same. split; [exact Hslot|]. split; constructor.
Qed.

(** X18: once the slot of a client's API record holds a manager, a run of
    [request], whatever the backend does and however the run ends, never
    calls [sgconnect], fetches every token it fetches from that manager,
    and leaves the manager in the slot. *)
Theorem manager_in_slot_is_reused cfg ext c method path json stream params w m :
  token_mgr w !! api_id (_api c) = Some m ->
  token_mgr (request cfg ext c method path json stream params w).2 !! api_id (_api c)
  = Some m
  /\ sgconnect_calls (since w (request cfg ext c method path json stream params w).2) = []
  /\ Forall (eq m)
       (token_fetches (since w (request cfg ext c method path json stream params w).2)).
Proof. apply request_with_manager. Qed.

Lemma manager_in_slot_is_reused_witness :
  let w := (headers Sample.healthy Sample.trade_client (PyBool false) Sample.start).2 in
  let m := mk_TokenMgr 1 (ClientMode "id" "secret" "dev" "api.trade") in
  sgconnect_calls
    (since w (request (Sample.config 2 60) Sample.forbidden Sample.trade_client
                "get" ["a"] PyNone false ∅ w).2) = [].
Proof.
  intros w m.
  apply (manager_in_slot_is_reused (Sample.config 2 60) Sample.forbidden
           Sample.trade_client "get" ["a"] PyNone false ∅ w m).
  vm_compute. reflexivity.
Defined.

(** A run of the loop that returns a value has had a call of [headers]
    that returned, which leaves a manager in the slot when an auth server
    is named. *)
Lemma request_loop_returns_manager cfg ext c method u json stream server st w :
  sgconnect_env (_env c) = Given server ->
  forall r, (request_loop cfg ext c method u json stream st w).1 = Ok r ->
  is_Some (token_mgr (request_loop cfg ext c method u json stream st w).2
           !! api_id (_api c)).
Proof.
  intros Hs.
  apply (request_loop_ind cfg ext c method u json stream
           (fun st w out => forall r, out.1 = Ok r ->
              is_Some (token_mgr out.2 !! api_id (_api c)))); clear st w.
  - intros st w _ r. discriminate.
  - intros st w resp p w' _ Hb r _. cbn [snd].
    rewrite try_body_unfold, send_unfold in Hb.
    destruct (headers ext c (pop_is_mime (Frame.params st)).1 w) as [[h|e] w1] eqn:Hh;
      [|discriminate].
    destruct (headers_result _ _ _ _ _ _ Hh)
      as [[Hm _]|(srv & m & hist & t & _ & Hslot & _)]; [congruence|].
    destruct (repeated_keyword _); [discriminate|].
    destruct (session_request ext _ _); [|discriminate].
    injection Hb as _ _ <-. cbn. rewrite Hslot. eauto.
  - intros st w e p w' _ _ _ r. discriminate.
  - intros st w e p w' out _ _ _ IH. exact IH.
Qed.

(** X19: a manager is built at most once across requests.  When the
    environment names an auth server and a call of [request] has returned
    a value, no later call of [request] by a client on the same API record
    calls [sgconnect], whatever its arguments and whatever the backend
    does. *)
Theorem later_requests_build_no_manager
    cfg ext c server method path json stream params w r w1
    cfg' c' method' path' json' stream' params' :
  sgconnect_env (_env c) = Given server ->
  request cfg ext c method path json stream params w = (Ok r, w1) ->
  api_id (_api c') = api_id (_api c) ->
  sgconnect_calls
    (since w1 (request cfg' ext c' method' path' json' stream' params' w1).2) = [].
Proof.
  intros Hs Hreq Hapi.
  assert (Hslot : is_Some (token_mgr w1 !! api_id (_api c))).
  { unfold request in Hreq. destruct (Client_url c path) as [u|e]; [|discriminate].
    pose proof (request_loop_returns_manager cfg ext c method u json stream server
                  (Frame.mk 0 None (timeout cfg) params) w Hs r) as H.
    rewrite Hreq in H. apply H. reflexivity. }
  destruct Hslot as [m Hslot]. rewrite <- Hapi in Hslot.
  destruct (request_with_manager cfg' ext c' method' path' json' stream' params' w1 m Hslot)
    as (_ & H & _).
  exact H.
Qed.

Lemma later_requests_build_no_manager_witness :
  let w1 := (request (Sample.config 0 60) Sample.healthy Sample.trade_client
               "get" ["a"] PyNone false ∅ Sample.start).2 in
  sgconnect_calls
    (since w1 (request (Sample.config 1 60) Sample.healthy Sample.trade_client
                 "post" ["b"] PyNone true ∅ w1).2) = [].
Proof.
  intros w1.
  apply (later_requests_build_no_manager (Sample.config 0 60) Sample.healthy
           Sample.trade_client "dev" "get" ["a"] PyNone false ∅ Sample.start
           (RetJson (JObj [])) w1
           (Sample.config 1 60) Sample.trade_client "post" ["b"] PyNone true ∅).
  - reflexivity.
  - vm_compute. reflexivity.
  - reflexivity.
Defined.

(** * logger_wrapper.py *)

(** ** One call of an adapter *)

Lemma store_set_same {A} (f : Z -> A) r x : LW.store_set f r x r = x.
Proof. unfold LW.store_set. rewrite decide_True by reflexivity. reflexivity. Qed.

Lemma store_set_other {A} (f : Z -> A) r x r' : r' <> r -> LW.store_set f r x r' = f r'.
Proof. intros H. unfold LW.store_set. rewrite decide_False by exact H. reflexivity. Qed.

(** A call at a level that is not enabled does nothing at all. *)
Lemma CustomAdapter_log_disabled self level msg args kwargs w :
  LW.isEnabledFor w (LW.underlying (LW.adapters w self)) level = false ->
  LW.CustomAdapter_log self level msg args kwargs w = (LW.Returned, w).
Proof. intros H. unfold LW.CustomAdapter_log. cbn zeta. rewrite H. reflexivity. Qed.

(** A call at an enabled level counts, stamps the dict if there is one,
    and calls the wrapped logger. *)
Lemma CustomAdapter_log_enabled self level msg args kwargs w :
  LW.isEnabledFor w (LW.underlying (LW.adapters w self)) level = true ->
  let a := LW.adapters w self in
  let n := LW.logOrder a + 1 in
  let c := LW.mk_LogCall self level msg args (delete "extra" kwargs)
             (match LW.extra a with
              | Some d => Some (<["logOrder" := PyInt n]> (LW.dicts w d))
              | None => None
              end) in
  LW.CustomAdapter_log self level msg args kwargs w
  = (LW.logger_log w c,
     LW.mk_LogWorld (LW._TEMPLATES w)
       (LW.store_set (LW.adapters w) self
          (LW.mk_CustomAdapter (LW.underlying a) (LW.extra a) n))
       (match LW.extra a with
        | Some d => LW.store_set (LW.dicts w) d (<["logOrder" := PyInt n]> (LW.dicts w d))
        | None => LW.dicts w
        end)
       (LW.next_adapter w) (LW.emitted w ++ [c]) (LW.isEnabledFor w) (LW.logger_log w)).
Proof.
  intros H. cbn zeta. unfold LW.CustomAdapter_log. cbn zeta. rewrite H.
  unfold LW.process. cbn [LW.extra LW.logOrder LW.underlying].
  rewrite lookup_insert_eq, delete_insert_eq.
  destruct (LW.extra (LW.adapters w self)) as [d|].
  - unfold LW.call_logger_log, LW.with_dict, LW.with_adapter.
    cbn [LW.dicts LW.adapters LW._TEMPLATES LW.next_adapter LW.emitted LW.isEnabledFor
         LW.logger_log].
    rewrite store_set_same. reflexivity.
  - reflexivity.
Qed.

(** What one call of an adapter means for the adapter [a]: nothing, or
    one more call of [a] that carries the next number. *)
Lemma CustomAdapter_log_counts self level msg args kwargs w a :
  let out := LW.CustomAdapter_log self level msg args kwargs w in
  LW._TEMPLATES out.2 = LW._TEMPLATES w
  /\ LW.extra (LW.adapters out.2 a) = LW.extra (LW.adapters w a)
  /\ exists new,
       LW.emitted out.2 = (LW.emitted w ++ new)%list
       /\ ((LW.made_by a new = []
            /\ LW.logOrder (LW.adapters out.2 a) = LW.logOrder (LW.adapters w a))
           \/ (exists r,
                 LW.made_by a new = [r]
                 /\ LW.logOrder (LW.adapters out.2 a) = LW.logOrder (LW.adapters w a) + 1
                 /\ LW.carried_logOrder r
                    = match LW.extra (LW.adapters w a) with
                      | Some _ => Some (PyInt (LW.logOrder (LW.adapters w a) + 1))
                      | None => None
                      end
                 /\ (LW.extra (LW.adapters w a) = None -> LW.l_extra r = None))).
Proof.
  cbn zeta.
  destruct (LW.isEnabledFor w (LW.underlying (LW.adapters w self)) level) eqn:Hen.
  - rewrite (CustomAdapter_log_enabled _ _ _ _ _ _ Hen). cbn zeta.
    cbn [snd LW._TEMPLATES LW.adapters LW.emitted].
    split; [reflexivity|].
    destruct (decide (a = self)) as [->|Hne].
    + rewrite store_set_same. cbn [LW.extra LW.logOrder].
      split; [reflexivity|]. eexists. split; [reflexivity|]. right.
      eexists. unfold LW.made_by. cbn [List.filter LW.l_adapter].
      rewrite bool_decide_eq_true_2 by reflexivity.
      split; [reflexivity|]. split; [reflexivity|].
      unfold LW.carried_logOrder. cbn [LW.l_extra].
      destruct (LW.extra (LW.adapters w self)).
      * split; [apply lookup_insert_eq|discriminate].
      * split; reflexivity.
    + rewrite store_set_other by exact Hne.
      split; [reflexivity|]. eexists. split; [reflexivity|]. left.
      unfold LW.made_by. cbn [List.filter LW.l_adapter].
      rewrite bool_decide_eq_false_2 by congruence. split; reflexivity.
  - rewrite (CustomAdapter_log_disabled _ _ _ _ _ _ Hen). cbn [snd].
    split; [reflexivity|]. split; [reflexivity|].
    exists []. split; [symmetry; apply app_nil_r|]. left. split; reflexivity.
Qed.

(** The same for one call of a program. *)
Lemma run_counts c w a :
  LW.extra (LW.adapters (LW.run c w).2 a) = LW.extra (LW.adapters w a)
  /\ exists new,
       LW.emitted (LW.run c w).2 = (LW.emitted w ++ new)%list
       /\ ((LW.made_by a new = []
            /\ LW.logOrder (LW.adapters (LW.run c w).2 a) = LW.logOrder (LW.adapters w a))
           \/ (exists r,
                 LW.made_by a new = [r]
                 /\ LW.logOrder (LW.adapters (LW.run c w).2 a)
                    = LW.logOrder (LW.adapters w a) + 1
                 /\ LW.carried_logOrder r
                    = match LW.extra (LW.adapters w a) with
                      | Some _ => Some (PyInt (LW.logOrder (LW.adapters w a) + 1))
                      | None => None
                      end
                 /\ (LW.extra (LW.adapters w a) = None -> LW.l_extra r = None))).
Proof.
  assert (Hquiet : forall o : LW.outcome,
            LW.extra (LW.adapters (o, w).2 a) = LW.extra (LW.adapters w a)
            /\ exists new,
                 LW.emitted (o, w).2 = (LW.emitted w ++ new)%list
                 /\ ((LW.made_by a new = []
                      /\ LW.logOrder (LW.adapters (o, w).2 a) = LW.logOrder (LW.adapters w a))
                     \/ (exists r,
                           LW.made_by a new = [r]
                           /\ LW.logOrder (LW.adapters (o, w).2 a)
                              = LW.logOrder (LW.adapters w a) + 1
                           /\ LW.carried_logOrder r
                              = match LW.extra (LW.adapters w a) with
                                | Some _ => Some (PyInt (LW.logOrder (LW.adapters w a) + 1))
                                | None => None
                                end
                           /\ (LW.extra (LW.adapters w a) = None -> LW.l_extra r = None)))).
  { intros o. split; [reflexivity|]. exists []. split; [symmetry; apply app_nil_r|].
    left. split; reflexivity. }
  destruct c as [self args kwargs|self args kwargs|self args kwargs|self args kwargs|level t];
    cbn [LW.run];
    try (unfold LW.info, LW.error, LW.warn, LW.debug, LW.with_template;
         destruct (LW._TEMPLATES w !! _) as [t|]; [|apply Hquiet];
         unfold LW.CustomAdapter_info, LW.CustomAdapter_error, LW.CustomAdapter_warning,
           LW.CustomAdapter_debug;
         match goal with
         | |- context [LW.CustomAdapter_log ?s ?l ?m ?ar ?kw w] =>
             destruct (CustomAdapter_log_counts s l m ar kw w a) as (_ & He & Hn)
         end; split; [exact He|exact Hn]).
  unfold LW.register_template. cbn [snd LW.adapters LW.emitted].
  split; [reflexivity|]. exists []. split; [symmetry; apply app_nil_r|].
  left. split; reflexivity.
Qed.

Lemma made_by_app a l1 l2 :
  LW.made_by a (l1 ++ l2)%list = (LW.made_by a l1 ++ LW.made_by a l2)%list.
Proof. apply List.filter_app. Qed.

Lemma emitted_since_app w w' new :
  LW.emitted w' = (LW.emitted w ++ new)%list -> LW.emitted_since w w' = new.
Proof. unfold LW.emitted_since. intros ->. apply drop_app_length. Qed.

(** Along a program, the calls of the adapter [a] are numbered from its
    counter on. *)
Lemma run_all_counts cs : forall w a,
  LW.extra (LW.adapters (LW.run_all cs w) a) = LW.extra (LW.adapters w a)
  /\ exists new,
       LW.emitted (LW.run_all cs w) = (LW.emitted w ++ new)%list
       /\ LW.carried_logOrder <$> LW.made_by a new
          = (fun n => match LW.extra (LW.adapters w a) with
                      | Some _ => Some (PyInt n)
                      | None => None
                      end)
            <$> seqZ (LW.logOrder (LW.adapters w a) + 1)
                  (Z.of_nat (length (LW.made_by a new)))
       /\ LW.logOrder (LW.adapters (LW.run_all cs w) a)
          = LW.logOrder (LW.adapters w a) + Z.of_nat (length (LW.made_by a new))
       /\ (LW.extra (LW.adapters w a) = None ->
           Forall (fun r => LW.l_extra r = None) (LW.made_by a new)).
Proof.
  induction cs as [|c cs IH]; intros w a.
  - cbn. split; [reflexivity|]. exists []. split; [symmetry; apply app_nil_r|].
    cbn. split; [reflexivity|]. split; [lia|]. constructor.
  - change (LW.run_all (c :: cs) w) with (LW.run_all cs (LW.run c w).2).
    destruct (run_counts c w a) as (He1 & new1 & Hem1 & Hcase).
    destruct (IH (LW.run c w).2 a) as (He2 & new2 & Hem2 & Hc2 & Hl2 & Hn2).
    split; [congruence|].
    exists (new1 ++ new2)%list. split; [rewrite Hem2, Hem1, app_assoc; reflexivity|].
    rewrite made_by_app. rewrite He1 in Hc2, Hn2.
    destruct Hcase as [[Hm Hlo]|(r & Hm & Hlo & Hr & Hnone)]; rewrite Hm, Hlo in *.
    + cbn [app]. auto.
    + cbn [app length fmap list_fmap].
      rewrite Nat2Z.inj_succ.
      rewrite (seqZ_cons (LW.logOrder (LW.adapters w a) + 1)) by lia.
      replace (Z.pred (Z.succ (Z.of_nat (length (LW.made_by a new2)))))
        with (Z.of_nat (length (LW.made_by a new2))) by lia.
      replace (Z.succ (LW.logOrder (LW.adapters w a) + 1))
        with (LW.logOrder (LW.adapters w a) + 1 + 1) by lia.
      cbn [fmap list_fmap]. rewrite Hr.
      split; [f_equal; exact Hc2|]. split; [lia|].
      intros Hx. constructor; auto.
Qed.

(** X20: an adapter built with a dict as [extra] numbers the calls it
    passes on.  Along any sequence of [info], [error], [warn], [debug] and
    [register_template] calls on any wrappers, the calls that the adapter
    makes to its logger carry [logOrder] values that go up by one from the
    adapter's counter, without gaps, whichever wrapper and level they came
    from; calls at a level that is not enabled use up no number; and the
    counter ends at the number of the last call. *)
Theorem logOrder_numbers_the_calls cs w a d :
  LW.extra (LW.adapters w a) = Some d ->
  let mine := LW.made_by a (LW.emitted_since w (LW.run_all cs w)) in
  LW.carried_logOrder <$> mine
  = (fun n => Some (PyInt n))
    <$> seqZ (LW.logOrder (LW.adapters w a) + 1) (Z.of_nat (length mine))
  /\ LW.logOrder (LW.adapters (LW.run_all cs w) a)
     = LW.logOrder (LW.adapters w a) + Z.of_nat (length mine).
Proof.
  intros Hd. cbn zeta.
  destruct (run_all_counts cs w a) as (_ & new & Hem & Hc & Hl & _).
  rewrite (emitted_since_app _ _ _ Hem). rewrite Hd in Hc. auto.
Qed.

(** X21: with [extra=None], the default of [init_logger], the adapter
    still counts the calls it passes on, but no call ever carries the
    count: each is made with [extra=None]. *)
Theorem default_extra_shows_no_logOrder name run_key w cs :
  let lw := (LW.init_logger name run_key None w).1 in
  let w1 := (LW.init_logger name run_key None w).2 in
  let mine := LW.made_by (LW.logger lw) (LW.emitted_since w1 (LW.run_all cs w1)) in
  Forall (fun r => LW.l_extra r = None) mine
  /\ LW.logOrder (LW.adapters (LW.run_all cs w1) (LW.logger lw)) = Z.of_nat (length mine).
Proof.
  cbn zeta. set (w1 := (LW.init_logger name run_key None w).2).
  set (a := LW.logger (LW.init_logger name run_key None w).1).
  assert (Ha : LW.adapters w1 a = LW.mk_CustomAdapter name None 0).
  { unfold w1, a, LW.init_logger. cbn. apply store_set_same. }
  destruct (run_all_counts cs w1 a) as (_ & new & Hem & _ & Hl & Hnone).
  rewrite (emitted_since_app _ _ _ Hem). rewrite Ha in Hl, Hnone. cbn in Hl, Hnone.
  split; [apply Hnone; reflexivity|exact Hl].
Qed.

Lemma logOrder_numbers_the_calls_witness :
  let lw := (LW.init_logger "pricing" (PyStr "SwapPricing") (Some 7) LW.fresh_world).1 in
  let w := (LW.init_logger "pricing" (PyStr "SwapPricing") (Some 7) LW.fresh_world).2 in
  let cs := [LW.Info lw [PyStr "ParseInputs"; PyStr "Started"] ∅;
             LW.Debug lw [PyStr "ParseInputs"; PyStr "three legs"] ∅;
             LW.Error lw [PyStr "ParseInputs"; PyStr "Error"; PyStr "ValueError";
                          PyStr "bad tenor"] ∅] in
  let mine := LW.made_by 0 (LW.emitted_since w (LW.run_all cs w)) in
  LW.carried_logOrder <$> mine
  = (fun n => Some (PyInt n))
    <$> seqZ (LW.logOrder (LW.adapters w 0) + 1) (Z.of_nat (length mine))
  /\ LW.logOrder (LW.adapters (LW.run_all cs w) 0)
     = LW.logOrder (LW.adapters w 0) + Z.of_nat (length mine).
Proof.
  intros lw w cs.
  apply (logOrder_numbers_the_calls cs w 0 7). reflexivity.
Defined.

(** ** The template table *)

Lemma run_keeps_templates c w k :
  is_Some (LW._TEMPLATES w !! k) -> is_Some (LW._TEMPLATES (LW.run c w).2 !! k).
Proof.
  assert (Hlog : forall key level self args kwargs,
            LW._TEMPLATES (LW.with_template key
                             (fun t => LW.CustomAdapter_log (LW.logger self) level t
                                         (LW.runKey self :: args) kwargs) w).2
            = LW._TEMPLATES w).
  { intros key level self args kwargs. unfold LW.with_template.
    destruct (LW._TEMPLATES w !! key) as [t|]; [|reflexivity].
    destruct (CustomAdapter_log_counts (LW.logger self) level t (LW.runKey self :: args)
                kwargs w 0) as (Hsame & _).
    exact Hsame. }
  intros Hk.
  destruct c as [self args kwargs|self args kwargs|self args kwargs|self args kwargs|level t];
    cbn [LW.run].
  - unfold LW.info, LW.CustomAdapter_info. rewrite Hlog. exact Hk.
  - unfold LW.error, LW.CustomAdapter_error. rewrite Hlog. exact Hk.
  - unfold LW.warn, LW.CustomAdapter_warning. rewrite Hlog. exact Hk.
  - unfold LW.debug, LW.CustomAdapter_debug. rewrite Hlog. exact Hk.
  - unfold LW.register_template. cbn [snd LW._TEMPLATES].
    destruct (decide (level = k)) as [->|Hne].
    + rewrite lookup_insert_eq. eauto.
    + rewrite lookup_insert_ne by exact Hne. exact Hk.
Qed.

Lemma run_all_keeps_templates cs : forall w k,
  is_Some (LW._TEMPLATES w !! k) -> is_Some (LW._TEMPLATES (LW.run_all cs w) !! k).
Proof.
  induction cs as [|c cs IH]; intros w k Hk; [exact Hk|].
  change (LW.run_all (c :: cs) w) with (LW.run_all cs (LW.run c w).2).
  apply IH, run_keeps_templates, Hk.
Qed.

Lemma wrapper_call level key self args kwargs w t :
  LW._TEMPLATES w !! key = Some t ->
  let out := LW.with_template key
               (fun t => LW.CustomAdapter_log (LW.logger self) level t
                           (LW.runKey self :: args) kwargs) w in
  if LW.isEnabledFor w (LW.underlying (LW.adapters w (LW.logger self))) level then
    exists r,
      LW.emitted_since w out.2 = [r]
      /\ out.1 = LW.logger_log w r
      /\ LW.l_adapter r = LW.logger self /\ LW.l_level r = level /\ LW.l_msg r = t
      /\ LW.l_args r = LW.runKey self :: args
      /\ LW.l_kwargs r = delete "extra" kwargs
  else out = (LW.Returned, w).
Proof.
  intros Ht. cbn zeta. unfold LW.with_template. rewrite Ht.
  destruct (LW.isEnabledFor w _ level) eqn:Hen.
  - rewrite (CustomAdapter_log_enabled _ _ _ _ _ _ Hen). cbn zeta.
    eexists. split; [apply emitted_since_app; reflexivity|].
    cbn. repeat split; reflexivity.
  - apply CustomAdapter_log_disabled. exact Hen.
Qed.



(** X23: the template table belongs to the class, and [warn] reads it
    under "warning".  After [register_template(level, t)], [warn] of any
    wrapper, old or new, uses [t] if [level] is "warning"; for any other
    [level], "warn" among them, it does what it would have done without
    the registration. *)
Theorem register_template_warning_not_warn level t w self args kwargs :
  let w1 := (LW.register_template level t w).2 in
  (level = "warning" ->
   Forall (fun r => LW.l_msg r = t) (LW.emitted_since w1 (LW.warn self args kwargs w1).2))
  /\ (level <> "warning" ->
      (LW.warn self args kwargs w1).1 = (LW.warn self args kwargs w).1
      /\ LW.emitted_since w1 (LW.warn self args kwargs w1).2
         = LW.emitted_since w (LW.warn self args kwargs w).2).
Proof.
  cbn zeta. set (w1 := (LW.register_template level t w).2). split.
  - intros ->.
    assert (Ht : LW._TEMPLATES w1 !! "warning" = Some t) by apply lookup_insert_eq.
    pose proof (wrapper_call LW.WARNING "warning" self args kwargs w1 t Ht) as H.
    cbn zeta in H. fold (LW.CustomAdapter_warning (LW.logger self)) in H.
    change (LW.with_template "warning" _ w1) with (LW.warn self args kwargs w1) in H.
    destruct (LW.isEnabledFor w1 _ LW.WARNING).
    + destruct H as (r & -> & _ & _ & _ & Hm & _). repeat constructor. exact Hm.
    + rewrite H. cbn [snd]. unfold LW.emitted_since. rewrite drop_all. constructor.
  - intros Hne. unfold LW.warn, LW.with_template.
    assert (Ht : LW._TEMPLATES w1 !! "warning" = LW._TEMPLATES w !! "warning").
    { unfold w1, LW.register_template. cbn. apply lookup_insert_ne. exact Hne. }
    rewrite Ht. destruct (LW._TEMPLATES w !! "warning") as [t0|].
    + unfold LW.CustomAdapter_warning.
      change (LW.isEnabledFor w1) with (LW.isEnabledFor w).
      destruct (LW.isEnabledFor w (LW.underlying (LW.adapters w (LW.logger self)))
                  LW.WARNING) eqn:Hen.
      * rewrite (CustomAdapter_log_enabled _ _ _ _ _ w1 Hen),
          (CustomAdapter_log_enabled _ _ _ _ _ w Hen).
        cbn zeta. split; [reflexivity|].
        erewrite !emitted_since_app by reflexivity. reflexivity.
      * rewrite (CustomAdapter_log_disabled _ _ _ _ _ w1 Hen),
          (CustomAdapter_log_disabled _ _ _ _ _ w Hen).
        split; [reflexivity|]. unfold LW.emitted_since. rewrite !drop_all. reflexivity.
    + split; [reflexivity|]. unfold LW.emitted_since. rewrite !drop_all. reflexivity.
Qed.
